(** * AI Job Search Assistant: a shallow embedding of [app.py]

    The Streamlit script is embedded handler by handler.  Python text is a
    Rocq [string] (a sequence of 8-bit characters; text outside ASCII is its
    UTF-8 encoding), Python integers are [Z], the values produced by
    [json.loads] are the inductive [pyval], the widgets the script draws are
    a log of [ui_event]s, and [st.session_state] is an explicit record that
    every handler threads through.

    What lies outside the script is taken as follows.
    - The completion endpoint is a function from requests to outcomes; a
      handler is verified for every such function.  An outcome is the text
      of the first choice or an exception.
    - [json.loads] is embedded after the [json] module of CPython:
      [decoder.py] for [decode], objects and arrays, and the C scanner for
      strings and its messages.  The recursion limit of the interpreter
      and its limit on the digits of an integer are not modelled.
    - [str.lower] follows Python on every character whose lower case
      holds a character of ASCII: the letters A to Z, the Kelvin sign
      U+212A and U+0130.  The other characters outside ASCII lower to
      characters outside ASCII and are left as they are; the script only
      ever looks for ASCII words in a lowered text, which cannot tell the
      difference.
    - A widget is the value it returns in the run at hand: the handlers
      take these values as arguments.
    - A Streamlit call draws what it is given and returns.  Streamlit
      sends text as UTF-8 and raises [UnicodeEncodeError] on a text that
      holds a surrogate; what is proved of the texts an endpoint answers
      is stated for texts that can be encoded, [Text.encodable].
    - An uploaded file is its name and what the PDF reader and the Word
      reader make of it: the texts they extract, or the exception they
      raise. *)

From Stdlib Require Import ZArith QArith Ascii String List Lia Bool.
From Stdlib Require Import DecimalString.
From stdpp Require Import base option list strings gmap fin_maps.

Local Open Scope Z_scope.
Set Warnings "-register-all".

(* ===================================================================== *)
(** * Text: the [str] operations the script uses                          *)
(* ===================================================================== *)

Module Text.

(** The newline character written [\n] in the Python literals. *)
Definition nl : string := String (ascii_of_nat 10) EmptyString.

(** [s.startswith(p)] *)
Fixpoint startswith (p s : string) : bool :=
  match p, s with
  | EmptyString, _ => true
  | String a p', String b s' => Ascii.eqb a b && startswith p' s'
  | String _ _, EmptyString => false
  end.

(** [sub in s]: [sub] occurs in [s] as a contiguous substring. *)
Fixpoint contains (sub s : string) : bool :=
  startswith sub s ||
  match s with
  | EmptyString => false
  | String _ s' => contains sub s'
  end.

(** [str.lower()] on one ASCII character: the letters [A]..[Z] go to
    [a]..[z]. *)
Definition lower_char (c : ascii) : ascii :=
  let n := nat_of_ascii c in
  if ((65 <=? n) && (n <=? 90))%nat then ascii_of_nat (n + 32) else c.

(** Two characters outside ASCII have ASCII in their lower case: the
    Kelvin sign U+212A, whose small letter is [k], and the capital I
    with a dot above, U+0130, which becomes [i] followed by the
    combining dot U+0307.  Here they are in UTF-8. *)
Definition kelvin_sign : string :=
  String "226" (String "132" (String "170" EmptyString)).

Definition dotted_capital_i : string := String "196" (String "176" EmptyString).

Definition dotted_small_i : string :=
  String "i" (String "204" (String "135" EmptyString)).

(** [s.lower()].  Every other character outside ASCII lowers to
    characters outside ASCII and is left as it is: the script only looks
    for ASCII words in a lowered text, and these bytes match none of
    their letters before or after lowering. *)
Fixpoint lower (s : string) : string :=
  match s with
  | EmptyString => EmptyString
  | String a r =>
      if startswith dotted_capital_i s then
        match r with
        | String _ r2 => dotted_small_i +:+ lower r2
        | EmptyString => EmptyString
        end
      else if startswith kelvin_sign s then
        match r with
        | String _ (String _ r3) => String "k" (lower r3)
        | _ => EmptyString
        end
      else String (lower_char a) (lower r)
  end.

(** [str(n)] for a Python integer. *)
Definition str_of_Z (n : Z) : string := NilZero.string_of_int (Z.to_int n).

(** [str(n)] for a natural number (positions, line and column numbers). *)
Definition str_of_nat (n : nat) : string := str_of_Z (Z.of_nat n).

(** [sep.join(parts)] *)
Fixpoint join (sep : string) (parts : list string) : string :=
  match parts with
  | [] => EmptyString
  | [p] => p
  | p :: rest => p +:+ sep +:+ join sep rest
  end.

(** In UTF-8 the bytes [0x80]..[0xBF] continue a character begun by an
    earlier byte; every other byte begins one. *)
Definition is_continuation (c : ascii) : bool :=
  let n := nat_of_ascii c in ((128 <=? n) && (n <? 192))%nat.

Definition starts_with_continuation (s : string) : bool :=
  match s with String d _ => is_continuation d | EmptyString => false end.

(** [len(s)], counted in characters. *)
Fixpoint char_count (s : string) : nat :=
  match s with
  | EmptyString => O
  | String c r => if is_continuation c then char_count r else S (char_count r)
  end.

(** Truthiness of a text: the empty text is false. *)
Definition nonempty (s : string) : bool :=
  match s with EmptyString => false | String _ _ => true end.

(** [s.encode("utf-8")] succeeds: the text holds no surrogate, a code
    point from U+D800 to U+DFFF, which a Python [str] can hold (from the
    escape [\ud800] in JSON, say) and UTF-8 has no bytes for.  In the
    bytes of this model a surrogate shows as [0xED] followed by a byte
    from [0xA0] on. *)
Fixpoint encodable (s : string) : bool :=
  match s with
  | EmptyString => true
  | String c r =>
      negb (Ascii.eqb c "237"
            && match r with
               | String d _ => (160 <=? nat_of_ascii d)%nat
               | EmptyString => false
               end)
      && encodable r
  end.

End Text.

(* ===================================================================== *)
(** * Prompt builder ([make_prompt], lines 23-47)                         *)
(* ===================================================================== *)

Module Prompt.
Import Text.

(** The f-string that opens every prompt. *)
Definition preamble (mode : string) : string :=
  "You are an expert career assistant. Mode: " +:+ mode +:+ "." +:+ nl +:+
  "Please keep your response as concise as possible.".

Definition analyze_instructions : string :=
  "Analyze the resume and return ONLY valid JSON (no markdown, no explanation, no code block) with keys: assessment, strengths, weaknesses, rewritten_bullets, " +:+
  "job_titles, freelance_ideas, keywords, rewritten_resume, bullet_resume, email_summary." +:+ nl.

Definition cover_letter_instructions : string :=
  "Generate a tailored cover letter based on the resume and job description. Use a professional tone." +:+ nl.

Definition linkedin_instructions : string :=
  "Suggest LinkedIn headline, summary, and experience section updates based on the resume." +:+ nl.

Definition interview_instructions : string :=
  "Generate 5 personalized interview questions and suggested answers based on the resume and job description." +:+ nl.

(** The [if mode == ... elif ...] chain: any other mode adds nothing. *)
Definition mode_instructions (mode : string) : string :=
  if String.eqb mode "analyze" then analyze_instructions
  else if String.eqb mode "cover_letter" then cover_letter_instructions
  else if String.eqb mode "linkedin" then linkedin_instructions
  else if String.eqb mode "interview" then interview_instructions
  else EmptyString.

(** [if job_description: base += f"Job Description:\n{job_description}\n"] *)
Definition job_block (job_description : option string) : string :=
  match job_description with
  | Some jd => if nonempty jd then "Job Description:" +:+ nl +:+ jd +:+ nl
               else EmptyString
  | None => EmptyString
  end.

(** [if user_question: base += f"User Question:\n{user_question}\n"] *)
Definition question_block (user_question : option string) : string :=
  match user_question with
  | Some q => if nonempty q then "User Question:" +:+ nl +:+ q +:+ nl
              else EmptyString
  | None => EmptyString
  end.

Definition resume_block (resume_text : string) : string :=
  "Resume Text:" +:+ nl +:+ resume_text.

(** [make_prompt]: [base] is extended by [+=] in the order of the source. *)
Definition make_prompt (resume_text : string)
    (job_description user_question : option string) (mode : string) : string :=
  let base := preamble mode in
  let base := base +:+ mode_instructions mode in
  let base := base +:+ job_block job_description in
  let base := base +:+ question_block user_question in
  let base := base +:+ resume_block resume_text in
  base.

End Prompt.

(* ===================================================================== *)
(** * Resume scoring ([resume_score], lines 50-57)                        *)
(* ===================================================================== *)

Module Score.
Import Text.

(** The score is a Python dict; its items are kept in insertion order,
    which is the order of the rows of the breakdown table. *)
Definition scores := list (string * Z).

(** [sum(score.values())] *)
Definition sum_values (score : scores) : Z :=
  fold_left Z.add (map snd score) 0.

(** [score[key]] *)
Fixpoint item (key : string) (score : scores) : option Z :=
  match score with
  | [] => None
  | (k, v) :: rest => if String.eqb k key then Some v else item key rest
  end.

Definition contact_words : list string := ["email"; "phone"; "contact"].

(** [10 if any(word in text.lower() for word in [...]) else 0] *)
Definition contact_score (text : string) : Z :=
  if existsb (fun word => contains word (lower text)) contact_words then 10 else 0.

(** [10 if 'skills' in text.lower() else 0] *)
Definition skills_score (text : string) : Z :=
  if contains "skills" (lower text) then 10 else 0.

(** [10 if 'experience' in text.lower() else 0] *)
Definition experience_score (text : string) : Z :=
  if contains "experience" (lower text) then 10 else 0.

Definition resume_score (text : string) : scores :=
  let score :=
    [ ("Contact", contact_score text);
      ("Skills", skills_score text);
      ("Experience", experience_score text) ] in
  score ++ [("Total", sum_values score)].

End Score.

(* ===================================================================== *)
(** * Python values and [json.loads]                                      *)
(* ===================================================================== *)

(** A float read from a JSON document is kept as the decimal literal it
    was read from: [FDec neg m e] stands for the double nearest to
    [(-1)^neg * m * 10^e]. *)
Inductive pyfloat : Type :=
| FNaN
| FInf (negative : bool)
| FDec (negative : bool) (mantissa : Z) (exp10 : Z).

(** The values [json.loads] can return.  A dict keeps its items in
    insertion order, with one item per key. *)
Inductive pyval : Type :=
| PNone
| PBool (b : bool)
| PInt (n : Z)
| PFloat (f : pyfloat)
| PStr (s : string)
| PList (items : list pyval)
| PDict (items : list (string * pyval)).

Module Py.

(** [d[key] = value] on a dict: overwrite in place or append. *)
Fixpoint dict_set (key : string) (value : pyval) (d : list (string * pyval))
    : list (string * pyval) :=
  match d with
  | [] => [(key, value)]
  | (k, v) :: rest =>
      if String.eqb k key then (k, value) :: rest
      else (k, v) :: dict_set key value rest
  end.

(** [dict(pairs)] *)
Definition dict_of_pairs (pairs : list (string * pyval)) : list (string * pyval) :=
  fold_left (fun d kv => dict_set (fst kv) (snd kv) d) pairs [].

(** [d.get(key)] *)
Fixpoint dict_lookup (key : string) (d : list (string * pyval)) : option pyval :=
  match d with
  | [] => None
  | (k, v) :: rest => if String.eqb k key then Some v else dict_lookup key rest
  end.

(** [d.get(key, default)] *)
Definition dict_get (d : list (string * pyval)) (key : string) (default : pyval) : pyval :=
  match dict_lookup key d with Some v => v | None => default end.

(** A decimal literal is read as [0.0] when it is zero or so small that
    the nearest double is zero, that is at most [2^-1075]. *)
Definition float_is_zero (f : pyfloat) : bool :=
  match f with
  | FNaN => false
  | FInf _ => false
  | FDec _ m e =>
      (m =? 0) || ((e <? 0) && (m * 2 ^ 1075 <=? 10 ^ (- e)))
  end.

(** Truth value of an object, as tested by [if result:]. *)
Definition truthy (v : pyval) : bool :=
  match v with
  | PNone => false
  | PBool b => b
  | PInt n => negb (n =? 0)
  | PFloat f => negb (float_is_zero f)
  | PStr s => Text.nonempty s
  | PList items => match items with [] => false | _ => true end
  | PDict items => match items with [] => false | _ => true end
  end.

(** The name Python prints for the type of a value in error messages. *)
Definition type_name (v : pyval) : string :=
  match v with
  | PNone => "NoneType"
  | PBool _ => "bool"
  | PInt _ => "int"
  | PFloat _ => "float"
  | PStr _ => "str"
  | PList _ => "list"
  | PDict _ => "dict"
  end.

(** Every text in a value, nested or not, keys included, can be encoded
    as UTF-8. *)
Fixpoint encodable (v : pyval) : bool :=
  match v with
  | PStr s => Text.encodable s
  | PList items => forallb encodable items
  | PDict items => forallb (fun '(k, x) => Text.encodable k && encodable x) items
  | _ => true
  end.

(** The characters of a text, each as a one-character text.  A character
    outside ASCII is the run of bytes that encodes it. *)
Fixpoint code_points (s : string) : list string :=
  match s with
  | EmptyString => []
  | String c r =>
      let rest := code_points r in
      match rest with
      | x :: xs =>
          if Text.starts_with_continuation r then String c x :: xs
          else String c EmptyString :: rest
      | [] => [String c EmptyString]
      end
  end.

Definition chars (s : string) : list pyval := map PStr (code_points s).

(** [iter(v)]: what a [for] loop or [join] walks over; [None] when the
    value is not iterable.  A dict is walked by its keys. *)
Definition iter (v : pyval) : option (list pyval) :=
  match v with
  | PStr s => Some (chars s)
  | PList items => Some items
  | PDict items => Some (map (fun kv => PStr (fst kv)) items)
  | PNone | PBool _ | PInt _ | PFloat _ => None
  end.

End Py.

Module Json.
Import Text.

(** Result of one scanning step: a value and the index after it, the
    [StopIteration(idx)] of the scanner, or a [JSONDecodeError(msg, s, pos)].
    [Exhausted] is the result of a loop or of a nesting that reaches the
    bound this embedding puts on it; [scan_once_sufficient] below shows
    that [loads] never meets it. *)
Inductive scan (A : Type) : Type :=
| Scanned (a : A) (end_ : nat)
| StopIteration (idx : nat)
| DecodeError (msg : string) (pos : nat)
| Exhausted.
Arguments Scanned {A} a end_.
Arguments StopIteration {A} idx.
Arguments DecodeError {A} msg pos.
Arguments Exhausted {A}.

Definition tab : ascii := ascii_of_nat 9.
Definition lf : ascii := ascii_of_nat 10.
Definition cr : ascii := ascii_of_nat 13.
Definition quote : ascii := ascii_of_nat 34.
Definition backslash : ascii := ascii_of_nat 92.

(** Membership in [WHITESPACE_STR = ' \t\n\r']. *)
Definition is_ws (c : ascii) : bool :=
  Ascii.eqb c " " || Ascii.eqb c tab || Ascii.eqb c lf || Ascii.eqb c cr.

(** [s[i:]] *)
Definition drop (i : nat) (s : string) : string :=
  substring i (String.length s - i) s.

Fixpoint skip_ws (rest : string) (i : nat) : nat :=
  match rest with
  | String c r => if is_ws c then skip_ws r (S i) else i
  | EmptyString => i
  end.

(** [WHITESPACE.match(s, i).end()]: the index of the first character at
    or after [i] that is not whitespace; [i] is clamped to [len(s)]. *)
Definition ws_end (s : string) (i : nat) : nat :=
  let i := Nat.min i (String.length s) in
  skip_ws (drop i s) i.

Definition is_digit (c : ascii) : bool :=
  let n := nat_of_ascii c in ((48 <=? n) && (n <=? 57))%nat.

Definition digit_value (c : ascii) : Z := Z.of_nat (nat_of_ascii c - 48).

Definition hex_value (c : ascii) : option Z :=
  let n := nat_of_ascii c in
  if ((48 <=? n) && (n <=? 57))%nat then Some (Z.of_nat (n - 48))
  else if ((65 <=? n) && (n <=? 70))%nat then Some (Z.of_nat (n - 55))
  else if ((97 <=? n) && (n <=? 102))%nat then Some (Z.of_nat (n - 87))
  else None.

Definition byte (n : Z) : ascii := ascii_of_nat (Z.to_nat n).

(** [chr(uni)], as UTF-8. *)
Definition chr (uni : Z) : string :=
  if uni <? 128 then String (byte uni) EmptyString
  else if uni <? 2048 then
    String (byte (192 + uni / 64)) (String (byte (128 + uni mod 64)) EmptyString)
  else if uni <? 65536 then
    String (byte (224 + uni / 4096))
      (String (byte (128 + (uni / 64) mod 64))
         (String (byte (128 + uni mod 64)) EmptyString))
  else
    String (byte (240 + uni / 262144))
      (String (byte (128 + (uni / 4096) mod 64))
         (String (byte (128 + (uni / 64) mod 64))
            (String (byte (128 + uni mod 64)) EmptyString))).

(** The [BACKSLASH] table of one-character escapes. *)
Definition BACKSLASH (esc : ascii) : option ascii :=
  if Ascii.eqb esc quote then Some quote
  else if Ascii.eqb esc backslash then Some backslash
  else if Ascii.eqb esc "/" then Some "/"%char
  else if Ascii.eqb esc "b" then Some (ascii_of_nat 8)
  else if Ascii.eqb esc "f" then Some (ascii_of_nat 12)
  else if Ascii.eqb esc "n" then Some lf
  else if Ascii.eqb esc "r" then Some cr
  else if Ascii.eqb esc "t" then Some tab
  else None.

(** The four hexadecimal digits at [s[i:i+4]]; [None] when one of them
    is not a hexadecimal digit. *)
Definition hex4 (s : string) (i : nat) : option Z :=
  match substring i 4 s with
  | String a (String b (String c (String d EmptyString))) =>
      match hex_value a, hex_value b, hex_value c, hex_value d with
      | Some x, Some y, Some z, Some w => Some (((x * 16 + y) * 16 + z) * 16 + w)
      | _, _, _, _ => None
      end
  | _ => None
  end.

Definition invalid_escape : string := "Invalid " +:+ String backslash "escape".
Definition invalid_uXXXX : string := "Invalid " +:+ String backslash "uXXXX escape".

(** The first quote, backslash or control character at or after index
    [i], with its index: where the inner loop of [scanstring] stops. *)
Fixpoint find_terminator (rest : string) (i : nat) : option (nat * ascii) :=
  match rest with
  | EmptyString => None
  | String c r =>
      if Ascii.eqb c quote || Ascii.eqb c backslash || (nat_of_ascii c <? 32)%nat
      then Some (i, c)
      else find_terminator r (S i)
  end.

(** The [while (1)] loop of [scanstring] in strict mode, with the
    messages and positions of the C scanner that [json] runs ([_json.c]);
    [n] bounds the number of chunks, one for each character at most. *)
Fixpoint scanstring_loop (n : nat) (s : string) (begin : nat)
    (chunks : string) (end_ : nat) : scan string :=
  match n with
  | O => Exhausted
  | S n' =>
      match find_terminator (drop end_ s) end_ with
      | None => DecodeError "Unterminated string starting at" begin
      | Some (next, c) =>
          if negb (Ascii.eqb c quote || Ascii.eqb c backslash) then
            DecodeError "Invalid control character at" next
          else
            let chunks := chunks +:+ substring end_ (next - end_) s in
            let next := S next in
            if Ascii.eqb c quote then Scanned chunks next
            else
              match String.get next s with
              | None => DecodeError "Unterminated string starting at" begin
              | Some c =>
                  if negb (Ascii.eqb c "u") then
                    match BACKSLASH c with
                    | None => DecodeError invalid_escape (next - 1)
                    | Some char =>
                        scanstring_loop n' s begin (chunks +:+ String char EmptyString)
                                        (next + 1)
                    end
                  else
                    let next := (next + 1)%nat in
                    let end_ := (next + 4)%nat in
                    if (String.length s <=? end_)%nat then
                      DecodeError invalid_uXXXX (next - 1)
                    else
                      match hex4 s next with
                      | None => DecodeError invalid_uXXXX (end_ - 5)
                      | Some c =>
                          if (55296 <=? c) && (c <=? 56319)
                             && (end_ + 6 <? String.length s)%nat
                             && String.eqb (substring end_ 2 s) (String backslash "u")
                          then
                            match hex4 s (end_ + 2) with
                            | None => DecodeError invalid_uXXXX (end_ + 1)
                            | Some c2 =>
                                if (56320 <=? c2) && (c2 <=? 57343) then
                                  let c := 65536 + ((c - 55296) * 1024 + (c2 - 56320)) in
                                  scanstring_loop n' s begin (chunks +:+ chr c) (end_ + 6)
                                else scanstring_loop n' s begin (chunks +:+ chr c) end_
                            end
                          else scanstring_loop n' s begin (chunks +:+ chr c) end_
                      end
              end
      end
  end.

(** [scanstring(s, end)]: [end_] is the index after the opening quote. *)
Definition scanstring (s : string) (end_ : nat) : scan string :=
  scanstring_loop (S (String.length s)) s (end_ - 1) EmptyString end_.

(** ** Numbers *)

(** The longest run of decimal digits at the start of [rest]. *)
Fixpoint span_digits (rest : string) : string * string :=
  match rest with
  | String c r =>
      if is_digit c then let (ds, r') := span_digits r in (String c ds, r')
      else (EmptyString, rest)
  | EmptyString => (EmptyString, EmptyString)
  end.

(** [int(digits)] for a run of decimal digits. *)
Definition Z_of_digits (ds : string) : Z :=
  fold_left (fun acc c => acc * 10 + digit_value c) (list_ascii_of_string ds) 0.

(** The integer part of [NUMBER_RE]: [0|[1-9][0-9]*]. *)
Definition match_integer (rest : string) : option (string * string) :=
  match rest with
  | String c r =>
      if Ascii.eqb c "0" then Some ("0", r)
      else if is_digit c then Some (span_digits rest)
      else None
  | EmptyString => None
  end.

(** The optional group [(\.[0-9]+)?]: the digits after the point. *)
Definition match_frac (rest : string) : option string * string :=
  match rest with
  | String "." r =>
      let (ds, r') := span_digits r in
      if nonempty ds then (Some ds, r') else (None, rest)
  | _ => (None, rest)
  end.

(** The optional group [([eE][-+]?[0-9]+)?]: the exponent and how many
    characters it takes. *)
Definition match_exp (rest : string) : option (Z * nat) :=
  match rest with
  | String c r =>
      if Ascii.eqb c "e" || Ascii.eqb c "E" then
        let '(negative, signed, r1) :=
          match r with
          | String "-" r1 => (true, 1%nat, r1)
          | String "+" r1 => (false, 1%nat, r1)
          | _ => (false, 0%nat, r)
          end in
        let (ds, _) := span_digits r1 in
        if nonempty ds then
          Some (if negative : bool then - Z_of_digits ds else Z_of_digits ds,
                (1 + signed + String.length ds)%nat)
        else None
      else None
  | EmptyString => None
  end.

(** The number after the optional sign: [parse_int] when it has neither
    fraction nor exponent, [parse_float] otherwise; with the count of
    characters it takes, sign included. *)
Definition match_unsigned (negative : bool) (r0 : string) : option (pyval * nat) :=
  match match_integer r0 with
  | None => None
  | Some (integer, r1) =>
      let (frac, r2) := match_frac r1 in
      let exp := match_exp r2 in
      let len_int := ((if negative then 1 else 0) + String.length integer)%nat in
      match frac, exp with
      | None, None =>
          let n := Z_of_digits integer in
          Some (PInt (if negative then - n else n), len_int)
      | _, _ =>
          let fs := match frac with Some ds => ds | None => EmptyString end in
          let len_frac := match frac with Some ds => S (String.length ds) | None => O end in
          let '(e, len_exp) := match exp with Some el => el | None => (0, O) end in
          Some (PFloat (FDec negative (Z_of_digits (integer +:+ fs))
                              (e - Z.of_nat (String.length fs))),
                (len_int + len_frac + len_exp)%nat)
      end
  end.

(** [match_number(string, idx)] followed by [parse_int] or [parse_float]:
    the number at the start of [rest] and the count of characters it
    takes. *)
Definition match_number (rest : string) : option (pyval * nat) :=
  match rest with
  | String c r =>
      if Ascii.eqb c "-" then match_unsigned true r else match_unsigned false rest
  | EmptyString => None
  end.

(** ** Arrays and objects *)

Section Containers.
(** [scan_once] is passed to the container parsers, as in the source. *)
Variable scan_once : string -> nat -> scan pyval.

(** The [while True] loop of [JSONArray]; [n] bounds the iterations. *)
Fixpoint JSONArray_loop (n : nat) (s : string) (values : list pyval)
    (end_ : nat) : scan pyval :=
  match n with
  | O => Exhausted
  | S n' =>
      match scan_once s end_ with
      | StopIteration idx => DecodeError "Expecting value" idx
      | DecodeError msg pos => DecodeError msg pos
      | Exhausted => Exhausted
      | Scanned value end_ =>
          let values := values ++ [value] in
          let end_ := ws_end s end_ in
          let nextchar := substring end_ 1 s in
          let end_ := (end_ + 1)%nat in
          if String.eqb nextchar "]" then Scanned (PList values) end_
          else if negb (String.eqb nextchar ",") then
            DecodeError "Expecting ',' delimiter" (end_ - 1)
          else JSONArray_loop n' s values (ws_end s end_)
      end
  end.

(** [JSONArray((s, end), scan_once)]: [end_] is the index after [[]. *)
Definition JSONArray (s : string) (end_ : nat) : scan pyval :=
  let end_ := ws_end s end_ in
  let nextchar := substring end_ 1 s in
  if String.eqb nextchar "]" then Scanned (PList []) (end_ + 1)
  else JSONArray_loop (S (String.length s)) s [] end_.

(** The [while True] loop of [JSONObject]; [end_] is the index after
    the quote that opens the next key. *)
Fixpoint JSONObject_loop (n : nat) (s : string) (pairs : list (string * pyval))
    (end_ : nat) : scan pyval :=
  match n with
  | O => Exhausted
  | S n' =>
      match scanstring s end_ with
      | StopIteration idx => StopIteration idx
      | DecodeError msg pos => DecodeError msg pos
      | Exhausted => Exhausted
      | Scanned key end_ =>
          let end_ :=
            if negb (String.eqb (substring end_ 1 s) ":") then ws_end s end_ else end_ in
          if negb (String.eqb (substring end_ 1 s) ":") then
            DecodeError "Expecting ':' delimiter" end_
          else
            let end_ := (end_ + 1)%nat in
            let end_ := ws_end s end_ in
            match scan_once s end_ with
            | StopIteration idx => DecodeError "Expecting value" idx
            | DecodeError msg pos => DecodeError msg pos
            | Exhausted => Exhausted
            | Scanned value end_ =>
                let pairs := pairs ++ [(key, value)] in
                let end_ := ws_end s end_ in
                let nextchar := substring end_ 1 s in
                let end_ := (end_ + 1)%nat in
                if String.eqb nextchar "}" then
                  Scanned (PDict (Py.dict_of_pairs pairs)) end_
                else if negb (String.eqb nextchar ",") then
                  DecodeError "Expecting ',' delimiter" (end_ - 1)
                else
                  let end_ := ws_end s end_ in
                  let nextchar := substring end_ 1 s in
                  let end_ := (end_ + 1)%nat in
                  if negb (String.eqb nextchar (String quote EmptyString)) then
                    DecodeError "Expecting property name enclosed in double quotes"
                                (end_ - 1)
                  else JSONObject_loop n' s pairs end_
            end
      end
  end.

(** [JSONObject((s, end), ...)]: [end_] is the index after [{]. *)
Definition JSONObject (s : string) (end_ : nat) : scan pyval :=
  let nextchar := substring end_ 1 s in
  if String.eqb nextchar (String quote EmptyString) then
    JSONObject_loop (S (String.length s)) s [] (end_ + 1)
  else
    let end_ := ws_end s end_ in
    let nextchar := substring end_ 1 s in
    if String.eqb nextchar "}" then Scanned (PDict []) (end_ + 1)
    else if negb (String.eqb nextchar (String quote EmptyString)) then
      DecodeError "Expecting property name enclosed in double quotes" end_
    else JSONObject_loop (S (String.length s)) s [] (end_ + 1).

End Containers.

(** ** The scanner *)

(** [scan_once(string, idx)].  [depth] bounds the nesting of arrays and
    objects; [loads] passes the length of the document, which no nesting
    can exceed.  (The interpreter has a recursion limit of its own, which
    is not part of this model.) *)
Fixpoint scan_once (depth : nat) (s : string) (idx : nat) : scan pyval :=
  match String.get idx s with
  | None => StopIteration idx
  | Some nextchar =>
      if Ascii.eqb nextchar quote then
        match scanstring s (idx + 1) with
        | Scanned str end_ => Scanned (PStr str) end_
        | StopIteration i => StopIteration i
        | DecodeError msg pos => DecodeError msg pos
        | Exhausted => Exhausted
        end
      else if Ascii.eqb nextchar "{" then
        match depth with
        | O => Exhausted
        | S depth' => JSONObject (scan_once depth') s (idx + 1)
        end
      else if Ascii.eqb nextchar "[" then
        match depth with
        | O => Exhausted
        | S depth' => JSONArray (scan_once depth') s (idx + 1)
        end
      else if Ascii.eqb nextchar "n" && String.eqb (substring idx 4 s) "null" then
        Scanned PNone (idx + 4)
      else if Ascii.eqb nextchar "t" && String.eqb (substring idx 4 s) "true" then
        Scanned (PBool true) (idx + 4)
      else if Ascii.eqb nextchar "f" && String.eqb (substring idx 5 s) "false" then
        Scanned (PBool false) (idx + 5)
      else
        match match_number (drop idx s) with
        | Some (res, len) => Scanned res (idx + len)
        | None =>
            if Ascii.eqb nextchar "N" && String.eqb (substring idx 3 s) "NaN" then
              Scanned (PFloat FNaN) (idx + 3)
            else if Ascii.eqb nextchar "I" && String.eqb (substring idx 8 s) "Infinity" then
              Scanned (PFloat (FInf false)) (idx + 8)
            else if Ascii.eqb nextchar "-" && String.eqb (substring idx 9 s) "-Infinity" then
              Scanned (PFloat (FInf true)) (idx + 9)
            else StopIteration idx
        end
  end.

(** ** Errors and [json.loads] *)

(** Line and column of the position that follows [prefix], as
    [JSONDecodeError.__init__] computes them: both start at 1 and the
    column counts characters. *)
Fixpoint line_col (prefix : string) (line col : nat) : nat * nat :=
  match prefix with
  | EmptyString => (line, col)
  | String c r => if Ascii.eqb c lf then line_col r (S line) 1%nat
                  else if is_continuation c then line_col r line col
                  else line_col r line (S col)
  end.

(** [str(JSONDecodeError(msg, doc, pos))]; [pos] indexes the bytes of
    [doc] and is printed as the index of the character. *)
Definition errmsg (msg doc : string) (pos : nat) : string :=
  let prefix := substring 0 pos doc in
  let (lineno, colno) := line_col prefix 1%nat 1%nat in
  msg +:+ ": line " +:+ str_of_nat lineno +:+ " column " +:+ str_of_nat colno
      +:+ " (char " +:+ str_of_nat (char_count prefix) +:+ ")".

(** The byte order mark, U+FEFF. *)
Definition BOM : string := chr 65279.

(** What [json.loads(s)] does: return a value, or raise an exception
    whose [str] is [msg]. *)
Inductive loads_result : Type :=
| Loaded (obj : pyval)
| JSONDecodeError (msg : string).

(** [JSONDecoder.decode] after the BOM check of [json.loads]. *)
Definition loads (s : string) : loads_result :=
  if startswith BOM s then
    JSONDecodeError (errmsg "Unexpected UTF-8 BOM (decode using utf-8-sig)" s 0)
  else
    match scan_once (String.length s) s (ws_end s 0) with
    | StopIteration idx => JSONDecodeError (errmsg "Expecting value" s idx)
    | DecodeError msg pos => JSONDecodeError (errmsg msg s pos)
    | Exhausted => JSONDecodeError "maximum recursion depth exceeded"
    | Scanned obj end_ =>
        let end_ := ws_end s end_ in
        if negb (end_ =? String.length s)%nat then
          JSONDecodeError (errmsg "Extra data" s end_)
        else Loaded obj
    end.

End Json.

(* ===================================================================== *)
(** * The session, the screen and the completion endpoint                 *)
(* ===================================================================== *)

(** One element of [st.session_state.chat_history]:
    [{"role": ..., "content": ...}]. *)
Record ChatTurn : Type := { role : string; content : string }.

(** [st.session_state].  [versions] is created at the top of every run
    (lines 78-79), so a handler always finds it; [chat_history] exists
    only once the chat block or the clear button has run. *)
Record session_state : Type := {
  versions : gmap string pyval;
  chat_history : option (list ChatTurn)
}.

(** What a run draws, one constructor for each form of Streamlit call. *)
Inductive ui_event : Type :=
| st_error (msg : string)
| st_success (msg : string)
| st_subheader (title : string)
| st_write (value : pyval)                    (* st.write(value) *)
| st_write_item (item : pyval)                (* st.write(f"- {item}") *)
| st_text_area (label : string) (value : pyval)
| st_text_input (label : string) (value : string)
| st_button (label : string)
| st_markdown (body : string)
| st_chat_message (name : string) (body : string)  (* with st.chat_message(name): st.markdown(body) *)
| st_metric (label : string) (value : string)
| st_table (rows : list (string * Z)).

(** The keyword arguments of [client.chat.completions.create]. *)
Record request : Type := {
  model : string;
  messages : list (string * string);    (* role, content *)
  temperature : option Q;               (* [None]: the argument is not passed *)
  max_tokens : Z
}.

(** Outcome of one call of the endpoint: a response, of which the script
    reads the text of the first choice, or an exception raised by the
    call, of which the script only uses [str(e)]. *)
Inductive api_result : Type :=
| ApiOk (content : string)
| ApiError (e : string).

(** The exceptions the script itself can raise outside a [try]. *)
Inductive pyexc : Type :=
| AttributeError (msg : string)
| TypeError (msg : string)
| KeyError (key : string).

(** The state a handler runs in: the session, what has been drawn so far
    and the requests sent so far. *)
Record world : Type := {
  session : session_state;
  shown : list ui_event;
  calls : list request
}.

Inductive result (A : Type) : Type :=
| Return (a : A)
| Raise (e : pyexc).
Arguments Return {A} a.
Arguments Raise {A} e.

(** A piece of the script: it runs in a world and either returns or lets
    an exception escape. *)
Definition script (A : Type) : Type := world -> result A * world.

Module Script.

Definition ret {A} (a : A) : script A := fun w => (Return a, w).

Definition bind {A B} (m : script A) (k : A -> script B) : script B :=
  fun w => match m w with
           | (Return a, w') => k a w'
           | (Raise e, w') => (Raise e, w')
           end.

Definition raise {A} (e : pyexc) : script A := fun w => (Raise e, w).

Definition draw (ev : ui_event) : script unit :=
  fun w => (Return tt,
            {| session := session w; shown := shown w ++ [ev]; calls := calls w |}).

Definition get_session : script session_state := fun w => (Return (session w), w).

Definition put_session (s : session_state) : script unit :=
  fun w => (Return tt, {| session := s; shown := shown w; calls := calls w |}).

(** [for x in items: body(x)] *)
Fixpoint for_each {A} (items : list A) (body : A -> script unit) : script unit :=
  match items with
  | [] => ret tt
  | x :: rest => bind (body x) (fun _ => for_each rest body)
  end.

Definition when (b : bool) (m : script unit) : script unit :=
  if b then m else ret tt.

End Script.

(** [script] is a monad; the handlers are written with stdpp's notation,
    [x ← m; k] and [m;; k]. *)
#[global] Instance script_ret : MRet script := @Script.ret.
#[global] Instance script_bind : MBind script := fun A B k m => Script.bind m k.

(** The world after more events have been drawn. *)
Definition add_shown (events : list ui_event) (w : world) : world :=
  {| session := session w; shown := shown w ++ events; calls := calls w |}.

(** The world with another session. *)
Definition set_session (s : session_state) (w : world) : world :=
  {| session := s; shown := shown w; calls := calls w |}.

(** [m] returns [a] and turns the world [w] into [f w]. *)
Definition runs {A} (m : script A) (a : A) (f : world -> world) : Prop :=
  forall w, m w = (Return a, f w).

(** [m] sends no request, whether it returns or raises. *)
Definition silent {A} (m : script A) : Prop :=
  forall w, calls (snd (m w)) = calls w.

(* ===================================================================== *)
(** * The handlers of [app.py]                                            *)
(* ===================================================================== *)

Module App.
Import Text Script.

(** ** Python operations that can raise *)

(** [obj.get(key, default)]: only a dict has the method. *)
Definition py_get (obj : pyval) (key : string) (default : pyval) : script pyval :=
  match obj with
  | PDict d => ret (Py.dict_get d key default)
  | _ => raise (AttributeError
                  ("'" +:+ Py.type_name obj +:+ "' object has no attribute 'get'"))
  end.

(** [for x in v: body(x)] *)
Definition py_for (v : pyval) (body : pyval -> script unit) : script unit :=
  match Py.iter v with
  | Some items => for_each items body
  | None => raise (TypeError ("'" +:+ Py.type_name v +:+ "' object is not iterable"))
  end.

(** The items of a [join], which must all be texts. *)
Fixpoint join_items (i : nat) (items : list pyval) : result (list string) :=
  match items with
  | [] => Return []
  | PStr s :: rest =>
      match join_items (S i) rest with
      | Return l => Return (s :: l)
      | Raise e => Raise e
      end
  | v :: _ =>
      Raise (TypeError ("sequence item " +:+ str_of_nat i +:+ ": expected str instance, "
                        +:+ Py.type_name v +:+ " found"))
  end.

(** [sep.join(v)] *)
Definition py_join (sep : string) (v : pyval) : script string :=
  match Py.iter v with
  | None => raise (TypeError "can only join an iterable")
  | Some items =>
      match join_items 0 items with
      | Return parts => ret (join sep parts)
      | Raise e => raise e
      end
  end.

(** ** Scorecard (lines 98-108 and 226-229) *)

(** [scores[key]] *)
Definition score_item (scores : Score.scores) (key : string) : script Z :=
  match Score.item key scores with
  | Some v => ret v
  | None => raise (KeyError key)
  end.

(** The rows of the breakdown table: every item but the total. *)
Definition breakdown (scores : Score.scores) : list (string * Z) :=
  filter (fun kv => negb (String.eqb (fst kv) "Total")) scores.

(** The scorecard drawn for an uploaded resume. *)
Definition scorecard (text : string) : script unit :=
  let scores := Score.resume_score text in
  draw (st_subheader "Scorecard");;
  total ← score_item scores "Total";
  draw (st_metric "Total" (str_of_Z total +:+ "/100"));;
  contact ← score_item scores "Contact";
  draw (st_metric "Contact" (str_of_Z contact +:+ "/20"));;
  skills ← score_item scores "Skills";
  draw (st_metric "Skills" (str_of_Z skills +:+ "/20"));;
  experience ← score_item scores "Experience";
  draw (st_metric "Experience" (str_of_Z experience +:+ "/25"));;
  draw (st_markdown "**Breakdown**");;
  draw (st_table (breakdown scores)).

(** The scorecard drawn for pasted demo text. *)
Definition demo_scorecard (demo : string) : script unit :=
  let scores := Score.resume_score demo in
  draw (st_subheader "Scorecard");;
  total ← score_item scores "Total";
  draw (st_metric "Total" (str_of_Z total +:+ "/100"));;
  draw (st_table (breakdown scores)).

(** ** Session state store *)

(** [st.session_state.versions[label] = text] (line 167) *)
Definition save_version (label : string) (text : pyval) (s : session_state)
    : session_state :=
  {| versions := <[label := text]> (versions s); chat_history := chat_history s |}.

Section Handlers.

(** The completion endpoint: what [client.chat.completions.create]
    answers to each request. *)
Variable client : request -> api_result.

(** The call itself, recorded in [calls]. *)
Definition create (req : request) : script api_result :=
  fun w => (Return (client req),
            {| session := session w; shown := shown w; calls := calls w ++ [req] |}).

(** *** Analyze & Rewrite Resume (lines 111-168) *)

Definition analyze_request (prompt : string) : request :=
  {| model := "gpt-3.5-turbo";
     messages := [("user", prompt)];
     temperature := Some (2 # 10)%Q;
     max_tokens := 512 |}.

(** The [try] block of lines 114-124: the call and [json.loads]; any
    exception is reported and [result] becomes the empty dict. *)
Definition analyze_call (prompt : string) : script pyval :=
  response ← create (analyze_request prompt);
  match response with
  | ApiOk content =>
      match Json.loads content with
      | Json.Loaded obj => ret obj
      | Json.JSONDecodeError e =>
          draw (st_error ("OpenAI API call failed: " +:+ e));; ret (PDict [])
      end
  | ApiError e =>
      draw (st_error ("OpenAI API call failed: " +:+ e));; ret (PDict [])
  end.

(** A section whose items are written one by one. *)
Definition bullet_section (title key : string) (result : pyval) : script unit :=
  draw (st_subheader title);;
  items ← py_get result key (PList []);
  py_for items (fun s => draw (st_write_item s)).

(** A section whose items are joined by commas. *)
Definition joined_section (title key : string) (result : pyval) : script unit :=
  draw (st_subheader title);;
  items ← py_get result key (PList []);
  line ← py_join ", " items;
  draw (st_write (PStr line)).

(** Lines 165-168, under the full rewritten resume. *)
Definition save_version_widget (version_name : string) (save_clicked : bool)
    (rewritten_resume : pyval) : script unit :=
  draw (st_text_input "Label this resume version" version_name);;
  draw (st_button "Save Resume Version");;
  when save_clicked
    (s ← get_session;
     put_session (save_version version_name rewritten_resume s);;
     draw (st_success ("Saved as '" +:+ version_name +:+ "'"))).

(** Lines 126-168: the body of [if result:]. *)
Definition show_analysis (version_name : string) (save_clicked : bool)
    (result : pyval) : script unit :=
  draw (st_subheader "Assessment");;
  assessment ← py_get result "assessment" (PStr "");
  draw (st_write assessment);;
  bullet_section "Strengths" "strengths" result;;
  bullet_section "Weaknesses" "weaknesses" result;;
  bullet_section "Rewritten Bullets" "rewritten_bullets" result;;
  joined_section "Job Titles" "job_titles" result;;
  bullet_section "Freelance Ideas" "freelance_ideas" result;;
  joined_section "ATS Keywords" "keywords" result;;
  draw (st_subheader "Email Summary");;
  email_summary ← py_get result "email_summary" (PStr "");
  draw (st_text_area "Professional Summary" email_summary);;
  bullet_resume ← py_get result "bullet_resume" (PStr "");
  when (Py.truthy bullet_resume)
    (draw (st_subheader "Professional Resume (Bullets)");;
     draw (st_text_area "Bullet Resume" bullet_resume));;
  rewritten_resume ← py_get result "rewritten_resume" (PStr "");
  when (Py.truthy rewritten_resume)
    (draw (st_subheader "Rewritten Resume (Full)");;
     draw (st_text_area "Full Resume" rewritten_resume);;
     save_version_widget version_name save_clicked rewritten_resume).

(** The body of [if st.button("Analyze & Rewrite Resume"):].  [text] is
    the extracted resume; the other arguments are what the widgets
    return in this run. *)
Definition analyze_handler (text job_description user_question : string)
    (version_name : string) (save_clicked : bool) : script unit :=
  let prompt := Prompt.make_prompt text (Some job_description) (Some user_question)
                                   "analyze" in
  result ← analyze_call prompt;
  when (Py.truthy result) (show_analysis version_name save_clicked result).

(** *** The three free-text generators (lines 171-213) *)

Definition text_request (prompt : string) : request :=
  {| model := "gpt-3.5-turbo";
     messages := [("user", prompt)];
     temperature := None;
     max_tokens := 512 |}.

(** The common shape of the three blocks: build the prompt for [mode]
    without a user question, call, and show the text or the error. *)
Definition text_handler (mode title label : string)
    (text job_description : string) : script unit :=
  let prompt := Prompt.make_prompt text (Some job_description) None mode in
  response ← create (text_request prompt);
  match response with
  | ApiOk content =>
      draw (st_subheader title);;
      draw (st_text_area label (PStr content))
  | ApiError e => draw (st_error ("OpenAI API call failed: " +:+ e))
  end.

Definition cover_letter_handler : string -> string -> script unit :=
  text_handler "cover_letter" "Cover Letter" "Cover Letter".

Definition linkedin_handler : string -> string -> script unit :=
  text_handler "linkedin" "LinkedIn Profile Suggestions" "LinkedIn Suggestions".

Definition interview_handler : string -> string -> script unit :=
  text_handler "interview" "Interview Questions & Answers" "Interview Prep".

(** *** Chat (lines 232-262) *)

(** [st.session_state.chat_history.append(turn)] *)
Definition append_turn (turn : ChatTurn) : script unit :=
  s ← get_session;
  match chat_history s with
  | Some turns =>
      put_session {| versions := versions s; chat_history := Some (turns ++ [turn]) |}
  | None => raise (AttributeError "st.session_state has no attribute 'chat_history'")
  end.

(** The [try] of lines 247-255: the reply is the text that came back, or
    the f-string [f"Oops, something went wrong: {e}"]. *)
Definition chat_reply (response : api_result) : string :=
  match response with
  | ApiOk content => content
  | ApiError e => "Oops, something went wrong: " +:+ e
  end.

(** The chat block; [demo] is the pasted text, [user_input] what
    [st.chat_input] returns in this run. *)
Definition chat_handler (demo job_description : string)
    (user_input : option string) : script unit :=
  s ← get_session;
  when (negb (bool_decide (is_Some (chat_history s))))
    (put_session {| versions := versions s; chat_history := Some [] |});;
  draw (st_subheader "Ask Me Anything About Your Resume 🗨️");;
  match user_input with
  | Some user_input =>
      when (nonempty user_input)
        (draw (st_chat_message "user" user_input);;
         append_turn {| role := "user"; content := user_input |};;
         let prompt := Prompt.make_prompt demo (Some job_description)
                                          (Some user_input) "analyze" in
         response ← create (text_request prompt);
         let reply := chat_reply response in
         draw (st_chat_message "assistant" reply);;
         append_turn {| role := "assistant"; content := reply |})
  | None => ret tt
  end;;
  s ← get_session;
  for_each (default [] (chat_history s))
    (fun msg => draw (st_chat_message (role msg) (content msg))).

(** *** Clear Chat (lines 263-264) *)

Definition clear_chat : script unit :=
  s ← get_session;
  put_session {| versions := versions s; chat_history := Some [] |}.

End Handlers.

End App.

(* ===================================================================== *)
(** * The response contract, in the words of the specification            *)
(* ===================================================================== *)

Module Contract.

(** The structured outcome of an analysis: ten fields, each a text or a
    sequence of texts. *)
Record AnalysisResult : Type := {
  assessment : string;
  strengths : list string;
  weaknesses : list string;
  rewritten_bullets : list string;
  job_titles : list string;
  freelance_ideas : list string;
  keywords : list string;
  rewritten_resume : string;
  bullet_resume : string;
  email_summary : string
}.

(** A text field: the value under [key], the empty text when the key is
    absent; no reading when the value is not a text. *)
Definition text_field (o : list (string * pyval)) (key : string) : option string :=
  match Py.dict_lookup key o with
  | None => Some EmptyString
  | Some (PStr s) => Some s
  | Some _ => None
  end.

(** The texts of a list, when all its items are texts. *)
Fixpoint texts (items : list pyval) : option (list string) :=
  match items with
  | [] => Some []
  | PStr s :: rest => l ← texts rest; Some (s :: l)
  | _ :: _ => None
  end.

(** A sequence field: the list under [key], the empty sequence when the
    key is absent; no reading when the value is not a list of texts. *)
Definition seq_field (o : list (string * pyval)) (key : string) : option (list string) :=
  match Py.dict_lookup key o with
  | None => Some []
  | Some (PList items) => texts items
  | Some _ => None
  end.

(** Field-by-field population of the record from a parsed object; keys
    outside the ten are not looked at. *)
Definition decode_analysis (o : list (string * pyval)) : option AnalysisResult :=
  a ← text_field o "assessment";
  st ← seq_field o "strengths";
  we ← seq_field o "weaknesses";
  rb ← seq_field o "rewritten_bullets";
  jt ← seq_field o "job_titles";
  fi ← seq_field o "freelance_ideas";
  kw ← seq_field o "keywords";
  rr ← text_field o "rewritten_resume";
  br ← text_field o "bullet_resume";
  es ← text_field o "email_summary";
  Some {| assessment := a; strengths := st; weaknesses := we; rewritten_bullets := rb;
          job_titles := jt; freelance_ideas := fi; keywords := kw;
          rewritten_resume := rr; bullet_resume := br; email_summary := es |}.

(** The record with every field at its default. *)
Definition empty_result : AnalysisResult :=
  {| assessment := ""; strengths := []; weaknesses := []; rewritten_bullets := [];
     job_titles := []; freelance_ideas := []; keywords := [];
     rewritten_resume := ""; bullet_resume := ""; email_summary := "" |}.

(** The texts of a result, and whether Streamlit can draw them all. *)
Definition texts_of (r : AnalysisResult) : list string :=
  assessment r :: strengths r ++ weaknesses r ++ rewritten_bullets r ++ job_titles r
  ++ freelance_ideas r ++ keywords r
  ++ [email_summary r; bullet_resume r; rewritten_resume r].

Definition encodable_result (r : AnalysisResult) : bool :=
  forallb Text.encodable (texts_of r).

Definition bullets (title : string) (items : list string) : list ui_event :=
  st_subheader title :: map (fun s => st_write_item (PStr s)) items.

Definition joined (title : string) (items : list string) : list ui_event :=
  [st_subheader title; st_write (PStr (Text.join ", " items))].

(** The report of a result: every field under its heading, the two
    resumes only when they are not empty, and the widgets that offer to
    save the full rewritten resume. *)
Definition report (r : AnalysisResult) (version_name : string) (save_clicked : bool)
    : list ui_event :=
  [st_subheader "Assessment"; st_write (PStr (assessment r))]
  ++ bullets "Strengths" (strengths r)
  ++ bullets "Weaknesses" (weaknesses r)
  ++ bullets "Rewritten Bullets" (rewritten_bullets r)
  ++ joined "Job Titles" (job_titles r)
  ++ bullets "Freelance Ideas" (freelance_ideas r)
  ++ joined "ATS Keywords" (keywords r)
  ++ [st_subheader "Email Summary";
      st_text_area "Professional Summary" (PStr (email_summary r))]
  ++ (if Text.nonempty (bullet_resume r)
      then [st_subheader "Professional Resume (Bullets)";
            st_text_area "Bullet Resume" (PStr (bullet_resume r))]
      else [])
  ++ (if Text.nonempty (rewritten_resume r)
      then [st_subheader "Rewritten Resume (Full)";
            st_text_area "Full Resume" (PStr (rewritten_resume r));
            st_text_input "Label this resume version" version_name;
            st_button "Save Resume Version"]
           ++ (if save_clicked then [st_success ("Saved as '" +:+ version_name +:+ "'")]
               else [])
      else []).

(** The session after the report: the full rewritten resume is saved
    when it is offered and the button was pressed. *)
Definition session_after (r : AnalysisResult) (version_name : string)
    (save_clicked : bool) (s : session_state) : session_state :=
  if Text.nonempty (rewritten_resume r) && save_clicked
  then App.save_version version_name (PStr (rewritten_resume r)) s
  else s.

(** A small letter of ASCII and its capital. *)
Definition is_small_letter (c : ascii) : bool :=
  let n := nat_of_ascii c in ((97 <=? n) && (n <=? 122))%nat.

Definition capital (c : ascii) : ascii := ascii_of_nat (nat_of_ascii c - 32).

(** [same_ignoring_case word stretch]: the stretch is the word up to the
    case of its letters.  Each character of the word is matched by
    itself, or by a capital letter of which it is the small letter: for
    [a] to [z] the capitals [A] to [Z], and for [k] also the Kelvin sign
    U+212A, the one capital outside ASCII whose small letter is in
    ASCII. *)
Inductive same_ignoring_case : string -> string -> Prop :=
| same_end : same_ignoring_case "" ""
| same_char c word stretch :
    same_ignoring_case word stretch ->
    same_ignoring_case (String c word) (String c stretch)
| same_capital c word stretch :
    is_small_letter c = true ->
    same_ignoring_case word stretch ->
    same_ignoring_case (String c word) (String (capital c) stretch)
| same_kelvin word stretch :
    same_ignoring_case word stretch ->
    same_ignoring_case (String "k" word) (Text.kelvin_sign +:+ stretch).

(** A word occurs in a text ignoring case: some stretch of the text is
    the word up to case. *)
Definition occurs_ignoring_case (word text : string) : Prop :=
  exists before stretch after,
    text = before +:+ stretch +:+ after /\ same_ignoring_case word stretch.

End Contract.

(* ===================================================================== *)
(** * Sample inputs                                                       *)
(* ===================================================================== *)

Module Sample.

(** A session in which nothing has been saved or said yet. *)
Definition fresh : world :=
  {| session := {| versions := ∅; chat_history := None |}; shown := []; calls := [] |}.

(** An endpoint that answers every request with the same text. *)
Definition answers (content : string) : request -> api_result :=
  fun _ => ApiOk content.

(** An endpoint whose every call fails with the exception text [e]. *)
Definition fails (e : string) : request -> api_result :=
  fun _ => ApiError e.

(** [s] between double quotes. *)
Definition quoted (s : string) : string :=
  String Json.quote (s +:+ String Json.quote EmptyString).

(** A valid JSON object wrapped in a markdown code fence. *)
Definition fenced_json : string :=
  "```json" +:+ Text.nl +:+ "{}" +:+ Text.nl +:+ "```".

(** Prose instead of JSON. *)
Definition prose : string := "Sure! Here is the analysis you asked for.".

(** The object [{"x": 1}]: no expected key, one unexpected key. *)
Definition only_extra_key : string := "{" +:+ quoted "x" +:+ ": 1}".

(** The object [{"strengths": 5}]: a number where a sequence is expected. *)
Definition number_for_sequence : string := "{" +:+ quoted "strengths" +:+ ": 5}".

(** The object [{"assessment": "\ud800"}]: the escape stands for a lone
    surrogate. *)
Definition lone_surrogate : string :=
  "{" +:+ quoted "assessment" +:+ ": " +:+ quoted "\ud800" +:+ "}".

(** A partially populated object:
    [{"assessment": "Solid", "strengths": ["SQL", "Python"],
      "rewritten_resume": "Jane Roe, analyst", "score": 7}]. *)
Definition partial_object : string :=
  "{" +:+ quoted "assessment" +:+ ": " +:+ quoted "Solid" +:+ ", "
      +:+ quoted "strengths" +:+ ": [" +:+ quoted "SQL" +:+ ", " +:+ quoted "Python" +:+ "], "
      +:+ quoted "rewritten_resume" +:+ ": " +:+ quoted "Jane Roe, analyst" +:+ ", "
      +:+ quoted "score" +:+ ": 7}".

(** What [json.loads] makes of [partial_object]. *)
Definition partial_items : list (string * pyval) :=
  [("assessment", PStr "Solid");
   ("strengths", PList [PStr "SQL"; PStr "Python"]);
   ("rewritten_resume", PStr "Jane Roe, analyst");
   ("score", PInt 7)].

(** The record that [partial_object] stands for. *)
Definition partial_result : Contract.AnalysisResult :=
  {| Contract.assessment := "Solid";
     Contract.strengths := ["SQL"; "Python"];
     Contract.weaknesses := [];
     Contract.rewritten_bullets := [];
     Contract.job_titles := [];
     Contract.freelance_ideas := [];
     Contract.keywords := [];
     Contract.rewritten_resume := "Jane Roe, analyst";
     Contract.bullet_resume := "";
     Contract.email_summary := "" |}.

(** The analyze prompt for the resume ["resume"] with no job description
    and no question. *)
Definition analyze_prompt : string :=
  Prompt.make_prompt "resume" (Some "") (Some "") "analyze".

End Sample.

(* ===================================================================== *)
(** * The rest of the script: extraction, the version viewer, the page    *)
(* ===================================================================== *)

Module Page.
Import Text Script App.

(** [s.endswith(suffix)]: [s] or one of its tails is [suffix]. *)
Fixpoint endswith (suffix s : string) : bool :=
  String.eqb s suffix ||
  match s with
  | EmptyString => false
  | String _ r => endswith suffix r
  end.

(** The characters [str.strip] removes are the white space of Unicode.
    Below 128 they are the tab to the carriage return, the four
    separators [0x1c] to [0x1f] and the space. *)
Definition is_space (c : ascii) : bool :=
  let n := nat_of_ascii c in
  (((9 <=? n) && (n <=? 13)) || ((28 <=? n) && (n <=? 32)))%nat.

(** Encoded on two bytes: U+0085 and U+00A0. *)
Definition is_space2 (a b : ascii) : bool :=
  let b := nat_of_ascii b in
  ((nat_of_ascii a =? 194) && ((b =? 133) || (b =? 160)))%nat.

(** Encoded on three bytes: U+1680, U+2000 to U+200A, U+2028, U+2029,
    U+202F, U+205F and U+3000. *)
Definition is_space3 (a b c : ascii) : bool :=
  let a := nat_of_ascii a in
  let b := nat_of_ascii b in
  let c := nat_of_ascii c in
  (((a =? 225) && (b =? 154) && (c =? 128))
   || ((a =? 226) && (b =? 128)
       && (((128 <=? c) && (c <=? 138)) || (c =? 168) || (c =? 169) || (c =? 175)))
   || ((a =? 226) && (b =? 129) && (c =? 159))
   || ((a =? 227) && (b =? 128) && (c =? 128)))%nat.

(** [not text.strip()]: the text is white space from end to end. *)
Fixpoint blank (text : string) : bool :=
  match text with
  | EmptyString => true
  | String a r =>
      if is_space a then blank r
      else
        match r with
        | EmptyString => false
        | String b r2 =>
            if is_space2 a b then blank r2
            else
              match r2 with
              | EmptyString => false
              | String c r3 => is_space3 a b c && blank r3
              end
        end
  end.

(** An uploaded file, seen through the two readers the script hands it
    to.  [pdf_pages] is what [PdfReader(file).pages] gives, with the
    result of [extract_text()] for each page ([None] for a page without
    text); [docx_paragraphs] is the text of each paragraph of
    [Document(file)].  Either reader can raise instead: [inl e] carries
    the text of the exception. *)
Record uploaded_file : Type := {
  name : string;
  pdf_pages : string + list (option string);
  docx_paragraphs : string + list string
}.

(** [extract_text] (lines 60-70). *)
Definition extract_text (file : uploaded_file) : script string :=
  if endswith ".pdf" (lower (name file)) then
    match pdf_pages file with
    | inr pages => mret (join nl (map (default EmptyString) pages))
    | inl e => draw (st_error ("Error reading file: " +:+ e));; mret EmptyString
    end
  else if endswith ".docx" (lower (name file)) then
    match docx_paragraphs file with
    | inr paragraphs => mret (join nl paragraphs)
    | inl e => draw (st_error ("Error reading file: " +:+ e));; mret EmptyString
    end
  else mret EmptyString.

(** Resume Version Viewer (lines 216-220).  [selected] is what
    [st.selectbox] returns; the list of options it is drawn with is not
    logged. *)
Definition version_viewer (selected : string) : script unit :=
  s ← get_session;
  when (negb (bool_decide (versions s = ∅)))
    (draw (st_subheader "Saved Resume Versions");;
     match versions s !! selected with
     | Some text => draw (st_text_area "Saved Version" text)
     | None => raise (KeyError selected)
     end).

(** What the widgets of the page return in one run of the script. *)
Record widgets : Type := {
  uploaded : option uploaded_file;      (* st.file_uploader *)
  job_description : string;             (* st.text_area *)
  user_question : string;               (* st.text_input *)
  analyze_clicked : bool;               (* "Analyze & Rewrite Resume" *)
  version_name : string;                (* "Label this resume version" *)
  save_clicked : bool;                  (* "Save Resume Version" *)
  cover_letter_clicked : bool;          (* "Generate Cover Letter" *)
  linkedin_clicked : bool;              (* "Optimize LinkedIn Profile" *)
  interview_clicked : bool;             (* "Generate Interview Q&A" *)
  selected : string;                    (* "Select a version to view" *)
  demo : string;                        (* "Demo Resume Text" *)
  analyze_demo_clicked : bool;          (* "Analyze Demo Text" *)
  user_input : option string;           (* st.chat_input *)
  clear_clicked : bool                  (* "Clear Chat" *)
}.

Section Main.
Variable client : request -> api_result.

(** The branch of [if uploaded:] (lines 89-220). *)
Definition upload_branch (inp : widgets) (file : uploaded_file) : script unit :=
  text ← extract_text file;
  if blank text then
    draw (st_error "Could not extract text. Try a different file or paste below.")
  else
    draw (st_subheader "Extracted Resume Text");;
    draw (st_text_area "Resume Text" (PStr text));;
    scorecard text;;
    when (analyze_clicked inp)
      (analyze_handler client text (job_description inp) (user_question inp)
                       (version_name inp) (save_clicked inp));;
    when (cover_letter_clicked inp)
      (cover_letter_handler client text (job_description inp));;
    when (linkedin_clicked inp)
      (linkedin_handler client text (job_description inp));;
    when (interview_clicked inp)
      (interview_handler client text (job_description inp));;
    version_viewer (selected inp).

(** The [else] branch (lines 223-262): the chat block sits inside
    [if demo and st.button("Analyze Demo Text"):]. *)
Definition demo_branch (inp : widgets) : script unit :=
  when (nonempty (demo inp) && analyze_demo_clicked inp)
    (demo_scorecard (demo inp);;
     chat_handler client (demo inp) (job_description inp) (user_input inp)).

(** One run of the script from line 78 on.  The session record always
    holds a [versions] map, empty at first, which is what lines 78-79
    establish; the calls that draw the fixed furniture of the page
    (title, sidebar, uploader, input widgets, info line) are not
    logged. *)
Definition main (inp : widgets) : script unit :=
  match uploaded inp with
  | Some file => upload_branch inp file
  | None => demo_branch inp
  end;;
  when (clear_clicked inp) clear_chat.

End Main.

(** The turns of a chat log come in pairs: a user turn, then an
    assistant turn. *)
Fixpoint paired (turns : list ChatTurn) : bool :=
  match turns with
  | [] => true
  | u :: a :: rest =>
      String.eqb (role u) "user" && String.eqb (role a) "assistant" && paired rest
  | [_] => false
  end.

(** A request as every call site builds it: the fixed model, one user
    message, at most 512 tokens, and either no temperature or 0.2. *)
Definition well_formed (req : request) : Prop :=
  model req = "gpt-3.5-turbo"
  /\ (exists prompt, messages req = [("user", prompt)])
  /\ max_tokens req = 512
  /\ (temperature req = None \/ temperature req = Some (2 # 10)%Q).

(** A value a [for] loop accepts. *)
Definition iterable (v : pyval) : bool :=
  match Py.iter v with Some _ => true | None => false end.

Definition is_text (v : pyval) : bool :=
  match v with PStr _ => true | _ => false end.

(** A value [", ".join] accepts: an iterable of texts. *)
Definition joinable (v : pyval) : bool :=
  match Py.iter v with Some items => forallb is_text items | None => false end.

(** What the rendering needs of a parsed object: the four fields written
    item by item are iterable and the two joined fields are iterables of
    texts, a missing key counting as the empty list. *)
Definition renderable (o : list (string * pyval)) : bool :=
  iterable (Py.dict_get o "strengths" (PList []))
  && iterable (Py.dict_get o "weaknesses" (PList []))
  && iterable (Py.dict_get o "rewritten_bullets" (PList []))
  && joinable (Py.dict_get o "job_titles" (PList []))
  && iterable (Py.dict_get o "freelance_ideas" (PList []))
  && joinable (Py.dict_get o "keywords" (PList [])).

(** The error [", ".join(v)] raises on a value it does not accept. *)
Definition join_error (v : pyval) : pyexc :=
  match Py.iter v with
  | None => TypeError "can only join an iterable"
  | Some items =>
      match join_items 0 items with
      | Raise e => e
      | Return _ => TypeError EmptyString
      end
  end.

(** The text of an outcome of the endpoint that ends up drawn: the
    answer, or the text of the exception. *)
Definition answer_text (r : api_result) : string :=
  match r with ApiOk content => content | ApiError e => e end.

(** Streamlit can draw what the endpoint answered. *)
Definition encodable_answer (r : api_result) : bool :=
  Text.encodable (answer_text r).

(** Streamlit can draw what a chat submission brings: the message typed
    and what the endpoint answers to it.  Without a message, or with an
    empty one, there is nothing new to draw. *)
Definition encodable_submission (client : request -> api_result)
    (demo job_description : string) (user_input : option string) : bool :=
  match user_input with
  | Some msg =>
      if Text.nonempty msg
      then Text.encodable msg
           && encodable_answer
                (client (App.text_request
                           (Prompt.make_prompt demo (Some job_description) (Some msg)
                              "analyze")))
      else true
  | None => true
  end.

(** The characters a JSON document can begin with: whitespace, the first
    character of a value, or the first byte of a byte order mark. *)
Definition may_start_json (c : ascii) : bool :=
  Ascii.eqb (ascii_of_nat 239) c
  || Json.is_ws c
  || Ascii.eqb c Json.quote || Ascii.eqb c "{" || Ascii.eqb c "["
  || Ascii.eqb c "n" || Ascii.eqb c "t" || Ascii.eqb c "f"
  || Ascii.eqb c "-" || Json.is_digit c
  || Ascii.eqb c "N" || Ascii.eqb c "I".

End Page.

(** Sample runs of the page. *)
Module Visit.
Import Page.

(** A scanned CV: two pages, neither with any text. *)
Definition scanned_cv : uploaded_file :=
  {| name := "Jane Roe CV.PDF";
     pdf_pages := inr [None; Some EmptyString];
     docx_paragraphs := inl "File is not a zip file" |}.

(** The widgets of a run in which nothing is uploaded, typed or pressed. *)
Definition idle : widgets :=
  {| uploaded := None;
     job_description := EmptyString;
     user_question := EmptyString;
     analyze_clicked := false;
     version_name := "Version 1";
     save_clicked := false;
     cover_letter_clicked := false;
     linkedin_clicked := false;
     interview_clicked := false;
     selected := "Version 1";
     demo := EmptyString;
     analyze_demo_clicked := false;
     user_input := None;
     clear_clicked := false |}.

(** The scanned CV is uploaded and every button is pressed. *)
Definition scanned_all_pressed : widgets :=
  {| uploaded := Some scanned_cv;
     job_description := "Data analyst";
     user_question := EmptyString;
     analyze_clicked := true;
     version_name := "Version 1";
     save_clicked := true;
     cover_letter_clicked := true;
     linkedin_clicked := true;
     interview_clicked := true;
     selected := "Version 1";
     demo := EmptyString;
     analyze_demo_clicked := false;
     user_input := None;
     clear_clicked := true |}.

(** A question typed in the chat box, with demo text pasted but "Analyze
    Demo Text" not pressed in this run. *)
Definition question_only : widgets :=
  {| uploaded := None;
     job_description := EmptyString;
     user_question := EmptyString;
     analyze_clicked := false;
     version_name := "Version 1";
     save_clicked := false;
     cover_letter_clicked := false;
     linkedin_clicked := false;
     interview_clicked := false;
     selected := "Version 1";
     demo := "Skills: SQL";
     analyze_demo_clicked := false;
     user_input := Some "Is my resume any good?";
     clear_clicked := false |}.

(** A session with one exchange in the chat log. *)
Definition after_one_exchange : world :=
  {| session := {| versions := ∅;
                   chat_history := Some [ {| role := "user"; content := "Hi" |};
                                          {| role := "assistant"; content := "Hello" |} ] |};
     shown := [];
     calls := [] |}.

End Visit.

(** ** What a run sends *)

(** The world [w'] comes after [w] with more requests sent, all of
    them satisfying [P]. *)
Definition sends_only (P : request -> Prop) (w w' : world) : Prop :=
  exists new, calls w' = calls w ++ new /\ Forall P new.

(** ** What a run does to the saved versions *)

(** From [w] to [w'] the map of versions is the same, or has one more
    assignment under [label]. *)
Definition saves_under (label : string) (w w' : world) : Prop :=
  versions (session w') = versions (session w)
  \/ exists text, versions (session w') = <[label := text]> (versions (session w)).

Definition same_versions (w w' : world) : Prop :=
  versions (session w') = versions (session w).

Definition same_chat (w w' : world) : Prop :=
  chat_history (session w') = chat_history (session w).

(* ===================================================================== *)
(** * Properties of texts                                                 *)
(* ===================================================================== *)

Section TextFacts.
Import Text.
Local Arguments String.append !_ _ / : simpl nomatch.

Lemma append_assoc (a b c : string) : (a +:+ b) +:+ c = a +:+ (b +:+ c).
Proof. induction a as [|x a IH]; simpl; [reflexivity | now rewrite IH]. Qed.

Lemma startswith_spec (p s : string) :
  startswith p s = true <-> exists t, s = p +:+ t.
Proof.
  revert s; induction p as [|a p IH]; intros s; simpl.
  - split; [intros _; now exists s | reflexivity].
  - destruct s as [|b s].
    + split; [discriminate | intros [t Ht]; discriminate].
    + rewrite andb_true_iff, Ascii.eqb_eq, IH. split.
      * intros [-> [t ->]]. now exists t.
      * intros [t Ht]. injection Ht as -> ->. split; [reflexivity | now exists t].
Qed.

Lemma contains_spec (sub s : string) :
  contains sub s = true <-> exists a b, s = a +:+ sub +:+ b.
Proof.
  induction s as [|c s IH].
  - simpl. rewrite orb_false_r, startswith_spec. split.
    + intros [t Ht]. exists "", t. exact Ht.
    + intros [a [b Hab]]. destruct a; [| discriminate]. now exists b.
  - cbn [contains]. rewrite orb_true_iff, startswith_spec, IH. split.
    + intros [[t Ht] | [a [b Hab]]].
      * exists "", t. exact Ht.
      * exists (String c a), b. simpl. now rewrite Hab.
    + intros [a [b Hab]]. destruct a as [|x a].
      * left. now exists b.
      * right. simpl in Hab. injection Hab as _ ->. now exists a, b.
Qed.

(** ** Lowering, one character at a time *)

Lemma lower_dotted r : lower (dotted_capital_i +:+ r) = dotted_small_i +:+ lower r.
Proof. reflexivity. Qed.

Lemma lower_kelvin r : lower (kelvin_sign +:+ r) = String "k" (lower r).
Proof. reflexivity. Qed.

Lemma lower_other a r :
  startswith dotted_capital_i (String a r) = false ->
  startswith kelvin_sign (String a r) = false ->
  lower (String a r) = String (lower_char a) (lower r).
Proof. intros Hd Hk. cbn [lower]. now rewrite Hd, Hk. Qed.

(** A text is empty, or begins with one of the two special characters,
    or with another byte. *)
Lemma first_character t :
  t = ""
  \/ (exists r, t = dotted_capital_i +:+ r)
  \/ (exists r, t = kelvin_sign +:+ r)
  \/ (exists a r, t = String a r
                  /\ startswith dotted_capital_i t = false
                  /\ startswith kelvin_sign t = false).
Proof.
  destruct t as [|a r]; [now left | right].
  destruct (startswith dotted_capital_i (String a r)) eqn:Hd.
  - left. now apply startswith_spec.
  - right. destruct (startswith kelvin_sign (String a r)) eqn:Hk.
    + left. now apply startswith_spec.
    + right. now exists a, r.
Qed.

Lemma lower_ind (P : string -> Prop) :
  P "" ->
  (forall r, P r -> P (dotted_capital_i +:+ r)) ->
  (forall r, P r -> P (kelvin_sign +:+ r)) ->
  (forall a r, startswith dotted_capital_i (String a r) = false ->
               startswith kelvin_sign (String a r) = false ->
               P r -> P (String a r)) ->
  forall t, P t.
Proof.
  intros H0 Hd Hk Ho t.
  assert (forall n t, (String.length t <= n)%nat -> P t) as H.
  { clear t. induction n as [|n IH]; intros t Hlen.
    - destruct t; [exact H0 | simpl in Hlen; lia].
    - destruct (first_character t) as [-> | [[r ->] | [[r ->] | [a [r [-> [H1 H2]]]]]]].
      + exact H0.
      + apply Hd, IH. simpl in Hlen. lia.
      + apply Hk, IH. simpl in Hlen. lia.
      + apply Ho; [exact H1 | exact H2 |]. apply IH. simpl in Hlen. lia. }
  apply (H (String.length t)). lia.
Qed.

(** A text that does not begin in the middle of a character can be
    lowered apart from what precedes it. *)
Lemma lower_app (a s : string) :
  starts_with_continuation s = false ->
  lower (a +:+ s) = lower a +:+ lower s.
Proof.
  intros Hs. induction a as [| r IH | r IH | x r Hd Hk IH] using lower_ind.
  - reflexivity.
  - rewrite append_assoc, !lower_dotted, IH, append_assoc. reflexivity.
  - rewrite append_assoc, !lower_kelvin, IH. reflexivity.
  - rewrite (lower_other x r Hd Hk). cbn [String.append]. rewrite lower_other, IH.
    + reflexivity.
    + destruct r as [|y r]; [| exact Hd].
      destruct s as [|z s]; [exact Hd |].
      unfold dotted_capital_i. cbn [startswith String.append starts_with_continuation] in Hs |- *.
      destruct (Ascii.eqb "196" x); [| reflexivity].
      destruct (Ascii.eqb "176" z) eqn:E; [| reflexivity].
      apply Ascii.eqb_eq in E. subst z. discriminate Hs.
    + destruct r as [|y [|y2 r]]; [| | exact Hk].
      * destruct s as [|z s]; [exact Hk |].
        unfold kelvin_sign. cbn [startswith String.append starts_with_continuation] in Hs |- *.
        destruct (Ascii.eqb "226" x); [| reflexivity].
        destruct (Ascii.eqb "132" z) eqn:E; [| reflexivity].
        apply Ascii.eqb_eq in E. subst z. discriminate Hs.
      * destruct s as [|z s]; [exact Hk |].
        unfold kelvin_sign. cbn [startswith String.append starts_with_continuation] in Hs |- *.
        destruct (Ascii.eqb "226" x); [| reflexivity].
        destruct (Ascii.eqb "132" y); [| reflexivity].
        destruct (Ascii.eqb "170" z) eqn:E; [| reflexivity].
        apply Ascii.eqb_eq in E. subst z. discriminate Hs.
Qed.

(** ** Looking for a word in a lowered text *)

(** A character of ASCII that is not a capital letter. *)
Definition is_plain (c : ascii) : bool :=
  let n := nat_of_ascii c in ((n <? 128) && negb ((65 <=? n) && (n <=? 90)))%nat.

(** The words the script looks for: made of such characters, and not
    ending in [i]. *)
Fixpoint plain (word : string) : bool :=
  match word with
  | EmptyString => true
  | String c rest =>
      is_plain c && negb (Ascii.eqb c "i" && negb (nonempty rest)) && plain rest
  end.

Lemma is_plain_lower c : is_plain c = true -> lower_char c = c.
Proof.
  unfold is_plain, lower_char. intros H. apply andb_true_iff in H as [_ H].
  apply negb_true_iff in H. now rewrite H.
Qed.

Lemma is_plain_not_continuation c : is_plain c = true -> is_continuation c = false.
Proof.
  unfold is_plain, is_continuation. intros H. apply andb_true_iff in H as [H _].
  apply Nat.ltb_lt in H. apply andb_false_iff. left. apply Nat.leb_gt. exact H.
Qed.

Lemma capital_lower c :
  Contract.is_small_letter c = true ->
  lower_char (Contract.capital c) = c
  /\ is_continuation (Contract.capital c) = false
  /\ (nat_of_ascii (Contract.capital c) < 128)%nat.
Proof.
  unfold Contract.is_small_letter, Contract.capital, lower_char, is_continuation.
  intros H. apply andb_true_iff in H as [H1 H2].
  apply Nat.leb_le in H1, H2.
  rewrite nat_ascii_embedding by lia.
  replace (65 <=? nat_of_ascii c - 32)%nat with true by (symmetry; apply Nat.leb_le; lia).
  replace (nat_of_ascii c - 32 <=? 90)%nat with true by (symmetry; apply Nat.leb_le; lia).
  replace (128 <=? nat_of_ascii c - 32)%nat with false by (symmetry; apply Nat.leb_gt; lia).
  replace (nat_of_ascii c - 32 + 32)%nat with (nat_of_ascii c) by lia.
  rewrite ascii_nat_embedding. repeat split. lia.
Qed.

(** What lowers to a plain character: the character itself, or its
    capital. *)
Lemma lower_char_plain a c :
  is_plain c = true -> lower_char a = c ->
  a = c \/ (Contract.is_small_letter c = true /\ a = Contract.capital c).
Proof.
  unfold lower_char, Contract.is_small_letter, Contract.capital.
  intros Hc H. destruct ((65 <=? nat_of_ascii a) && (nat_of_ascii a <=? 90))%nat eqn:E.
  - right. apply andb_true_iff in E as [E1 E2]. apply Nat.leb_le in E1, E2.
    subst c. rewrite nat_ascii_embedding by lia. split.
    + apply andb_true_iff. split; apply Nat.leb_le; lia.
    + replace (nat_of_ascii a + 32 - 32)%nat with (nat_of_ascii a) by lia.
      now rewrite ascii_nat_embedding.
  - now left.
Qed.

(** A byte below 128 begins neither of the two special characters. *)
Lemma ascii_starts_nothing a r :
  (nat_of_ascii a < 128)%nat ->
  startswith dotted_capital_i (String a r) = false
  /\ startswith kelvin_sign (String a r) = false.
Proof.
  intros H. unfold dotted_capital_i, kelvin_sign. cbn [startswith].
  split.
  - destruct (Ascii.eqb "196" a) eqn:E; [| reflexivity].
    apply Ascii.eqb_eq in E. subst a.
    change (nat_of_ascii "196") with 196%nat in H. lia.
  - destruct (Ascii.eqb "226" a) eqn:E; [| reflexivity].
    apply Ascii.eqb_eq in E. subst a.
    change (nat_of_ascii "226") with 226%nat in H. lia.
Qed.

Lemma lower_ascii a r :
  (nat_of_ascii a < 128)%nat -> lower (String a r) = String (lower_char a) (lower r).
Proof. intros H. destruct (ascii_starts_nothing a r H). now apply lower_other. Qed.

Lemma is_plain_ascii c : is_plain c = true -> (nat_of_ascii c < 128)%nat.
Proof.
  unfold is_plain. intros H. apply andb_true_iff in H as [H _]. now apply Nat.ltb_lt.
Qed.

Lemma plain_inv c rest :
  plain (String c rest) = true ->
  is_plain c = true /\ plain rest = true /\ (rest = "" -> c <> "i"%char).
Proof.
  cbn [plain]. intros H. apply andb_true_iff in H as [H Hr].
  apply andb_true_iff in H as [Hc Hi]. repeat split; try assumption.
  intros -> ->. discriminate Hi.
Qed.

(** *** From the lowered text back to the text *)

Lemma startswith_lower word :
  plain word = true ->
  forall t, startswith word (lower t) = true ->
  exists stretch rest, t = stretch +:+ rest /\ Contract.same_ignoring_case word stretch.
Proof.
  induction word as [|c word IH]; intros Hp t H.
  - exists "", t. split; [reflexivity | constructor].
  - apply plain_inv in Hp as [Hc [Hp Hi]].
    destruct (first_character t) as [-> | [[r ->] | [[r ->] | [a [r [-> [H1 H2]]]]]]].
    + discriminate H.
    + rewrite lower_dotted in H. unfold dotted_small_i in H.
      cbn [String.append startswith] in H.
      apply andb_true_iff in H as [Hci H]. apply Ascii.eqb_eq in Hci. subst c.
      destruct word as [|d word]; [now destruct Hi |].
      cbn [startswith] in H. apply andb_true_iff in H as [Hd _].
      apply Ascii.eqb_eq in Hd. subst d.
      apply plain_inv in Hp as [Hd _]. discriminate Hd.
    + rewrite lower_kelvin in H. cbn [startswith] in H.
      apply andb_true_iff in H as [Hck H]. apply Ascii.eqb_eq in Hck. subst c.
      destruct (IH Hp r H) as [stretch [rest [-> Hsame]]].
      exists (kelvin_sign +:+ stretch), rest. split.
      * now rewrite append_assoc.
      * now constructor.
    + rewrite (lower_other a r H1 H2) in H. cbn [startswith] in H.
      apply andb_true_iff in H as [Hca H]. apply Ascii.eqb_eq in Hca.
      destruct (IH Hp r H) as [stretch [rest [-> Hsame]]].
      exists (String a stretch), rest. split; [reflexivity |].
      destruct (lower_char_plain a c Hc (eq_sym Hca)) as [-> | [Hs ->]];
        now constructor.
Qed.

Lemma occurs_after x word t :
  Contract.occurs_ignoring_case word t -> Contract.occurs_ignoring_case word (x +:+ t).
Proof.
  intros [before [stretch [after [-> H]]]].
  exists (x +:+ before), stretch, after. split; [now rewrite append_assoc | exact H].
Qed.

Lemma occurs_before word t y :
  Contract.occurs_ignoring_case word t -> Contract.occurs_ignoring_case word (t +:+ y).
Proof.
  intros [before [stretch [after [-> H]]]].
  exists before, stretch, (after +:+ y). split; [now rewrite !append_assoc | exact H].
Qed.

Lemma contains_cases word s :
  contains word s = true ->
  startswith word s = true \/ exists c rest, s = String c rest /\ contains word rest = true.
Proof.
  destruct s as [|c rest]; cbn [contains]; intros H; apply orb_true_iff in H as [H | H].
  - now left.
  - discriminate H.
  - now left.
  - right. now exists c, rest.
Qed.

(** A plain word does not begin at a byte outside ASCII. *)
Lemma contains_skip c word rest :
  (128 <= nat_of_ascii c)%nat -> plain word = true -> word <> "" ->
  contains word (String c rest) = true -> contains word rest = true.
Proof.
  intros Hc Hp Hw H. apply contains_cases in H as [H | [c' [rest' [E H]]]].
  - destruct word as [|d word]; [now destruct Hw |].
    cbn [startswith] in H. apply andb_true_iff in H as [Hd _].
    apply Ascii.eqb_eq in Hd. subst d.
    apply plain_inv in Hp as [Hd _]. apply is_plain_ascii in Hd. lia.
  - now injection E as _ ->.
Qed.

Lemma contains_lower_occurs word :
  plain word = true ->
  forall t, contains word (lower t) = true -> Contract.occurs_ignoring_case word t.
Proof.
  intros Hp.
  assert (forall t, startswith word (lower t) = true ->
                    Contract.occurs_ignoring_case word t) as Hstart.
  { intros t H. destruct (startswith_lower word Hp t H) as [stretch [rest [-> Hsame]]].
    now exists "", stretch, rest. }
  destruct word as [|c0 word0] eqn:Eword.
  { intros t _. exists "", "", t. split; [reflexivity | constructor]. }
  rewrite <- Eword in *. assert (word <> "") as Hne by (rewrite Eword; discriminate).
  clear Eword c0 word0.
  intros t. induction t as [| r IH | r IH | a r H1 H2 IH] using lower_ind; intros H.
  - apply Hstart. apply contains_cases in H as [H | [c [rest [E _]]]];
      [exact H | discriminate E].
  - apply contains_cases in H as [H | [c [rest [E H]]]]; [now apply Hstart |].
    rewrite lower_dotted in E. injection E as _ <-.
    apply contains_skip in H; [| apply Nat.leb_le; reflexivity | exact Hp | exact Hne].
    apply contains_skip in H; [| apply Nat.leb_le; reflexivity | exact Hp | exact Hne].
    apply occurs_after. now apply IH.
  - apply contains_cases in H as [H | [c [rest [E H]]]]; [now apply Hstart |].
    rewrite lower_kelvin in E. injection E as _ <-.
    apply occurs_after. now apply IH.
  - apply contains_cases in H as [H | [c [rest [E H]]]]; [now apply Hstart |].
    rewrite (lower_other a r H1 H2) in E. injection E as _ <-.
    apply (occurs_after (String a "")). now apply IH.
Qed.

(** *** From the text to the lowered text *)

Lemma same_lower word stretch :
  Contract.same_ignoring_case word stretch ->
  plain word = true ->
  forall after, lower (stretch +:+ after) = word +:+ lower after.
Proof.
  induction 1 as [| c word stretch Hsame IH | c word stretch Hs Hsame IH
                  | word stretch Hsame IH]; intros Hp after.
  - reflexivity.
  - apply plain_inv in Hp as [Hc [Hp _]]. cbn [String.append].
    rewrite lower_ascii by now apply is_plain_ascii.
    now rewrite (is_plain_lower c Hc), IH.
  - apply plain_inv in Hp as [Hc [Hp _]]. cbn [String.append].
    destruct (capital_lower c Hs) as [Hl [_ Hlt]].
    rewrite lower_ascii by exact Hlt. now rewrite Hl, IH.
  - apply plain_inv in Hp as [_ [Hp _]].
    rewrite append_assoc, lower_kelvin, IH by exact Hp. reflexivity.
Qed.

Lemma same_head word stretch after :
  Contract.same_ignoring_case word stretch ->
  plain word = true ->
  starts_with_continuation (stretch +:+ after) = false \/ word = "".
Proof.
  intros Hsame Hp. destruct Hsame as [| c word stretch _ | c word stretch Hs _ | word stretch _].
  - now right.
  - left. apply plain_inv in Hp as [Hc _]. now apply is_plain_not_continuation.
  - left. now destruct (capital_lower c Hs) as [_ [H _]].
  - left. reflexivity.
Qed.

(** [word in text.lower()] is the occurrence of [word] ignoring case,
    for each word the script looks for. *)
Lemma contains_lower_iff (word text : string) :
  plain word = true ->
  contains word (lower text) = true <-> Contract.occurs_ignoring_case word text.
Proof.
  intros Hp. split; [now apply contains_lower_occurs |].
  intros [before [stretch [after [-> Hsame]]]].
  destruct (same_head word stretch after Hsame Hp) as [Hhead | ->].
  - apply contains_spec. exists (lower before), (lower after).
    now rewrite (lower_app _ _ Hhead), (same_lower _ _ Hsame Hp).
  - destruct (lower _); reflexivity.
Qed.

End TextFacts.

(* ===================================================================== *)
(** * The bounds of the JSON scanner are never reached                    *)
(* ===================================================================== *)

Section JsonFacts.
Import Json.
Local Open Scope nat_scope.

(** A scanning step that did not stop at a bound and, when it scanned a
    value, ended after the index [e] it started from. *)
Definition progresses {A} (r : scan A) (e : nat) : Prop :=
  r <> Exhausted /\ forall a e', r = Scanned a e' -> e < e'.

(** A scanner that progresses from every index at or after [lb]. *)
Definition scanner_ok (f : string -> nat -> scan pyval) (s : string) (lb : nat) : Prop :=
  forall e, lb <= e -> progresses (f s e) e.

Lemma progresses_error {A} msg pos e : progresses (@DecodeError A msg pos) e.
Proof. split; [discriminate | intros ? ? H; discriminate H]. Qed.

Lemma progresses_stop {A} idx e : progresses (@StopIteration A idx) e.
Proof. split; [discriminate | intros ? ? H; discriminate H]. Qed.

Lemma progresses_scanned {A} (a : A) e e' : e < e' -> progresses (Scanned a e') e.
Proof. intros H. split; [discriminate | intros ? ? E; inversion E; subst; exact H]. Qed.

Lemma progresses_weaken {A} (r : scan A) e e' :
  e' <= e -> progresses r e -> progresses r e'.
Proof. intros Hle [H1 H2]. split; [exact H1 | intros a x E; specialize (H2 a x E); lia]. Qed.

Lemma substring_length_le n m s : String.length (substring n m s) <= m.
Proof.
  revert n m; induction s as [|c s IH]; intros [|n] [|m]; simpl; try lia.
  - specialize (IH 0 m). lia.
  - apply IH.
  - apply IH.
Qed.

Lemma substring_past_end n m s : String.length s <= n -> substring n m s = "".
Proof.
  revert n m; induction s as [|c s IH]; intros [|n] [|m]; simpl; intros H;
    try reflexivity; try lia; apply IH; lia.
Qed.

Lemma substring_one_lt e s c : substring e 1 s = String c "" -> e < String.length s.
Proof.
  intros H. destruct (Nat.lt_ge_cases e (String.length s)) as [Hlt | Hge]; [exact Hlt |].
  rewrite substring_past_end in H by exact Hge. discriminate H.
Qed.

Lemma drop_length s i : i + String.length (drop i s) <= Nat.max i (String.length s).
Proof. unfold drop. pose proof (substring_length_le i (String.length s - i) s). lia. Qed.

Lemma get_past_end s i : String.length s <= i -> String.get i s = None.
Proof.
  revert i; induction s as [|c s IH]; intros [|i] H; simpl in *;
    try reflexivity; try lia. apply IH. lia.
Qed.

Lemma skip_ws_bounds rest i : i <= skip_ws rest i <= i + String.length rest.
Proof.
  revert i; induction rest as [|c r IH]; intros i; simpl; [lia |].
  destruct (is_ws c); [specialize (IH (S i)) |]; lia.
Qed.

Lemma ws_end_le s i : ws_end s i <= String.length s.
Proof.
  unfold ws_end.
  pose proof (skip_ws_bounds (drop (Nat.min i (String.length s)) s)
                (Nat.min i (String.length s))).
  pose proof (drop_length s (Nat.min i (String.length s))). lia.
Qed.

Lemma ws_end_ge s i : Nat.min i (String.length s) <= ws_end s i.
Proof.
  unfold ws_end.
  pose proof (skip_ws_bounds (drop (Nat.min i (String.length s)) s)
                (Nat.min i (String.length s))). lia.
Qed.

(** A character found at the end of the whitespace lies inside the
    document, at or after the index the skipping started from. *)
Lemma ws_end_char s e c :
  substring (ws_end s e) 1 s = String c "" ->
  e <= ws_end s e /\ ws_end s e < String.length s.
Proof.
  intros H. apply substring_one_lt in H.
  pose proof (ws_end_ge s e). lia.
Qed.

Lemma find_terminator_bounds rest i p t :
  find_terminator rest i = Some (p, t) -> i <= p < i + String.length rest.
Proof.
  revert i; induction rest as [|c r IH]; intros i H; simpl in H; [discriminate |].
  destruct (_ || _).
  - inversion H; subst. simpl. lia.
  - apply IH in H. simpl. lia.
Qed.

Lemma find_terminator_inside s e p t :
  find_terminator (drop e s) e = Some (p, t) -> e <= p < String.length s.
Proof.
  intros H. apply find_terminator_bounds in H.
  pose proof (drop_length s e). lia.
Qed.

(** The loop of [scanstring] ends before its bound. *)
Lemma scanstring_loop_progresses n s b chunks e :
  String.length s < n + e -> 1 <= n ->
  progresses (scanstring_loop n s b chunks e) e.
Proof.
  revert chunks e; induction n as [|n IH]; intros chunks e Hlen Hn; [lia |].
  cbn [scanstring_loop].
  destruct (find_terminator (drop e s) e) as [[p t] |] eqn:Hf;
    [| apply progresses_error].
  apply find_terminator_inside in Hf.
  assert (1 <= n) as Hn' by lia.
  destruct (negb (Ascii.eqb t quote || Ascii.eqb t backslash)); [apply progresses_error |].
  destruct (Ascii.eqb t quote); [apply progresses_scanned; lia |].
  destruct (String.get (S p) s) as [esc |]; [| apply progresses_error].
  destruct (negb (Ascii.eqb esc "u")).
  - destruct (BACKSLASH esc); [| apply progresses_error].
    eapply progresses_weaken; [| apply IH]; lia.
  - destruct (String.length s <=? S p + 1 + 4); [apply progresses_error |].
    destruct (hex4 s (S p + 1)) as [uni |]; [| apply progresses_error].
    destruct (_ && _).
    + destruct (hex4 s (S p + 1 + 4 + 2)) as [uni2 |]; [| apply progresses_error].
      destruct (_ && _); (eapply progresses_weaken; [| apply IH]; lia).
    + eapply progresses_weaken; [| apply IH]; lia.
Qed.

Lemma scanstring_progresses s e : progresses (scanstring s e) e.
Proof. apply scanstring_loop_progresses; lia. Qed.

Lemma match_integer_length rest integer r :
  match_integer rest = Some (integer, r) -> 1 <= String.length integer.
Proof.
  destruct rest as [|c rest]; simpl; [discriminate |].
  destruct (Ascii.eqb c "0"); [intros H; inversion H; simpl; lia |].
  destruct (is_digit c) eqn:Hd; [| discriminate].
  destruct (span_digits rest) as [ds r']. intros H; inversion H; simpl; lia.
Qed.

Lemma match_unsigned_length negative r0 v len :
  match_unsigned negative r0 = Some (v, len) -> 1 <= len.
Proof.
  unfold match_unsigned.
  destruct (match_integer r0) as [[integer r1] |] eqn:Hi; [| discriminate].
  apply match_integer_length in Hi.
  destruct (match_frac r1) as [frac r2].
  destruct frac; destruct (match_exp r2) as [[e l] |]; intros H; inversion H; lia.
Qed.

Lemma match_number_length rest v len : match_number rest = Some (v, len) -> 1 <= len.
Proof.
  destruct rest as [|c r]; simpl; [discriminate |].
  destruct (Ascii.eqb c "-"); apply match_unsigned_length.
Qed.

Lemma eqb_char s e c :
  String.eqb (substring e 1 s) (String c "") = true -> e < String.length s.
Proof. intros H. apply String.eqb_eq in H. now apply substring_one_lt in H. Qed.

Lemma eqb_char_ws s e c :
  String.eqb (substring (ws_end s e) 1 s) (String c "") = true ->
  e <= ws_end s e /\ ws_end s e < String.length s.
Proof. intros H. apply String.eqb_eq in H. now apply ws_end_char in H. Qed.

Section Loops.
Variable f : string -> nat -> scan pyval.
Variable s : string.
Variable lb : nat.
Hypothesis f_ok : scanner_ok f s lb.

(** The loop of [JSONArray] ends before its bound. *)
Lemma JSONArray_loop_progresses n values e :
  lb <= e -> e <= String.length s -> String.length s < n + e ->
  progresses (JSONArray_loop f n s values e) e.
Proof.
  revert values e; induction n as [|n IH]; intros values e Hlb Hle Hlen; [lia |].
  cbn [JSONArray_loop].
  destruct (f_ok e Hlb) as [Hne Hpos].
  destruct (f s e) as [value e1 | idx | msg pos |] eqn:Hf;
    [| apply progresses_error | apply progresses_error | congruence].
  specialize (Hpos value e1 eq_refl).
  destruct (String.eqb (substring (ws_end s e1) 1 s) "]") eqn:Hclose.
  - apply eqb_char_ws in Hclose. apply progresses_scanned. lia.
  - destruct (String.eqb (substring (ws_end s e1) 1 s) ",") eqn:Hcomma;
      [| apply progresses_error].
    apply eqb_char_ws in Hcomma. simpl negb. cbv iota.
    pose proof (ws_end_le s (ws_end s e1 + 1)).
    pose proof (ws_end_ge s (ws_end s e1 + 1)).
    eapply progresses_weaken; [| apply IH]; lia.
Qed.

Lemma JSONArray_progresses e0 :
  lb <= e0 -> e0 <= String.length s -> progresses (JSONArray f s e0) e0.
Proof.
  intros Hlb Hle. unfold JSONArray.
  pose proof (ws_end_le s e0). pose proof (ws_end_ge s e0).
  destruct (String.eqb (substring (ws_end s e0) 1 s) "]").
  - apply progresses_scanned. lia.
  - eapply progresses_weaken; [| apply JSONArray_loop_progresses]; lia.
Qed.

(** The loop of [JSONObject] ends before its bound. *)
Lemma JSONObject_loop_progresses n pairs e :
  lb <= e -> e <= String.length s -> String.length s < n + e ->
  progresses (JSONObject_loop f n s pairs e) e.
Proof.
  revert pairs e; induction n as [|n IH]; intros pairs e Hlb Hle Hlen; [lia |].
  cbn [JSONObject_loop].
  destruct (scanstring_progresses s e) as [Hne Hpos].
  destruct (scanstring s e) as [key e1 | idx | msg pos |] eqn:Hs;
    [| apply progresses_stop | apply progresses_error | congruence].
  specialize (Hpos key e1 eq_refl).
  set (e2 := if negb (String.eqb (substring e1 1 s) ":") then ws_end s e1 else e1).
  destruct (String.eqb (substring e2 1 s) ":") eqn:Hcolon; [| apply progresses_error].
  simpl negb. cbv iota.
  assert (e1 <= e2 /\ e2 < String.length s) as [He2 He2'].
  { apply eqb_char in Hcolon. split; [| exact Hcolon].
    unfold e2 in *. destruct (negb _); [| lia].
    pose proof (ws_end_ge s e1). lia. }
  pose proof (ws_end_le s (e2 + 1)). pose proof (ws_end_ge s (e2 + 1)).
  assert (lb <= ws_end s (e2 + 1)) as Hlb' by lia.
  destruct (f_ok _ Hlb') as [Hne' Hpos'].
  destruct (f s (ws_end s (e2 + 1))) as [value e3 | idx | msg pos |] eqn:Hf;
    [| apply progresses_error | apply progresses_error | congruence].
  specialize (Hpos' value e3 eq_refl).
  destruct (String.eqb (substring (ws_end s e3) 1 s) "}") eqn:Hclose.
  - apply eqb_char_ws in Hclose. apply progresses_scanned. lia.
  - destruct (String.eqb (substring (ws_end s e3) 1 s) ",") eqn:Hcomma;
      [| apply progresses_error].
    apply eqb_char_ws in Hcomma. simpl negb. cbv iota.
    destruct (String.eqb (substring (ws_end s (ws_end s e3 + 1)) 1 s)
                (String quote "")) eqn:Hq; [| apply progresses_error].
    apply eqb_char_ws in Hq. simpl negb. cbv iota.
    eapply progresses_weaken; [| apply IH]; lia.
Qed.

Lemma JSONObject_progresses e0 :
  lb <= e0 -> e0 <= String.length s -> progresses (JSONObject f s e0) e0.
Proof.
  intros Hlb Hle. unfold JSONObject.
  destruct (String.eqb (substring e0 1 s) (String quote "")) eqn:Hq.
  - apply eqb_char in Hq.
    eapply progresses_weaken; [| apply JSONObject_loop_progresses]; lia.
  - pose proof (ws_end_le s e0). pose proof (ws_end_ge s e0).
    destruct (String.eqb (substring (ws_end s e0) 1 s) "}");
      [apply progresses_scanned; lia |].
    destruct (String.eqb (substring (ws_end s e0) 1 s) (String quote "")) eqn:Hq';
      [| apply progresses_error].
    apply eqb_char_ws in Hq'. simpl negb. cbv iota.
    eapply progresses_weaken; [| apply JSONObject_loop_progresses]; lia.
Qed.

End Loops.

Lemma get_some_lt s idx c : String.get idx s = Some c -> idx < String.length s.
Proof.
  intros H. destruct (Nat.lt_ge_cases idx (String.length s)) as [Hlt | Hge]; [exact Hlt |].
  rewrite get_past_end in H by exact Hge. discriminate H.
Qed.

(** With a depth that covers what is left of the document, the scanner
    never stops at a bound, and a value it scans ends after its start. *)
Lemma scan_once_progresses depth s idx :
  String.length s <= depth + idx -> progresses (scan_once depth s idx) idx.
Proof.
  revert idx; induction depth as [|depth IH]; intros idx Hlen.
  - cbn [scan_once]. rewrite get_past_end by lia. apply progresses_stop.
  - cbn [scan_once].
    destruct (String.get idx s) as [nextchar |] eqn:Hget; [| apply progresses_stop].
    apply get_some_lt in Hget.
    assert (scanner_ok (scan_once depth) s (idx + 1)) as Hok.
    { intros e He. apply IH. lia. }
    destruct (Ascii.eqb nextchar quote).
    { destruct (scanstring_progresses s (idx + 1)) as [Hne Hpos].
      destruct (scanstring s (idx + 1)) as [str e1 | i | msg pos |] eqn:Hs;
        [| apply progresses_stop | apply progresses_error | congruence].
      specialize (Hpos str e1 eq_refl). apply progresses_scanned. lia. }
    destruct (Ascii.eqb nextchar "{").
    { eapply progresses_weaken; [| apply (JSONObject_progresses _ _ _ Hok)]; lia. }
    destruct (Ascii.eqb nextchar "[").
    { eapply progresses_weaken; [| apply (JSONArray_progresses _ _ _ Hok)]; lia. }
    destruct (_ && _); [apply progresses_scanned; lia |].
    destruct (_ && _); [apply progresses_scanned; lia |].
    destruct (_ && _); [apply progresses_scanned; lia |].
    destruct (match_number (drop idx s)) as [[res len] |] eqn:Hn.
    { apply match_number_length in Hn. apply progresses_scanned. lia. }
    destruct (_ && _); [apply progresses_scanned; lia |].
    destruct (_ && _); [apply progresses_scanned; lia |].
    destruct (_ && _); [apply progresses_scanned; lia |].
    apply progresses_stop.
Qed.

(** [loads] gives the scanner enough depth: the bound is not reached on
    any document. *)
Lemma scan_once_sufficient s idx :
  scan_once (String.length s) s idx <> Exhausted.
Proof. apply (scan_once_progresses (String.length s) s idx). lia. Qed.

End JsonFacts.

(* ===================================================================== *)
(** * The prompt builder                                                  *)
(* ===================================================================== *)

Section PromptFacts.
Import Text Prompt.
Local Arguments String.append !_ _ / : simpl nomatch.

Lemma make_prompt_unfold resume_text job_description user_question mode :
  make_prompt resume_text job_description user_question mode
  = preamble mode +:+ mode_instructions mode +:+ job_block job_description
    +:+ question_block user_question +:+ "Resume Text:" +:+ nl +:+ resume_text.
Proof.
  unfold make_prompt, resume_block. now rewrite !append_assoc.
Qed.

End PromptFacts.

(** C5. The prompt is the preamble, the instructions of the mode, the job
    description block, the user question block and the resume block, in
    this order; the resume text is a suffix of it; a job description (a
    user question) that is not empty appears verbatim in its labelled
    block, and one that is missing or empty leaves no block at all. *)
Theorem make_prompt_layout :
  (forall resume_text job_description user_question mode,
      Prompt.make_prompt resume_text job_description user_question mode
      = Prompt.preamble mode +:+ Prompt.mode_instructions mode
        +:+ Prompt.job_block job_description
        +:+ Prompt.question_block user_question
        +:+ "Resume Text:" +:+ Text.nl +:+ resume_text)
  /\ (forall resume_text job_description user_question mode,
      exists before,
        Prompt.make_prompt resume_text job_description user_question mode
        = before +:+ resume_text)
  /\ (forall c jd resume_text user_question mode,
      Prompt.job_block (Some (String c jd))
      = "Job Description:" +:+ Text.nl +:+ String c jd +:+ Text.nl
      /\ Text.contains (String c jd)
           (Prompt.make_prompt resume_text (Some (String c jd)) user_question mode) = true)
  /\ (forall c q resume_text job_description mode,
      Prompt.question_block (Some (String c q))
      = "User Question:" +:+ Text.nl +:+ String c q +:+ Text.nl
      /\ Text.contains (String c q)
           (Prompt.make_prompt resume_text job_description (Some (String c q)) mode) = true)
  /\ (forall resume_text user_question mode,
      Prompt.make_prompt resume_text None user_question mode
      = Prompt.preamble mode +:+ Prompt.mode_instructions mode
        +:+ Prompt.question_block user_question
        +:+ "Resume Text:" +:+ Text.nl +:+ resume_text
      /\ Prompt.make_prompt resume_text (Some "") user_question mode
         = Prompt.make_prompt resume_text None user_question mode)
  /\ (forall resume_text job_description mode,
      Prompt.make_prompt resume_text job_description None mode
      = Prompt.preamble mode +:+ Prompt.mode_instructions mode
        +:+ Prompt.job_block job_description
        +:+ "Resume Text:" +:+ Text.nl +:+ resume_text
      /\ Prompt.make_prompt resume_text job_description (Some "") mode
         = Prompt.make_prompt resume_text job_description None mode)
  /\ (Prompt.mode_instructions "analyze" = Prompt.analyze_instructions
      /\ Prompt.mode_instructions "cover_letter" = Prompt.cover_letter_instructions
      /\ Prompt.mode_instructions "linkedin" = Prompt.linkedin_instructions
      /\ Prompt.mode_instructions "interview" = Prompt.interview_instructions).
Proof.
  repeat apply conj; intros; try reflexivity.
  - apply make_prompt_unfold.
  - rewrite make_prompt_unfold.
    eexists. rewrite <- !append_assoc. reflexivity.
  - split; [reflexivity |].
    rewrite make_prompt_unfold. apply contains_spec.
    exists (Prompt.preamble mode +:+ Prompt.mode_instructions mode
            +:+ "Job Description:" +:+ Text.nl),
           (Text.nl +:+ Prompt.question_block user_question
            +:+ "Resume Text:" +:+ Text.nl +:+ resume_text).
    unfold Prompt.job_block, Text.nonempty. now rewrite !append_assoc.
  - split; [reflexivity |].
    rewrite make_prompt_unfold. apply contains_spec.
    exists (Prompt.preamble mode +:+ Prompt.mode_instructions mode
            +:+ Prompt.job_block job_description +:+ "User Question:" +:+ Text.nl),
           (Text.nl +:+ "Resume Text:" +:+ Text.nl +:+ resume_text).
    unfold Prompt.question_block, Text.nonempty. now rewrite !append_assoc.
  - split; [now rewrite make_prompt_unfold | reflexivity].
  - split; [now rewrite make_prompt_unfold | reflexivity].
Qed.

(* ===================================================================== *)
(** * The scorer                                                          *)
(* ===================================================================== *)

Section ScoreFacts.
Import Text Score.

Lemma resume_score_items text :
  resume_score text
  = [("Contact", contact_score text); ("Skills", skills_score text);
     ("Experience", experience_score text);
     ("Total", contact_score text + skills_score text + experience_score text)].
Proof.
  unfold resume_score, sum_values, contact_score, skills_score, experience_score.
  simpl. repeat f_equal.
Qed.

Lemma contact_words_plain word : In word contact_words -> plain word = true.
Proof. intros [<- | [<- | [<- | []]]]; reflexivity. Qed.

Lemma contact_score_cases text :
  ((exists word, In word contact_words /\ Contract.occurs_ignoring_case word text)
   /\ contact_score text = 10)
  \/ ((~ exists word, In word contact_words /\ Contract.occurs_ignoring_case word text)
      /\ contact_score text = 0).
Proof.
  unfold contact_score.
  destruct (existsb _ contact_words) eqn:E.
  - left. split; [| reflexivity].
    apply existsb_exists in E as [word [Hin Hc]].
    exists word. split; [exact Hin |].
    now apply contains_lower_iff; [apply contact_words_plain |].
  - right. split; [| reflexivity].
    intros [word [Hin Hc]].
    assert (existsb (fun word => contains word (lower text)) contact_words = true)
      as E' by (apply existsb_exists; exists word; split;
                [exact Hin
                | now apply contains_lower_iff; [apply contact_words_plain |]]).
    congruence.
Qed.

Lemma keyword_score_cases word text :
  plain word = true ->
  (Contract.occurs_ignoring_case word text
   /\ (if contains word (lower text) then 10 else 0) = 10)
  \/ (~ Contract.occurs_ignoring_case word text
      /\ (if contains word (lower text) then 10 else 0) = 0).
Proof.
  intros Hp. destruct (contains word (lower text)) eqn:E.
  - left. split; [now apply contains_lower_iff | reflexivity].
  - right. split; [| reflexivity].
    intros H. apply contains_lower_iff in H; [congruence | exact Hp].
Qed.

End ScoreFacts.

(** C6. The score of a text is a function of the text alone: Contact is
    10 when one of "email", "phone", "contact" occurs in it ignoring case
    and 0 otherwise, Skills is 10 exactly when "skills" occurs, Experience
    is 10 exactly when "experience" occurs, and Total is the sum of the
    three.  Ignoring case is [Contract.same_ignoring_case], which is
    stated on the letters and does not mention [lower].  The John Doe
    resume scores 10, 0, 10, 20 and the empty text scores 0 everywhere; a
    resume in capitals scores as the same resume in small letters, and
    SKILLS written with the Kelvin sign counts. *)
Theorem resume_score_spec :
  (forall text, exists contact skills experience,
      Score.resume_score text
      = [("Contact", contact); ("Skills", skills); ("Experience", experience);
         ("Total", contact + skills + experience)]
      /\ (((exists word, In word ["email"; "phone"; "contact"]
                         /\ Contract.occurs_ignoring_case word text) /\ contact = 10)
          \/ ((~ exists word, In word ["email"; "phone"; "contact"]
                              /\ Contract.occurs_ignoring_case word text) /\ contact = 0))
      /\ ((Contract.occurs_ignoring_case "skills" text /\ skills = 10)
          \/ (~ Contract.occurs_ignoring_case "skills" text /\ skills = 0))
      /\ ((Contract.occurs_ignoring_case "experience" text /\ experience = 10)
          \/ (~ Contract.occurs_ignoring_case "experience" text /\ experience = 0)))
  /\ Score.resume_score "John Doe, email: j@x.com, 5 years experience in sales"
     = [("Contact", 10); ("Skills", 0); ("Experience", 10); ("Total", 20)]
  /\ Score.resume_score ""
     = [("Contact", 0); ("Skills", 0); ("Experience", 0); ("Total", 0)]
  /\ Score.resume_score "JOHN DOE, PHONE: 555 0100. SKILLS: Sql, Excel"
     = [("Contact", 10); ("Skills", 10); ("Experience", 0); ("Total", 20)]
  /\ Score.resume_score ("S" +:+ Text.kelvin_sign +:+ "ILLS")
     = [("Contact", 0); ("Skills", 10); ("Experience", 0); ("Total", 10)].
Proof.
  split; [| repeat split; reflexivity].
  intros text.
  exists (Score.contact_score text), (Score.skills_score text),
    (Score.experience_score text).
  split; [apply resume_score_items |].
  split; [apply contact_score_cases |].
  split; now apply keyword_score_cases.
Qed.

(** C10. Every category score is 0 or 10, so the total is 0, 10, 20 or 30
    and never above 30, while the scorecard prints the total over 100 and
    the categories over 20, 20 and 25. *)
Theorem score_range_and_scorecard (text : string) (w : world) :
  exists contact skills experience,
    Score.resume_score text
    = [("Contact", contact); ("Skills", skills); ("Experience", experience);
       ("Total", contact + skills + experience)]
    /\ (contact = 0 \/ contact = 10)
    /\ (skills = 0 \/ skills = 10)
    /\ (experience = 0 \/ experience = 10)
    /\ In (contact + skills + experience) [0; 10; 20; 30]
    /\ contact + skills + experience <= 30
    /\ App.scorecard text w
       = (Return tt,
          {| session := session w;
             shown := shown w ++
               [st_subheader "Scorecard";
                st_metric "Total" (Text.str_of_Z (contact + skills + experience) +:+ "/100");
                st_metric "Contact" (Text.str_of_Z contact +:+ "/20");
                st_metric "Skills" (Text.str_of_Z skills +:+ "/20");
                st_metric "Experience" (Text.str_of_Z experience +:+ "/25");
                st_markdown "**Breakdown**";
                st_table [("Contact", contact); ("Skills", skills);
                          ("Experience", experience)]];
             calls := calls w |})
    /\ App.demo_scorecard text w
       = (Return tt,
          {| session := session w;
             shown := shown w ++
               [st_subheader "Scorecard";
                st_metric "Total" (Text.str_of_Z (contact + skills + experience) +:+ "/100");
                st_table [("Contact", contact); ("Skills", skills);
                          ("Experience", experience)]];
             calls := calls w |}).
Proof.
  exists (Score.contact_score text), (Score.skills_score text),
    (Score.experience_score text).
  split; [apply resume_score_items |].
  unfold App.scorecard, App.demo_scorecard. rewrite resume_score_items.
  unfold Score.contact_score, Score.skills_score, Score.experience_score.
  destruct (existsb _ Score.contact_words);
    destruct (Text.contains "skills" _);
    destruct (Text.contains "experience" _);
    (repeat split; [tauto | tauto | tauto | simpl; tauto | lia | |]);
    destruct w as [s sh cs]; cbv [mbind script_bind Script.bind Script.draw App.score_item
      Score.item String.eqb Ascii.eqb Bool.eqb Script.ret Script.raise shown session calls
      App.breakdown filter list_filter fst negb decide_rel];
    simpl; rewrite <- !app_assoc; reflexivity.
Qed.

(* ===================================================================== *)
(** * The session state store                                             *)
(* ===================================================================== *)

Section StoreFacts.

Lemma filter_key_absent (l : list (string * pyval)) (k : string) :
  k ∉ l.*1 -> filter (fun kv : string * pyval => kv.1 = k) l = [].
Proof.
  induction l as [|[k' v'] l IH]; intros Hk; [reflexivity |].
  rewrite fmap_cons, not_elem_of_cons in Hk. destruct Hk as [Hne Hk].
  rewrite filter_cons_False by (simpl; intros ?; subst; tauto). auto.
Qed.

Lemma filter_key_unique (l : list (string * pyval)) (k : string) (v : pyval) :
  NoDup (l.*1) -> (k, v) ∈ l ->
  filter (fun kv : string * pyval => kv.1 = k) l = [(k, v)].
Proof.
  induction l as [|[k' v'] l IH]; intros ND Hin.
  - inversion Hin.
  - rewrite fmap_cons, NoDup_cons in ND. destruct ND as [Hk' ND].
    apply elem_of_cons in Hin as [Heq | Hin].
    + injection Heq as <- <-.
      rewrite filter_cons_True by reflexivity.
      now rewrite filter_key_absent.
    + assert (k' <> k) as Hne.
      { intros ->. apply Hk'. apply list_elem_of_fmap. now exists (k, v). }
      rewrite filter_cons_False by (simpl; intros ?; subst; tauto). auto.
Qed.

(** The entries of a map under one key: exactly the one it looks up. *)
Lemma one_entry_for_key (m : gmap string pyval) (k : string) (v : pyval) :
  m !! k = Some v ->
  filter (fun kv : string * pyval => kv.1 = k) (map_to_list m) = [(k, v)].
Proof.
  intros H. apply filter_key_unique.
  - apply NoDup_fst_map_to_list.
  - now apply elem_of_map_to_list.
Qed.

End StoreFacts.

(** C7. Saving a version under a label and saving again under the same
    label leaves exactly one entry for the label, holding the second text:
    the second save overwrites the first, the map does not grow, and the
    state is the one a single save of the second text would give. *)
Theorem save_version_overwrites (label : string) (text1 text2 : pyval)
    (s : session_state) :
  versions (App.save_version label text2 (App.save_version label text1 s)) !! label
  = Some text2
  /\ filter (fun kv : string * pyval => kv.1 = label)
       (map_to_list (versions (App.save_version label text2
                                 (App.save_version label text1 s))))
     = [(label, text2)]
  /\ size (versions (App.save_version label text2 (App.save_version label text1 s)))
     = size (versions (App.save_version label text1 s))
  /\ App.save_version label text2 (App.save_version label text1 s)
     = App.save_version label text2 s.
Proof.
  assert (App.save_version label text2 (App.save_version label text1 s)
          = App.save_version label text2 s) as Heq.
  { unfold App.save_version. simpl. now rewrite insert_insert_eq. }
  assert (versions (App.save_version label text2 s) !! label = Some text2) as Hl.
  { unfold App.save_version. simpl. apply lookup_insert_eq. }
  rewrite Heq. repeat apply conj.
  - exact Hl.
  - now apply one_entry_for_key.
  - unfold App.save_version. simpl.
    transitivity (size (<[label := text2]> (<[label := text1]> (versions s)))).
    + now rewrite insert_insert_eq.
    + apply map_size_insert_Some. rewrite lookup_insert_eq. eauto.
  - reflexivity.
Qed.

(** C9. Clearing the chat raises nothing, replaces the chat turns by the
    empty sequence and leaves the saved versions as they were: the map is
    the same, so every label still holds its text, one saved just before
    included; nothing is drawn and nothing is sent. *)
Theorem clear_chat_frame (w : world) :
  App.clear_chat w
  = (Return tt,
     {| session := {| versions := versions (session w); chat_history := Some [] |};
        shown := shown w;
        calls := calls w |})
  /\ chat_history (session (snd (App.clear_chat w))) = Some []
  /\ versions (session (snd (App.clear_chat w))) = versions (session w)
  /\ (forall label, versions (session (snd (App.clear_chat w))) !! label
                    = versions (session w) !! label)
  /\ (forall label text,
         versions (session (snd (App.clear_chat
                                   (set_session (App.save_version label text (session w))
                                                w)))) !! label
         = Some text).
Proof.
  repeat apply conj; try reflexivity.
  intros label text. unfold App.clear_chat, App.save_version, set_session. simpl.
  apply lookup_insert_eq.
Qed.

(* ===================================================================== *)
(** * Running scripts                                                     *)
(* ===================================================================== *)

Section ScriptFacts.
Import Script.

Lemma add_shown_add_shown a b w : add_shown b (add_shown a w) = add_shown (a ++ b) w.
Proof. unfold add_shown. simpl. now rewrite app_assoc. Qed.

Lemma add_shown_nil w : add_shown [] w = w.
Proof. destruct w. unfold add_shown. simpl. now rewrite app_nil_r. Qed.

Lemma runs_draw ev : runs (draw ev) tt (add_shown [ev]).
Proof. intros w. reflexivity. Qed.

Lemma runs_for_each_draw {A} (items : list A) (ev : A -> ui_event) :
  runs (for_each items (fun x => draw (ev x))) tt (add_shown (map ev items)).
Proof.
  induction items as [|x items IH]; intros w.
  - simpl. now rewrite add_shown_nil.
  - simpl. unfold bind. rewrite runs_draw, IH, add_shown_add_shown. reflexivity.
Qed.

Lemma silent_ret {A} (a : A) : silent (mret a).
Proof. intros w. reflexivity. Qed.

Lemma silent_raise {A} e : silent (@raise A e).
Proof. intros w. reflexivity. Qed.

Lemma silent_draw ev : silent (draw ev).
Proof. intros w. reflexivity. Qed.

Lemma silent_get_session : silent get_session.
Proof. intros w. reflexivity. Qed.

Lemma silent_put_session s : silent (put_session s).
Proof. intros w. reflexivity. Qed.

Lemma silent_bind {A B} (m : script A) (k : A -> script B) :
  silent m -> (forall a, silent (k a)) -> silent (m ≫= k).
Proof.
  intros Hm Hk w. unfold mbind, script_bind, bind.
  specialize (Hm w). destruct (m w) as [[a | e] w']; simpl in *.
  - now rewrite Hk.
  - exact Hm.
Qed.

Lemma silent_for_each {A} (items : list A) (body : A -> script unit) :
  (forall x, silent (body x)) -> silent (for_each items body).
Proof.
  intros Hb. induction items as [|x items IH].
  - apply silent_ret.
  - simpl. apply (silent_bind (body x) (fun _ => for_each items body)); auto.
Qed.

Lemma silent_when b (m : script unit) : silent m -> silent (when b m).
Proof. intros H. destruct b; [exact H | apply silent_ret]. Qed.

Lemma silent_py_get obj key default : silent (App.py_get obj key default).
Proof. destruct obj; intros w; reflexivity. Qed.

Lemma silent_py_for v body : (forall x, silent (body x)) -> silent (App.py_for v body).
Proof.
  intros Hb. unfold App.py_for.
  destruct (Py.iter v); [now apply silent_for_each | apply silent_raise].
Qed.

Lemma silent_py_join sep v : silent (App.py_join sep v).
Proof.
  unfold App.py_join. destruct (Py.iter v); [| apply silent_raise].
  destruct (App.join_items 0 l); [apply silent_ret | apply silent_raise].
Qed.

End ScriptFacts.

Create HintDb silent discriminated.
#[local] Hint Resolve silent_ret silent_raise silent_draw silent_get_session
  silent_put_session silent_for_each silent_when silent_py_get silent_py_for
  silent_py_join : silent.
#[local] Hint Extern 2 (silent (_ ≫= _)) => apply silent_bind; [| intros ?] : silent.

(* ===================================================================== *)
(** * The Analyze handler                                                 *)
(* ===================================================================== *)

Section AnalyzeFacts.
Import Script App.
Variable client : request -> api_result.

Lemma silent_bullet_section title key result : silent (bullet_section title key result).
Proof. unfold bullet_section. auto 10 with silent. Qed.

Lemma silent_joined_section title key result : silent (joined_section title key result).
Proof. unfold joined_section. auto 10 with silent. Qed.

Lemma silent_save_version_widget name clicked resume :
  silent (save_version_widget name clicked resume).
Proof. unfold save_version_widget. auto 10 with silent. Qed.

Lemma silent_show_analysis name clicked result :
  silent (show_analysis name clicked result).
Proof.
  unfold show_analysis.
  pose proof silent_bullet_section. pose proof silent_joined_section.
  pose proof silent_save_version_widget.
  auto 40 with silent.
Qed.

(** The [try] block always hands a result to the rest of the handler and
    sends exactly one request. *)
Lemma analyze_call_calls prompt w :
  exists result w',
    analyze_call client prompt w = (Return result, w')
    /\ calls w' = calls w ++ [analyze_request prompt]
    /\ session w' = session w.
Proof.
  unfold analyze_call, mbind, script_bind, bind, create.
  destruct (client (analyze_request prompt)) as [content | e].
  - destruct (Json.loads content) as [obj | msg]; eexists; eexists; simpl; eauto.
  - eexists; eexists; simpl; eauto.
Qed.

Lemma analyze_handler_calls text job_description user_question name clicked w :
  calls (snd (analyze_handler client text job_description user_question name clicked w))
  = calls w ++ [analyze_request (Prompt.make_prompt text (Some job_description)
                                   (Some user_question) "analyze")].
Proof.
  unfold analyze_handler.
  destruct (analyze_call_calls
              (Prompt.make_prompt text (Some job_description) (Some user_question) "analyze")
              w) as [result [w' [Hrun [Hcalls _]]]].
  unfold mbind, script_bind, bind. rewrite Hrun.
  rewrite <- Hcalls.
  apply (silent_when _ _ (silent_show_analysis name clicked result)).
Qed.

(** When the text that comes back is not JSON, the handler draws one
    error, made of a fixed prefix and the description the parser gives of
    the failure, and nothing else. *)
Lemma analyze_handler_not_json text job_description user_question name clicked w raw e :
  client (analyze_request (Prompt.make_prompt text (Some job_description)
                             (Some user_question) "analyze")) = ApiOk raw ->
  Json.loads raw = Json.JSONDecodeError e ->
  analyze_handler client text job_description user_question name clicked w
  = (Return tt,
     {| session := session w;
        shown := shown w ++ [st_error ("OpenAI API call failed: " +:+ e)];
        calls := calls w ++ [analyze_request (Prompt.make_prompt text (Some job_description)
                                                (Some user_question) "analyze")] |}).
Proof.
  intros Hc Hl.
  unfold analyze_handler, analyze_call, mbind, script_bind, bind, create.
  rewrite Hc, Hl. reflexivity.
Qed.

End AnalyzeFacts.

(** C1, as the code has it.  For every text that comes back from the
    endpoint and does not parse as JSON, the Analyze handler raises
    nothing, draws exactly one error message, "OpenAI API call failed: "
    followed by the parser's description of the failure (kind and
    position), takes the empty dict as its result and draws no analysis;
    the outcome holds the raw text nowhere. *)
Theorem analyze_malformed_json_reported
    (client : request -> api_result)
    (text job_description user_question version_name : string) (save_clicked : bool)
    (w : world) (raw e : string) :
  client (App.analyze_request (Prompt.make_prompt text (Some job_description)
                                 (Some user_question) "analyze")) = ApiOk raw ->
  Json.loads raw = Json.JSONDecodeError e ->
  App.analyze_call client (Prompt.make_prompt text (Some job_description)
                             (Some user_question) "analyze") w
  = (Return (PDict []),
     {| session := session w;
        shown := shown w ++ [st_error ("OpenAI API call failed: " +:+ e)];
        calls := calls w ++ [App.analyze_request
                               (Prompt.make_prompt text (Some job_description)
                                  (Some user_question) "analyze")] |})
  /\ App.analyze_handler client text job_description user_question version_name
       save_clicked w
     = (Return tt,
        {| session := session w;
           shown := shown w ++ [st_error ("OpenAI API call failed: " +:+ e)];
           calls := calls w ++ [App.analyze_request
                                  (Prompt.make_prompt text (Some job_description)
                                     (Some user_question) "analyze")] |}).
Proof.
  intros Hc Hl. split.
  - unfold App.analyze_call, mbind, script_bind, Script.bind, App.create.
    rewrite Hc, Hl. reflexivity.
  - now apply analyze_handler_not_json with (raw := raw).
Qed.

(** The fenced JSON of the specification's scenario, run through the
    theorem above. *)
Lemma analyze_malformed_json_reported_witness :
  App.analyze_call (Sample.answers Sample.fenced_json) Sample.analyze_prompt Sample.fresh
  = (Return (PDict []),
     {| session := session Sample.fresh;
        shown := shown Sample.fresh ++
                 [st_error ("OpenAI API call failed: " +:+
                            "Expecting value: line 1 column 1 (char 0)")];
        calls := calls Sample.fresh ++ [App.analyze_request Sample.analyze_prompt] |})
  /\ App.analyze_handler (Sample.answers Sample.fenced_json) "resume" "" "" "Version 1"
       false Sample.fresh
     = (Return tt,
        {| session := session Sample.fresh;
           shown := shown Sample.fresh ++
                    [st_error ("OpenAI API call failed: " +:+
                               "Expecting value: line 1 column 1 (char 0)")];
           calls := calls Sample.fresh ++ [App.analyze_request Sample.analyze_prompt] |}).
Proof.
  apply (analyze_malformed_json_reported (Sample.answers Sample.fenced_json)
           "resume" "" "" "Version 1" false Sample.fresh Sample.fenced_json
           "Expecting value: line 1 column 1 (char 0)").
  - reflexivity.
  - vm_compute. reflexivity.
Defined.

(** C1, as stated, fails.  A markdown-fenced object and a sentence of
    prose are two different texts, neither parses, and the handler ends
    in the same world for both: one error that quotes the parser, not the
    text.  Nothing that was drawn contains the fenced text. *)
Lemma analyze_drops_raw_text :
  Sample.fenced_json <> Sample.prose
  /\ Json.loads Sample.fenced_json
     = Json.JSONDecodeError "Expecting value: line 1 column 1 (char 0)"
  /\ Json.loads Sample.prose
     = Json.JSONDecodeError "Expecting value: line 1 column 1 (char 0)"
  /\ App.analyze_handler (Sample.answers Sample.fenced_json) "resume" "" "" "Version 1"
       false Sample.fresh
     = App.analyze_handler (Sample.answers Sample.prose) "resume" "" "" "Version 1"
         false Sample.fresh
  /\ shown (snd (App.analyze_handler (Sample.answers Sample.fenced_json) "resume" "" ""
                   "Version 1" false Sample.fresh))
     = [st_error "OpenAI API call failed: Expecting value: line 1 column 1 (char 0)"]
  /\ Text.contains Sample.fenced_json
       "OpenAI API call failed: Expecting value: line 1 column 1 (char 0)" = false.
Proof.
  repeat apply conj; try (vm_compute; reflexivity).
  intros H. vm_compute in H. discriminate H.
Qed.

(* ===================================================================== *)
(** * The Analyze handler against the response contract                   *)
(* ===================================================================== *)

Section ContractFacts.
Import Script App Contract.

Lemma text_field_get o key s :
  text_field o key = Some s -> Py.dict_get o key (PStr "") = PStr s.
Proof.
  unfold text_field, Py.dict_get.
  destruct (Py.dict_lookup key o) as [[]|]; intros H; now inversion H.
Qed.

Lemma texts_map items l : texts items = Some l -> items = map PStr l.
Proof.
  revert l; induction items as [|v items IH]; intros l H.
  - now inversion H.
  - destruct v; try discriminate. simpl in H.
    destruct (texts items) as [l'|]; [| discriminate].
    inversion H; subst. simpl. now rewrite (IH l').
Qed.

Lemma seq_field_get o key l :
  seq_field o key = Some l -> Py.dict_get o key (PList []) = PList (map PStr l).
Proof.
  unfold seq_field, Py.dict_get.
  destruct (Py.dict_lookup key o) as [[]|]; intros H; try discriminate.
  - now rewrite (texts_map _ _ H).
  - now inversion H.
Qed.

Lemma join_items_texts i l : join_items i (map PStr l) = Return l.
Proof.
  revert i; induction l as [|s l IH]; intros i; [reflexivity |].
  simpl. now rewrite IH.
Qed.

Lemma runs_py_get_text o key s :
  text_field o key = Some s -> runs (py_get (PDict o) key (PStr "")) (PStr s) id.
Proof. intros H w. simpl. now rewrite (text_field_get _ _ _ H). Qed.

Lemma runs_bullet_section title key o l :
  seq_field o key = Some l ->
  runs (bullet_section title key (PDict o)) tt (add_shown (bullets title l)).
Proof.
  intros H w. unfold bullet_section, mbind, script_bind, bind.
  rewrite runs_draw. simpl py_get. unfold ret.
  rewrite (seq_field_get _ _ _ H). unfold py_for. cbn [Py.iter].
  rewrite (runs_for_each_draw (map PStr l) st_write_item).
  rewrite add_shown_add_shown, map_map. reflexivity.
Qed.

Lemma runs_joined_section title key o l :
  seq_field o key = Some l ->
  runs (joined_section title key (PDict o)) tt (add_shown (joined title l)).
Proof.
  intros H w. unfold joined_section, mbind, script_bind, bind.
  rewrite runs_draw. simpl py_get. unfold ret.
  rewrite (seq_field_get _ _ _ H). unfold py_join. cbn [Py.iter].
  rewrite join_items_texts. unfold ret.
  rewrite runs_draw, add_shown_add_shown. reflexivity.
Qed.

(** What a successful decoding says about each of the ten fields. *)
Lemma decode_analysis_fields o r :
  decode_analysis o = Some r ->
  text_field o "assessment" = Some (assessment r)
  /\ seq_field o "strengths" = Some (strengths r)
  /\ seq_field o "weaknesses" = Some (weaknesses r)
  /\ seq_field o "rewritten_bullets" = Some (rewritten_bullets r)
  /\ seq_field o "job_titles" = Some (job_titles r)
  /\ seq_field o "freelance_ideas" = Some (freelance_ideas r)
  /\ seq_field o "keywords" = Some (keywords r)
  /\ text_field o "rewritten_resume" = Some (rewritten_resume r)
  /\ text_field o "bullet_resume" = Some (bullet_resume r)
  /\ text_field o "email_summary" = Some (email_summary r).
Proof.
  unfold decode_analysis. intros H.
  destruct (text_field o "assessment"); [| discriminate].
  destruct (seq_field o "strengths"); [| discriminate].
  destruct (seq_field o "weaknesses"); [| discriminate].
  destruct (seq_field o "rewritten_bullets"); [| discriminate].
  destruct (seq_field o "job_titles"); [| discriminate].
  destruct (seq_field o "freelance_ideas"); [| discriminate].
  destruct (seq_field o "keywords"); [| discriminate].
  destruct (text_field o "rewritten_resume"); [| discriminate].
  destruct (text_field o "bullet_resume"); [| discriminate].
  destruct (text_field o "email_summary"); [| discriminate].
  simpl in H. inversion H; subst; simpl. repeat split.
Qed.

(** The body of [if result:] on a dict that decodes: it draws the report
    of the decoded record and saves the rewritten resume when asked. *)
Lemma runs_show_analysis o r name clicked :
  decode_analysis o = Some r ->
  runs (show_analysis name clicked (PDict o)) tt
       (fun w => set_session (session_after r name clicked (session w))
                             (add_shown (report r name clicked) w)).
Proof.
  intros H.
  destruct (decode_analysis_fields _ _ H)
    as (Ha & Hst & Hwe & Hrb & Hjt & Hfi & Hkw & Hrr & Hbr & Hes).
  intros w. unfold show_analysis, mbind, script_bind, bind.
  rewrite runs_draw, (runs_py_get_text _ _ _ Ha), runs_draw.
  rewrite (runs_bullet_section _ _ _ _ Hst), (runs_bullet_section _ _ _ _ Hwe),
    (runs_bullet_section _ _ _ _ Hrb), (runs_joined_section _ _ _ _ Hjt),
    (runs_bullet_section _ _ _ _ Hfi), (runs_joined_section _ _ _ _ Hkw).
  rewrite runs_draw, (runs_py_get_text _ _ _ Hes), runs_draw.
  rewrite (runs_py_get_text _ _ _ Hbr).
  unfold id. rewrite !add_shown_add_shown.
  unfold report, session_after, save_version_widget, when, mbind, script_bind, bind.
  cbn [py_get]. unfold ret. rewrite (text_field_get _ _ _ Hrr).
  destruct w as [s sh cs].
  unfold draw, add_shown, set_session, get_session, put_session.
  cbn [session shown calls Py.truthy].
  destruct (Text.nonempty (bullet_resume r));
    cbn [session shown calls Py.truthy];
    destruct (Text.nonempty (rewritten_resume r)); destruct clicked;
    cbn [andb session shown calls]; rewrite <- ?app_assoc; reflexivity.
Qed.

End ContractFacts.

(** C2, as the code has it.  When the text that comes back parses to an
    object whose expected keys, where present, hold values of the field's
    type (a text, or a list of texts), all of them texts that UTF-8 can
    carry, the handler raises nothing and reports no error.  If the
    object has at least one key, it draws the report of the decoded
    record, other keys not looked at: the fields present as supplied; for
    an absent key the assessment or the email summary empty, the heading
    of a sequence with nothing under it, and no section at all for either
    of the two resumes, which are left out whenever their text is empty;
    and it saves the rewritten resume if it is there and the save button
    was pressed.  If the object is empty, it draws nothing at all. *)
Theorem analyze_object_reported
    (client : request -> api_result)
    (text job_description user_question version_name : string) (save_clicked : bool)
    (w : world) (raw : string) (o : list (string * pyval))
    (r : Contract.AnalysisResult) :
  client (App.analyze_request (Prompt.make_prompt text (Some job_description)
                                 (Some user_question) "analyze")) = ApiOk raw ->
  Json.loads raw = Json.Loaded (PDict o) ->
  Contract.decode_analysis o = Some r ->
  Contract.encodable_result r = true ->
  App.analyze_handler client text job_description user_question version_name
    save_clicked w
  = (Return tt,
     match o with
     | [] =>
         {| session := session w;
            shown := shown w;
            calls := calls w ++ [App.analyze_request
                                   (Prompt.make_prompt text (Some job_description)
                                      (Some user_question) "analyze")] |}
     | _ :: _ =>
         {| session := Contract.session_after r version_name save_clicked (session w);
            shown := shown w ++ Contract.report r version_name save_clicked;
            calls := calls w ++ [App.analyze_request
                                   (Prompt.make_prompt text (Some job_description)
                                      (Some user_question) "analyze")] |}
     end).
Proof.
  intros Hc Hl Hd _.
  unfold App.analyze_handler, App.analyze_call, mbind, script_bind, Script.bind, App.create.
  rewrite Hc, Hl. unfold Script.ret, Script.when. cbn [Py.truthy].
  destruct o as [|kv o]; [reflexivity |].
  rewrite (runs_show_analysis _ _ version_name save_clicked Hd).
  reflexivity.
Qed.

(** A partially populated object with one unexpected key, run through the
    theorem above with the save button pressed. *)
Lemma analyze_object_reported_witness :
  App.analyze_handler (Sample.answers Sample.partial_object) "resume" "" "" "Version 1"
    true Sample.fresh
  = (Return tt,
     {| session :=
          Contract.session_after Sample.partial_result "Version 1" true
            (session Sample.fresh);
        shown := shown Sample.fresh ++ Contract.report Sample.partial_result "Version 1" true;
        calls := calls Sample.fresh ++ [App.analyze_request Sample.analyze_prompt] |}).
Proof.
  apply (analyze_object_reported (Sample.answers Sample.partial_object)
           "resume" "" "" "Version 1" true Sample.fresh Sample.partial_object
           Sample.partial_items Sample.partial_result).
  - reflexivity.
  - vm_compute. reflexivity.
  - vm_compute. reflexivity.
  - reflexivity.
Defined.

(** C2, as stated, fails.  The empty object and the object [{"x": 1}]
    both parse, and both stand for the record with every field at its
    default; the second is drawn as the report of that record, the first
    is not drawn at all.  And an object with a number where a sequence is
    expected parses too, but the handler lets a [TypeError] escape.  So
    does, in Streamlit, an object with a lone surrogate in a text: it
    parses and decodes, to a text that cannot be encoded. *)
Lemma analyze_object_not_always_reported :
  Json.loads "{}" = Json.Loaded (PDict [])
  /\ Contract.decode_analysis [] = Some Contract.empty_result
  /\ Json.loads Sample.only_extra_key = Json.Loaded (PDict [("x", PInt 1)])
  /\ Contract.decode_analysis [("x", PInt 1)] = Some Contract.empty_result
  /\ App.analyze_handler (Sample.answers Sample.only_extra_key) "resume" "" ""
       "Version 1" false Sample.fresh
     = (Return tt,
        {| session := session Sample.fresh;
           shown := Contract.report Contract.empty_result "Version 1" false;
           calls := [App.analyze_request Sample.analyze_prompt] |})
  /\ App.analyze_handler (Sample.answers "{}") "resume" "" "" "Version 1" false
       Sample.fresh
     = (Return tt,
        {| session := session Sample.fresh;
           shown := [];
           calls := [App.analyze_request Sample.analyze_prompt] |})
  /\ Contract.report Contract.empty_result "Version 1" false <> []
  /\ Json.loads Sample.number_for_sequence
     = Json.Loaded (PDict [("strengths", PInt 5)])
  /\ App.analyze_handler (Sample.answers Sample.number_for_sequence) "resume" "" ""
       "Version 1" false Sample.fresh
     = (Raise (TypeError "'int' object is not iterable"),
        {| session := session Sample.fresh;
           shown := [st_subheader "Assessment"; st_write (PStr "");
                     st_subheader "Strengths"];
           calls := [App.analyze_request Sample.analyze_prompt] |})
  /\ Json.loads Sample.lone_surrogate
     = Json.Loaded (PDict [("assessment", PStr (Json.chr 55296))])
  /\ (exists r, Contract.decode_analysis [("assessment", PStr (Json.chr 55296))] = Some r
                /\ Contract.encodable_result r = false).
Proof.
  repeat apply conj; try (vm_compute; reflexivity).
  - intros H. vm_compute in H. discriminate H.
  - eexists. split; vm_compute; reflexivity.
Qed.

(** A result that is true and is not a dict makes [result.get] raise
    outside the [try]: the exception leaves the handler. *)
Lemma show_analysis_not_a_dict name clicked result w :
  (forall d, result <> PDict d) ->
  App.show_analysis name clicked result w
  = (Raise (AttributeError ("'" +:+ Py.type_name result
                            +:+ "' object has no attribute 'get'")),
     add_shown [st_subheader "Assessment"] w).
Proof.
  intros H. unfold App.show_analysis, mbind, script_bind, Script.bind.
  rewrite runs_draw.
  destruct result; try reflexivity. now destruct (H items).
Qed.

(** C3 fails on the code.  The text [[1]] is valid JSON and not an
    object: [json.loads] returns a list, the list is true, and
    [result.get] raises an [AttributeError] after the [try] block has
    ended.  The exception leaves the handler; no message is drawn for
    it. *)
Theorem analyze_non_object_json_escapes :
  Json.loads "[1]" = Json.Loaded (PList [PInt 1])
  /\ App.analyze_handler (Sample.answers "[1]") "resume" "" "" "Version 1" false
       Sample.fresh
     = (Raise (AttributeError "'list' object has no attribute 'get'"),
        {| session := session Sample.fresh;
           shown := [st_subheader "Assessment"];
           calls := [App.analyze_request Sample.analyze_prompt] |}).
Proof. split; vm_compute; reflexivity. Qed.

(* ===================================================================== *)
(** * The free-text handlers and the chat                                 *)
(* ===================================================================== *)

Section ChatFacts.
Import Script App.
Local Arguments draw _ _ /.
Variable client : request -> api_result.

(** The free-text handlers never raise: they draw the text or the error. *)
Lemma text_handler_run mode title label text job_description w :
  text_handler client mode title label text job_description w
  = (Return tt,
     {| session := session w;
        shown := shown w ++
          match client (text_request (Prompt.make_prompt text (Some job_description)
                                        None mode)) with
          | ApiOk content => [st_subheader title; st_text_area label (PStr content)]
          | ApiError e => [st_error ("OpenAI API call failed: " +:+ e)]
          end;
        calls := calls w ++ [text_request (Prompt.make_prompt text (Some job_description)
                                             None mode)] |}).
Proof.
  unfold text_handler, mbind, script_bind, bind, create.
  destruct (client _); unfold draw; simpl; rewrite <- ?app_assoc; reflexivity.
Qed.

(** The turns a chat submission adds. *)
Definition new_turns (demo job_description : string) (user_input : option string)
    : list ChatTurn :=
  match user_input with
  | Some msg =>
      if Text.nonempty msg then
        [ {| role := "user"; content := msg |};
          {| role := "assistant";
             content := chat_reply
                          (client (text_request
                                     (Prompt.make_prompt demo (Some job_description)
                                        (Some msg) "analyze"))) |} ]
      else []
  | None => []
  end.

(** The whole chat block: it never raises; it appends the new turns to the
    history, draws them as they come and then draws the whole history. *)
Lemma chat_handler_run demo job_description user_input w :
  chat_handler client demo job_description user_input w
  = (Return tt,
     {| session :=
          {| versions := versions (session w);
             chat_history :=
               Some (default [] (chat_history (session w))
                     ++ new_turns demo job_description user_input) |};
        shown := shown w
          ++ [st_subheader "Ask Me Anything About Your Resume 🗨️"]
          ++ map (fun msg => st_chat_message (role msg) (content msg))
                 (new_turns demo job_description user_input)
          ++ map (fun msg => st_chat_message (role msg) (content msg))
                 (default [] (chat_history (session w))
                  ++ new_turns demo job_description user_input);
        calls := calls w
          ++ match user_input with
             | Some msg =>
                 if Text.nonempty msg
                 then [text_request (Prompt.make_prompt demo (Some job_description)
                                       (Some msg) "analyze")]
                 else []
             | None => []
             end |}).
Proof.
  destruct w as [[vs hist] sh cs].
  unfold chat_handler, new_turns, append_turn, when.
  destruct hist as [turns |];
    (destruct user_input as [msg |]; [destruct (Text.nonempty msg) |]);
    repeat (unfold mbind, script_bind, bind, get_session, put_session, create, ret;
            cbn -[String.append Prompt.make_prompt for_each chat_reply]);
    rewrite runs_for_each_draw; unfold add_shown;
    cbn -[String.append Prompt.make_prompt chat_reply];
    rewrite ?app_nil_r, <- ?app_assoc; reflexivity.
Qed.

End ChatFacts.



(** C4, as the code has it.  The Analyze handler sends exactly one
    request, with temperature 0.2; the cover letter, LinkedIn and
    interview handlers send exactly one request each, with no
    temperature; and so does a chat submission, although its prompt is
    built in analyze mode.  All of them name the same model, carry the
    prompt as a single user message and cap the answer at 512 tokens. *)
Theorem request_temperatures (client : request -> api_result) (w : world) :
  (forall text job_description user_question version_name save_clicked,
      calls (snd (App.analyze_handler client text job_description user_question
                    version_name save_clicked w))
      = calls w ++
        [ {| model := "gpt-3.5-turbo";
             messages := [("user", Prompt.make_prompt text (Some job_description)
                                     (Some user_question) "analyze")];
             temperature := Some (2 # 10)%Q;
             max_tokens := 512 |} ])
  /\ (forall text job_description,
      calls (snd (App.cover_letter_handler client text job_description w))
      = calls w ++
        [ {| model := "gpt-3.5-turbo";
             messages := [("user", Prompt.make_prompt text (Some job_description) None
                                     "cover_letter")];
             temperature := None;
             max_tokens := 512 |} ]
      /\ calls (snd (App.linkedin_handler client text job_description w))
         = calls w ++
           [ {| model := "gpt-3.5-turbo";
                messages := [("user", Prompt.make_prompt text (Some job_description) None
                                        "linkedin")];
                temperature := None;
                max_tokens := 512 |} ]
      /\ calls (snd (App.interview_handler client text job_description w))
         = calls w ++
           [ {| model := "gpt-3.5-turbo";
                messages := [("user", Prompt.make_prompt text (Some job_description) None
                                        "interview")];
                temperature := None;
                max_tokens := 512 |} ])
  /\ (forall demo job_description c msg,
      calls (snd (App.chat_handler client demo job_description (Some (String c msg)) w))
      = calls w ++
        [ {| model := "gpt-3.5-turbo";
             messages := [("user", Prompt.make_prompt demo (Some job_description)
                                     (Some (String c msg)) "analyze")];
             temperature := None;
             max_tokens := 512 |} ])
  /\ (forall demo job_description,
      calls (snd (App.chat_handler client demo job_description None w)) = calls w
      /\ calls (snd (App.chat_handler client demo job_description (Some "") w)) = calls w).
Proof.
  repeat apply conj; intros.
  - apply analyze_handler_calls.
  - unfold App.cover_letter_handler, App.linkedin_handler, App.interview_handler.
    rewrite !text_handler_run. repeat split.
  - now rewrite chat_handler_run.
  - rewrite !chat_handler_run. simpl. rewrite app_nil_r. split; reflexivity.
Qed.

(** C4, as stated, fails on the chat path.  A chat submission builds its
    prompt in analyze mode, with the instructions to answer in JSON, and
    sends it without a temperature. *)
Lemma chat_request_has_no_temperature :
  calls (snd (App.chat_handler (Sample.answers "Lead with your SQL work.") "resume" ""
                (Some "What should I lead with?") Sample.fresh))
  = [ {| model := "gpt-3.5-turbo";
         messages := [("user", Prompt.make_prompt "resume" (Some "")
                                 (Some "What should I lead with?") "analyze")];
         temperature := None;
         max_tokens := 512 |} ]
  /\ Text.startswith
       (Prompt.preamble "analyze" +:+ Prompt.analyze_instructions)
       (Prompt.make_prompt "resume" (Some "") (Some "What should I lead with?") "analyze")
     = true
  /\ map temperature
       (calls (snd (App.chat_handler (Sample.answers "Lead with your SQL work.")
                      "resume" "" (Some "What should I lead with?") Sample.fresh)))
     <> [Some (2 # 10)%Q].
Proof.
  repeat apply conj; try (vm_compute; reflexivity).
  intros H. vm_compute in H. discriminate H.
Qed.

(* ===================================================================== *)
(** * More on the prompt builder and the scorer                           *)
(* ===================================================================== *)

(** X1. A mode outside the four the builder knows is accepted as it is.
    The prompt is then the sentence "You are an expert career assistant.
    Mode: " with the mode and a full stop, the line "Please keep your
    response as concise as possible.", and right after it, with no
    instruction block and no line break in between, the job description
    block and the question block when these texts are given and not
    empty, and the resume block.  The comparison of modes is exact, so
    "Analyze" with a capital is such a mode. *)
Theorem make_prompt_unknown_mode
    (resume_text : string) (job_description user_question : option string)
    (mode : string) :
  mode <> "analyze" -> mode <> "cover_letter" ->
  mode <> "linkedin" -> mode <> "interview" ->
  Prompt.make_prompt resume_text job_description user_question mode
  = "You are an expert career assistant. Mode: " +:+ mode +:+ "." +:+ Text.nl
    +:+ "Please keep your response as concise as possible."
    +:+ match job_description with
        | Some (String c jd) =>
            "Job Description:" +:+ Text.nl +:+ String c jd +:+ Text.nl
        | _ => ""
        end
    +:+ match user_question with
        | Some (String c q) =>
            "User Question:" +:+ Text.nl +:+ String c q +:+ Text.nl
        | _ => ""
        end
    +:+ "Resume Text:" +:+ Text.nl +:+ resume_text.
Proof.
  intros H1 H2 H3 H4.
  assert (Prompt.mode_instructions mode = "") as Hm.
  { unfold Prompt.mode_instructions.
    apply String.eqb_neq in H1, H2, H3, H4. now rewrite H1, H2, H3, H4. }
  rewrite make_prompt_unfold, Hm. unfold Prompt.preamble.
  rewrite !append_assoc. do 5 f_equal.
  destruct job_description as [[|c jd] |], user_question as [[|d q] |]; reflexivity.
Qed.

(** The capitalised mode name, with a job description and no question. *)
Lemma make_prompt_unknown_mode_witness :
  Prompt.make_prompt "resume" (Some "Data analyst") None "Analyze"
  = "You are an expert career assistant. Mode: Analyze." +:+ Text.nl
    +:+ "Please keep your response as concise as possible."
    +:+ "Job Description:" +:+ Text.nl +:+ "Data analyst" +:+ Text.nl
    +:+ "Resume Text:" +:+ Text.nl +:+ "resume".
Proof.
  apply (make_prompt_unknown_mode "resume" (Some "Data analyst") None "Analyze");
    discriminate.
Defined.

(** X2. The builder does not escape what it embeds: a job description
    that ends with a line "User Question:" and more text gives, without a
    question, the very prompt that the shorter job description and that
    text as the question give.  The prompt does not determine its
    inputs. *)
Theorem make_prompt_blocks_not_escaped
    (resume_text : string) (c : ascii) (jd : string) (d : ascii) (q : string)
    (mode : string) :
  Prompt.make_prompt resume_text
    (Some (String c jd +:+ Text.nl +:+ "User Question:" +:+ Text.nl +:+ String d q))
    None mode
  = Prompt.make_prompt resume_text (Some (String c jd)) (Some (String d q)) mode
  /\ Prompt.make_prompt resume_text
       (Some (String c jd +:+ Text.nl +:+ "User Question:" +:+ Text.nl +:+ String d q))
       (Some "") mode
     = Prompt.make_prompt resume_text (Some (String c jd)) (Some (String d q)) mode.
Proof.
  assert (forall uq, Prompt.question_block uq = "" ->
            Prompt.make_prompt resume_text
              (Some (String c jd +:+ Text.nl +:+ "User Question:" +:+ Text.nl +:+ String d q))
              uq mode
            = Prompt.make_prompt resume_text (Some (String c jd)) (Some (String d q)) mode)
    as H.
  { intros uq Huq. rewrite !make_prompt_unfold, Huq.
    unfold Prompt.job_block, Prompt.question_block.
    change (Text.nonempty (String d q)) with true.
    change (Text.nonempty (String c jd)) with true.
    replace (Text.nonempty (String c jd +:+ Text.nl +:+ "User Question:" +:+ Text.nl
                            +:+ String d q)) with true by reflexivity.
    cbv iota. rewrite !append_assoc. reflexivity. }
  split; apply H; reflexivity.
Qed.

Section ScoreMore.
Import Text Score.

Lemma contains_embedded word a t b :
  plain word = true ->
  contains word (lower t) = true -> contains word (lower (a +:+ t +:+ b)) = true.
Proof.
  intros Hp H. apply (contains_lower_iff _ _ Hp).
  apply (contains_lower_iff _ _ Hp) in H.
  now apply occurs_after, occurs_before.
Qed.

Lemma keyword_score_embedded word a t b :
  plain word = true ->
  (if contains word (lower t) then 10 else 0)
  <= (if contains word (lower (a +:+ t +:+ b)) then 10 else 0).
Proof.
  intros Hp. destruct (contains word (lower t)) eqn:E.
  - now rewrite (contains_embedded _ a _ b Hp E).
  - destruct (contains word (lower (a +:+ t +:+ b))); lia.
Qed.

Lemma contact_score_embedded a t b :
  contact_score t <= contact_score (a +:+ t +:+ b).
Proof.
  unfold contact_score.
  destruct (existsb (fun word => contains word (lower t)) contact_words) eqn:E.
  - apply existsb_exists in E as [word [Hin Hc]].
    assert (existsb (fun word => contains word (lower (a +:+ t +:+ b))) contact_words = true)
      as E'.
    { apply existsb_exists. exists word. split; [exact Hin |].
      apply contains_embedded; [now apply contact_words_plain | exact Hc]. }
    rewrite E'. lia.
  - destruct (existsb (fun word => contains word (lower (a +:+ t +:+ b))) contact_words);
      lia.
Qed.

End ScoreMore.

(** X3. Text around a resume never lowers its score: whatever is put
    before and after a text, each of Contact, Skills and Experience, and
    with them the Total, is at least what the text alone scores. *)
Theorem resume_score_monotone (before text after : string) :
  Score.contact_score text <= Score.contact_score (before +:+ text +:+ after)
  /\ Score.skills_score text <= Score.skills_score (before +:+ text +:+ after)
  /\ Score.experience_score text <= Score.experience_score (before +:+ text +:+ after)
  /\ (exists total total',
         Score.item "Total" (Score.resume_score text) = Some total
         /\ Score.item "Total" (Score.resume_score (before +:+ text +:+ after)) = Some total'
         /\ total <= total').
Proof.
  pose proof (contact_score_embedded before text after) as Hc.
  pose proof (keyword_score_embedded "skills" before text after eq_refl) as Hs.
  pose proof (keyword_score_embedded "experience" before text after eq_refl) as He.
  repeat apply conj; try assumption.
  rewrite !resume_score_items. simpl. eexists; eexists.
  repeat apply conj; try reflexivity.
  unfold Score.skills_score, Score.experience_score. lia.
Qed.

(* ===================================================================== *)
(** * Text extraction                                                     *)
(* ===================================================================== *)

Section ExtractFacts.
Import Text Script App Page.
Local Arguments String.append !_ _ / : simpl nomatch.

Lemma endswith_spec suffix s :
  endswith suffix s = true <-> exists a, s = a +:+ suffix.
Proof.
  induction s as [|c s IH].
  - cbn [endswith]. rewrite orb_false_r, String.eqb_eq. split.
    + intros <-. now exists "".
    + intros [a H]. destruct a; [exact H | discriminate].
  - cbn [endswith]. rewrite orb_true_iff, String.eqb_eq, IH. split.
    + intros [H | [a H]].
      * exists "". exact H.
      * exists (String c a). simpl. now rewrite H.
    + intros [a H]. destruct a as [|x a].
      * left. exact H.
      * right. simpl in H. injection H as _ H. now exists a.
Qed.

Lemma append_last a b c d : a +:+ String c "" = b +:+ String d "" -> c = d.
Proof.
  revert b; induction a as [|x a IH]; intros [|y b] H; simpl in H.
  - now inversion H.
  - inversion H as [[Hx Hb]]. destruct b; discriminate.
  - inversion H as [[Hx Ha]]. destruct a; discriminate.
  - inversion H. eauto.
Qed.

Lemma endswith_app suffix a : endswith suffix (a +:+ suffix) = true.
Proof. apply endswith_spec. now exists a. Qed.

(** A name that ends in ".docx" does not end in ".pdf". *)
Lemma docx_is_not_pdf a : endswith ".pdf" (a +:+ ".docx") = false.
Proof.
  destruct (endswith ".pdf" (a +:+ ".docx")) eqn:E; [| reflexivity].
  apply endswith_spec in E as [b H].
  change ".docx" with (".doc" +:+ String "x" "") in H.
  change ".pdf" with (".pd" +:+ String "f" "") in H.
  rewrite <- !append_assoc in H. apply append_last in H. discriminate H.
Qed.

(** An extension that lowers to a text beginning with "." is lowered
    apart from the stem. *)
Lemma lower_extension stem ext rest :
  lower ext = String "." rest -> lower (stem +:+ ext) = lower stem +:+ lower ext.
Proof.
  intros H. apply lower_app.
  destruct (first_character ext) as [-> | [[r ->] | [[r ->] | [a [r [-> [H1 H2]]]]]]];
    try reflexivity.
  rewrite (lower_other a r H1 H2) in H. injection H as Ha _.
  unfold starts_with_continuation, is_continuation.
  unfold lower_char in Ha.
  destruct ((65 <=? nat_of_ascii a) && (nat_of_ascii a <=? 90))%nat eqn:E.
  - apply andb_true_iff in E as [_ E]. apply Nat.leb_le in E.
    apply andb_false_iff. left. apply Nat.leb_gt. lia.
  - now subst a.
Qed.

End ExtractFacts.

(** X4. Reading an upload never raises and never touches the session or
    the endpoint: it returns a text and draws either nothing or exactly
    one message, "Error reading file: " followed by the reader's
    exception, in which case the text is empty. *)
Theorem extract_text_never_raises (file : Page.uploaded_file) (w : world) :
  exists text errors,
    Page.extract_text file w
    = (Return text,
       {| session := session w; shown := shown w ++ errors; calls := calls w |})
    /\ (errors = []
        \/ exists e, errors = [st_error ("Error reading file: " +:+ e)] /\ text = "").
Proof.
  unfold Page.extract_text.
  destruct (Page.endswith ".pdf" _).
  - destruct (Page.pdf_pages file) as [e | pages].
    + exists "", [st_error ("Error reading file: " +:+ e)]. split; [reflexivity |].
      right. now exists e.
    + eexists; exists []. split; [| now left].
      destruct w; simpl. now rewrite app_nil_r.
  - destruct (Page.endswith ".docx" _).
    + destruct (Page.docx_paragraphs file) as [e | paragraphs].
      * exists "", [st_error ("Error reading file: " +:+ e)]. split; [reflexivity |].
        right. now exists e.
      * eexists; exists []. split; [| now left].
        destruct w; simpl. now rewrite app_nil_r.
    + exists "", []. split; [| now left].
      destruct w; simpl. now rewrite app_nil_r.
Qed.

(** X5. A file whose name ends in ".pdf", in any mix of upper and lower
    case, is read as a PDF whatever the other reader would make of it: the
    texts of the pages are joined by newlines, a page without text
    counting as empty; and when the PDF reader raises, the result is the
    empty text and one error message. *)
Theorem extract_text_pdf
    (stem ext : string) (docx : string + list string) (w : world) :
  Text.lower ext = ".pdf" ->
  (forall pages,
      Page.extract_text {| Page.name := stem +:+ ext;
                           Page.pdf_pages := inr pages;
                           Page.docx_paragraphs := docx |} w
      = (Return (Text.join Text.nl (map (default "") pages)), w))
  /\ (forall e,
      Page.extract_text {| Page.name := stem +:+ ext;
                           Page.pdf_pages := inl e;
                           Page.docx_paragraphs := docx |} w
      = (Return "",
         {| session := session w;
            shown := shown w ++ [st_error ("Error reading file: " +:+ e)];
            calls := calls w |})).
Proof.
  intros Hext. split; intros; unfold Page.extract_text; cbn [Page.name];
    rewrite (lower_extension _ _ _ Hext), Hext, endswith_app; reflexivity.
Qed.

(** A scanned CV with an upper-case extension and one page without
    text. *)
Lemma extract_text_pdf_witness :
  (forall pages,
      Page.extract_text {| Page.name := "Jane Roe CV" +:+ ".PDF";
                           Page.pdf_pages := inr pages;
                           Page.docx_paragraphs := inl "not a Word file" |} Sample.fresh
      = (Return (Text.join Text.nl (map (default "") pages)), Sample.fresh))
  /\ (forall e,
      Page.extract_text {| Page.name := "Jane Roe CV" +:+ ".PDF";
                           Page.pdf_pages := inl e;
                           Page.docx_paragraphs := inl "not a Word file" |} Sample.fresh
      = (Return "",
         {| session := session Sample.fresh;
            shown := shown Sample.fresh ++ [st_error ("Error reading file: " +:+ e)];
            calls := calls Sample.fresh |})).
Proof.
  apply (extract_text_pdf "Jane Roe CV" ".PDF" (inl "not a Word file") Sample.fresh).
  reflexivity.
Defined.

(** X6. A file whose name ends in ".docx", in any mix of case, is read as
    a Word document, the PDF reader not being consulted: the paragraphs
    are joined by newlines; and when the reader raises, the result is the
    empty text and one error message. *)
Theorem extract_text_docx
    (stem ext : string) (pdf : string + list (option string)) (w : world) :
  Text.lower ext = ".docx" ->
  (forall paragraphs,
      Page.extract_text {| Page.name := stem +:+ ext;
                           Page.pdf_pages := pdf;
                           Page.docx_paragraphs := inr paragraphs |} w
      = (Return (Text.join Text.nl paragraphs), w))
  /\ (forall e,
      Page.extract_text {| Page.name := stem +:+ ext;
                           Page.pdf_pages := pdf;
                           Page.docx_paragraphs := inl e |} w
      = (Return "",
         {| session := session w;
            shown := shown w ++ [st_error ("Error reading file: " +:+ e)];
            calls := calls w |})).
Proof.
  intros Hext. split; intros; unfold Page.extract_text; cbn [Page.name];
    rewrite (lower_extension _ _ _ Hext), Hext, docx_is_not_pdf, endswith_app; reflexivity.
Qed.

Lemma extract_text_docx_witness :
  (forall paragraphs,
      Page.extract_text {| Page.name := "resume" +:+ ".Docx";
                           Page.pdf_pages := inl "EOF marker not found";
                           Page.docx_paragraphs := inr paragraphs |} Sample.fresh
      = (Return (Text.join Text.nl paragraphs), Sample.fresh))
  /\ (forall e,
      Page.extract_text {| Page.name := "resume" +:+ ".Docx";
                           Page.pdf_pages := inl "EOF marker not found";
                           Page.docx_paragraphs := inl e |} Sample.fresh
      = (Return "",
         {| session := session Sample.fresh;
            shown := shown Sample.fresh ++ [st_error ("Error reading file: " +:+ e)];
            calls := calls Sample.fresh |})).
Proof.
  apply (extract_text_docx "resume" ".Docx" (inl "EOF marker not found") Sample.fresh).
  reflexivity.
Defined.

(* ===================================================================== *)
(** * Saving and viewing versions                                         *)
(* ===================================================================== *)

Section ViewerFacts.
Import Script App Page.
Local Arguments draw _ _ /.

Lemma save_version_widget_run name clicked text w :
  save_version_widget name clicked text w
  = (Return tt,
     {| session := if clicked then save_version name text (session w) else session w;
        shown := shown w
          ++ [st_text_input "Label this resume version" name;
              st_button "Save Resume Version"]
          ++ (if clicked then [st_success ("Saved as '" +:+ name +:+ "'")] else []);
        calls := calls w |}).
Proof.
  destruct w as [s sh cs]. unfold save_version_widget, when.
  destruct clicked;
    repeat (unfold mbind, script_bind, bind, get_session, put_session, ret;
            cbn -[String.append save_version]);
    rewrite <- ?app_assoc; reflexivity.
Qed.

Lemma version_viewer_found selected text w :
  versions (session w) !! selected = Some text ->
  version_viewer selected w
  = (Return tt,
     add_shown [st_subheader "Saved Resume Versions"; st_text_area "Saved Version" text] w).
Proof.
  intros H. destruct w as [s sh cs]. simpl in H.
  unfold version_viewer, mbind, script_bind, bind, get_session, when.
  cbn [session shown calls].
  rewrite bool_decide_eq_false_2.
  - unfold add_shown. cbn -[String.append]. rewrite H. cbn -[String.append].
    rewrite <- app_assoc. reflexivity.
  - intros E. rewrite E in H. now rewrite lookup_empty in H.
Qed.

End ViewerFacts.

(** X7. Pressing "Save Resume Version" stores the text under the label
    and touches nothing else: afterwards the label looks up the text, the
    map without that label is what it was, its labels are the old ones
    plus this one, and the chat history is unchanged.  Not pressing it
    leaves the whole session as it was.  Neither case raises. *)
Theorem save_widget_effect (label : string) (text : pyval) (w : world) :
  fst (App.save_version_widget label true text w) = Return tt
  /\ versions (session (snd (App.save_version_widget label true text w))) !! label
     = Some text
  /\ delete label (versions (session (snd (App.save_version_widget label true text w))))
     = delete label (versions (session w))
  /\ dom (versions (session (snd (App.save_version_widget label true text w))))
     = {[label]} ∪ dom (versions (session w))
  /\ chat_history (session (snd (App.save_version_widget label true text w)))
     = chat_history (session w)
  /\ fst (App.save_version_widget label false text w) = Return tt
  /\ session (snd (App.save_version_widget label false text w)) = session w.
Proof.
  rewrite !save_version_widget_run. unfold App.save_version. simpl.
  repeat apply conj; try reflexivity.
  - apply lookup_insert_eq.
  - apply delete_insert_eq.
  - apply dom_insert_L.
Qed.

(** X8. What is saved is what the viewer shows: after "Save Resume
    Version" under a label, the viewer with that label selected draws the
    saved text, in the same run and whatever was stored before; and with
    no version saved the viewer draws nothing at all. *)
Theorem viewer_shows_saved_version (label selected : string) (text : pyval) (w : world)
    (history : option (list ChatTurn)) :
  (App.save_version_widget label true text ≫= fun _ => Page.version_viewer label) w
  = (Return tt,
     {| session := App.save_version label text (session w);
        shown := shown w
          ++ [st_text_input "Label this resume version" label;
              st_button "Save Resume Version";
              st_success ("Saved as '" +:+ label +:+ "'");
              st_subheader "Saved Resume Versions";
              st_text_area "Saved Version" text];
        calls := calls w |})
  /\ Page.version_viewer selected
       (set_session {| versions := ∅; chat_history := history |} w)
     = (Return tt, set_session {| versions := ∅; chat_history := history |} w).
Proof.
  split.
  - unfold mbind, script_bind, Script.bind. rewrite save_version_widget_run.
    rewrite (version_viewer_found label text).
    + unfold add_shown. simpl. rewrite <- !app_assoc. reflexivity.
    + unfold App.save_version. simpl. apply lookup_insert_eq.
  - destruct w as [s sh cs]. reflexivity.
Qed.

(* ===================================================================== *)
(** * The free-text generators                                            *)
(* ===================================================================== *)

(** X9. As long as what the endpoint answers can be drawn (its text, or
    the text of the exception the call raises, holds no surrogate), the
    cover letter, LinkedIn and interview handlers never raise and never
    touch the session.  Each sends one request; when the call returns
    the text of the first choice, that text is shown verbatim, empty or
    not, under the handler's heading; when the call raises, exactly one
    error message is shown and nothing else. *)
Theorem text_handlers_outcome
    (client : request -> api_result) (text job_description : string) (w : world) :
  Page.encodable_answer
    (client (App.text_request
               (Prompt.make_prompt text (Some job_description) None "cover_letter")))
  = true ->
  Page.encodable_answer
    (client (App.text_request
               (Prompt.make_prompt text (Some job_description) None "linkedin")))
  = true ->
  Page.encodable_answer
    (client (App.text_request
               (Prompt.make_prompt text (Some job_description) None "interview")))
  = true ->
  App.cover_letter_handler client text job_description w
  = (Return tt,
     {| session := session w;
        shown := shown w ++
          match client (App.text_request
                          (Prompt.make_prompt text (Some job_description) None
                             "cover_letter")) with
          | ApiOk content =>
              [st_subheader "Cover Letter"; st_text_area "Cover Letter" (PStr content)]
          | ApiError e => [st_error ("OpenAI API call failed: " +:+ e)]
          end;
        calls := calls w ++ [App.text_request
                               (Prompt.make_prompt text (Some job_description) None
                                  "cover_letter")] |})
  /\ App.linkedin_handler client text job_description w
     = (Return tt,
        {| session := session w;
           shown := shown w ++
             match client (App.text_request
                             (Prompt.make_prompt text (Some job_description) None
                                "linkedin")) with
             | ApiOk content =>
                 [st_subheader "LinkedIn Profile Suggestions";
                  st_text_area "LinkedIn Suggestions" (PStr content)]
             | ApiError e => [st_error ("OpenAI API call failed: " +:+ e)]
             end;
           calls := calls w ++ [App.text_request
                                  (Prompt.make_prompt text (Some job_description) None
                                     "linkedin")] |})
  /\ App.interview_handler client text job_description w
     = (Return tt,
        {| session := session w;
           shown := shown w ++
             match client (App.text_request
                             (Prompt.make_prompt text (Some job_description) None
                                "interview")) with
             | ApiOk content =>
                 [st_subheader "Interview Questions & Answers";
                  st_text_area "Interview Prep" (PStr content)]
             | ApiError e => [st_error ("OpenAI API call failed: " +:+ e)]
             end;
           calls := calls w ++ [App.text_request
                                  (Prompt.make_prompt text (Some job_description) None
                                     "interview")] |}).
Proof.
  intros _ _ _.
  unfold App.cover_letter_handler, App.linkedin_handler, App.interview_handler.
  repeat apply conj; apply text_handler_run.
Qed.

(** An endpoint that answers every request with the same letter. *)
Lemma text_handlers_outcome_witness :
  App.cover_letter_handler (Sample.answers "Dear Sir or Madam,") "resume" "Data analyst"
    Sample.fresh
  = (Return tt,
     {| session := session Sample.fresh;
        shown := [st_subheader "Cover Letter";
                  st_text_area "Cover Letter" (PStr "Dear Sir or Madam,")];
        calls := [App.text_request
                    (Prompt.make_prompt "resume" (Some "Data analyst") None
                       "cover_letter")] |}).
Proof.
  apply (text_handlers_outcome (Sample.answers "Dear Sir or Madam,") "resume"
           "Data analyst" Sample.fresh); reflexivity.
Defined.

(* ===================================================================== *)
(** * More on the chat                                                    *)
(* ===================================================================== *)

Section ChatMore.
Import Script App Page.

Lemma paired_app_both (l1 l2 : list ChatTurn) :
  (paired l1 = true -> paired (l1 ++ l2) = paired l2)
  /\ (forall x, paired (x :: l1) = true -> paired (x :: l1 ++ l2) = paired l2).
Proof.
  induction l1 as [|a l1 [IH1 IH2]].
  - split; [reflexivity | intros x H; discriminate H].
  - split.
    + intros H. apply (IH2 a H).
    + intros x H. cbn [paired] in H. cbn [app paired].
      apply andb_true_iff in H as [Hroles Hrest]. rewrite Hroles. simpl.
      now apply IH1.
Qed.

Lemma paired_app (l1 l2 : list ChatTurn) :
  paired l1 = true -> paired (l1 ++ l2) = paired l2.
Proof. apply paired_app_both. Qed.

Lemma paired_new_turns client demo job_description user_input :
  paired (new_turns client demo job_description user_input) = true.
Proof.
  unfold new_turns. destruct user_input as [msg |]; [| reflexivity].
  destruct (Text.nonempty msg); reflexivity.
Qed.

End ChatMore.

(** X10. A chat submission whose message and answer can be drawn (no
    surrogate in the message, nor in what the endpoint answers or in the
    text of the exception it raises) appends exactly two turns after the
    turns already there, answered or failed: the user's message, then an
    assistant turn.  When the call is answered the assistant turn holds
    the text as it came, empty or not.  The block does not raise, sends
    one request and leaves the saved versions alone. *)
Theorem chat_submission_appends_two_turns
    (client : request -> api_result) (demo job_description : string)
    (c : ascii) (msg : string) (w : world) :
  Page.encodable_submission client demo job_description (Some (String c msg)) = true ->
  fst (App.chat_handler client demo job_description (Some (String c msg)) w) = Return tt
  /\ chat_history (session (snd (App.chat_handler client demo job_description
                                   (Some (String c msg)) w)))
     = Some (default [] (chat_history (session w))
             ++ [ {| role := "user"; content := String c msg |};
                  {| role := "assistant";
                     content :=
                       match client (App.text_request
                                       (Prompt.make_prompt demo (Some job_description)
                                          (Some (String c msg)) "analyze")) with
                       | ApiOk content => content
                       | ApiError e => "Oops, something went wrong: " +:+ e
                       end |} ])
  /\ versions (session (snd (App.chat_handler client demo job_description
                               (Some (String c msg)) w)))
     = versions (session w)
  /\ calls (snd (App.chat_handler client demo job_description (Some (String c msg)) w))
     = calls w ++ [App.text_request (Prompt.make_prompt demo (Some job_description)
                                       (Some (String c msg)) "analyze")].
Proof.
  intros _. rewrite chat_handler_run. repeat apply conj; reflexivity.
Qed.

(** A question asked while the endpoint is down, on top of one earlier
    exchange. *)
Lemma chat_submission_appends_two_turns_witness :
  chat_history
    (session (snd (App.chat_handler (Sample.fails "Rate limit reached") "resume" ""
                     (Some "Any gaps?") Visit.after_one_exchange)))
  = Some [ {| role := "user"; content := "Hi" |};
           {| role := "assistant"; content := "Hello" |};
           {| role := "user"; content := "Any gaps?" |};
           {| role := "assistant";
              content := "Oops, something went wrong: Rate limit reached" |} ].
Proof.
  apply (chat_submission_appends_two_turns (Sample.fails "Rate limit reached") "resume" ""
           "A" "ny gaps?" Visit.after_one_exchange).
  reflexivity.
Defined.

(** X11. A chat log made of pairs, a user turn followed by an assistant
    turn, stays so as long as what is submitted and answered can be
    drawn: with or without a message, answered or failed, the log after
    the chat block is again made of such pairs, and so is the log after
    the chat is cleared. *)
Theorem chat_log_stays_paired
    (client : request -> api_result) (demo job_description : string)
    (user_input : option string) (w : world) :
  Page.paired (default [] (chat_history (session w))) = true ->
  Page.encodable_submission client demo job_description user_input = true ->
  Page.paired (default [] (chat_history
                             (session (snd (App.chat_handler client demo job_description
                                              user_input w))))) = true
  /\ Page.paired (default [] (chat_history (session (snd (App.clear_chat w))))) = true.
Proof.
  intros H _. split; [| reflexivity].
  rewrite chat_handler_run.
  remember (default [] (chat_history (session w))) as old eqn:Hold.
  cbn [snd session chat_history default id].
  rewrite (paired_app _ _ H). apply paired_new_turns.
Qed.

(** A failed submission on top of one earlier exchange. *)
Lemma chat_log_stays_paired_witness :
  Page.paired
    (default []
       (chat_history
          (session
             (snd (App.chat_handler (Sample.fails "Rate limit reached") "resume" ""
                     (Some "Any gaps?")
                     (set_session
                        {| versions := ∅;
                           chat_history :=
                             Some [ {| role := "user"; content := "Hi" |};
                                    {| role := "assistant"; content := "Hello" |} ] |}
                        Sample.fresh)))))) = true
  /\ Page.paired
       (default []
          (chat_history
             (session
                (snd (App.clear_chat
                        (set_session
                           {| versions := ∅;
                              chat_history :=
                                Some [ {| role := "user"; content := "Hi" |};
                                       {| role := "assistant"; content := "Hello" |} ] |}
                           Sample.fresh)))))) = true.
Proof.
  apply (chat_log_stays_paired (Sample.fails "Rate limit reached") "resume" ""
           (Some "Any gaps?")); reflexivity.
Defined.

(** X12. Without a message, be it no submission or an empty one, the
    chat block sends nothing and adds no turn: it creates the empty
    history if there was none, draws its heading and replays the turns
    already there, in order. *)
Theorem chat_without_input
    (client : request -> api_result) (demo job_description : string) (w : world) :
  App.chat_handler client demo job_description None w
  = (Return tt,
     {| session := {| versions := versions (session w);
                      chat_history := Some (default [] (chat_history (session w))) |};
        shown := shown w
          ++ [st_subheader "Ask Me Anything About Your Resume 🗨️"]
          ++ map (fun msg => st_chat_message (role msg) (content msg))
                 (default [] (chat_history (session w)));
        calls := calls w |})
  /\ App.chat_handler client demo job_description (Some "") w
     = App.chat_handler client demo job_description None w.
Proof.
  rewrite !chat_handler_run. unfold new_turns. simpl.
  rewrite !app_nil_r. split; reflexivity.
Qed.

(** X13. Clearing starts the log afresh: a submission made right after
    "Clear Chat", with a message and an answer that can be drawn, leaves
    exactly its own two turns, whatever the log held before; and clearing
    twice is clearing once. *)
Theorem clear_chat_then_submission
    (client : request -> api_result) (demo job_description : string)
    (c : ascii) (msg : string) (w : world) :
  Page.encodable_submission client demo job_description (Some (String c msg)) = true ->
  chat_history
    (session (snd ((App.clear_chat
                      ≫= fun _ => App.chat_handler client demo job_description
                                    (Some (String c msg))) w)))
  = Some [ {| role := "user"; content := String c msg |};
           {| role := "assistant";
              content := App.chat_reply
                           (client (App.text_request
                                      (Prompt.make_prompt demo (Some job_description)
                                         (Some (String c msg)) "analyze"))) |} ]
  /\ (App.clear_chat ≫= fun _ => App.clear_chat) w = App.clear_chat w.
Proof.
  intros _. split; [| reflexivity].
  unfold mbind at 1, script_bind at 1, Script.bind at 1.
  change (App.clear_chat w)
    with (Return tt, set_session {| versions := versions (session w);
                                    chat_history := Some [] |} w).
  cbv iota beta. rewrite chat_handler_run. reflexivity.
Qed.

(** A question asked after clearing a log of one exchange. *)
Lemma clear_chat_then_submission_witness :
  chat_history
    (session (snd ((App.clear_chat
                      ≫= fun _ => App.chat_handler (Sample.answers "Lead with SQL.")
                                    "resume" "" (Some "What first?"))
                     Visit.after_one_exchange)))
  = Some [ {| role := "user"; content := "What first?" |};
           {| role := "assistant"; content := "Lead with SQL." |} ].
Proof.
  apply (clear_chat_then_submission (Sample.answers "Lead with SQL.") "resume" ""
           "W" "hat first?" Visit.after_one_exchange).
  reflexivity.
Defined.

(* ===================================================================== *)
(** * More on the Analyze handler                                         *)
(* ===================================================================== *)

Section AnalyzeMore.
Import Script App Page.

Lemma fst_bind {A B} (m : script A) (k : A -> script B) w :
  fst ((m ≫= k) w)
  = match fst (m w) with
    | Return a => fst (k a (snd (m w)))
    | Raise e => Raise e
    end.
Proof.
  unfold mbind, script_bind, bind. destruct (m w) as [[a | e] w']; reflexivity.
Qed.

Lemma join_items_ok i items :
  forallb is_text items = true -> exists l, join_items i items = Return l.
Proof.
  revert i; induction items as [|v items IH]; intros i H; [now exists [] |].
  simpl in H. apply andb_true_iff in H as [Hv Hrest].
  destruct v; try discriminate. simpl.
  destruct (IH (S i) Hrest) as [l Hl]. rewrite Hl. now exists (s :: l).
Qed.

Lemma join_items_bad i items :
  forallb is_text items = false -> exists msg, join_items i items = Raise (TypeError msg).
Proof.
  revert i; induction items as [|v items IH]; intros i H; [discriminate |].
  simpl in H. destruct v; simpl in *; eauto.
  destruct (IH (S i) H) as [msg Hmsg]. rewrite Hmsg. eauto.
Qed.

Lemma join_error_is_type_error v :
  joinable v = false -> exists msg, join_error v = TypeError msg.
Proof.
  unfold joinable, join_error. destruct (Py.iter v) as [items |]; [| eauto].
  intros H. destruct (join_items_bad 0 items H) as [msg Hmsg]. rewrite Hmsg. eauto.
Qed.

Lemma fst_bullet_section title key o w :
  fst (bullet_section title key (PDict o) w)
  = if iterable (Py.dict_get o key (PList []))
    then Return tt
    else Raise (TypeError ("'" +:+ Py.type_name (Py.dict_get o key (PList []))
                           +:+ "' object is not iterable")).
Proof.
  unfold bullet_section. rewrite !fst_bind. cbn [draw fst snd py_get ret].
  unfold py_for, iterable.
  destruct (Py.iter (Py.dict_get o key (PList []))) as [items |]; [| reflexivity].
  now rewrite runs_for_each_draw.
Qed.

Lemma fst_joined_section title key o w :
  fst (joined_section title key (PDict o) w)
  = if joinable (Py.dict_get o key (PList []))
    then Return tt
    else Raise (join_error (Py.dict_get o key (PList []))).
Proof.
  unfold joined_section. rewrite !fst_bind. cbn [draw fst snd py_get ret].
  unfold py_join, joinable, join_error.
  destruct (Py.iter (Py.dict_get o key (PList []))) as [items |]; [| reflexivity].
  destruct (forallb is_text items) eqn:E.
  - destruct (join_items_ok 0 items E) as [l Hl]. rewrite Hl. reflexivity.
  - destruct (join_items_bad 0 items E) as [msg Hmsg]. rewrite Hmsg. reflexivity.
Qed.

(** [m] returns [a] in every world. *)
Definition yields {A} (m : script A) (a : A) : Prop :=
  forall w, fst (m w) = Return a.

Lemma yields_bind {A B} (m : script A) (k : A -> script B) a b :
  yields m a -> yields (k a) b -> yields (m ≫= k) b.
Proof. intros Hm Hk w. now rewrite fst_bind, Hm, Hk. Qed.

Lemma yields_draw ev : yields (draw ev) tt.
Proof. intros w. reflexivity. Qed.

Lemma yields_py_get o key default :
  yields (py_get (PDict o) key default) (Py.dict_get o key default).
Proof. intros w. reflexivity. Qed.

Lemma yields_when b m : yields m tt -> yields (when b m) tt.
Proof. intros H. destruct b; [exact H | intros w; reflexivity]. Qed.

Lemma yields_widget name clicked text : yields (save_version_widget name clicked text) tt.
Proof. intros w. now rewrite save_version_widget_run. Qed.

(** The end of the rendering, from "Email Summary" on, never raises. *)
Lemma fst_show_analysis_tail name clicked o w :
  fst ((draw (st_subheader "Email Summary");;
        email_summary ← py_get (PDict o) "email_summary" (PStr "");
        draw (st_text_area "Professional Summary" email_summary);;
        bullet_resume ← py_get (PDict o) "bullet_resume" (PStr "");
        when (Py.truthy bullet_resume)
          (draw (st_subheader "Professional Resume (Bullets)");;
           draw (st_text_area "Bullet Resume" bullet_resume));;
        rewritten_resume ← py_get (PDict o) "rewritten_resume" (PStr "");
        when (Py.truthy rewritten_resume)
          (draw (st_subheader "Rewritten Resume (Full)");;
           draw (st_text_area "Full Resume" rewritten_resume);;
           save_version_widget name clicked rewritten_resume)) w)
  = Return tt.
Proof.
  revert w. change (yields
    (draw (st_subheader "Email Summary");;
     email_summary ← py_get (PDict o) "email_summary" (PStr "");
     draw (st_text_area "Professional Summary" email_summary);;
     bullet_resume ← py_get (PDict o) "bullet_resume" (PStr "");
     when (Py.truthy bullet_resume)
       (draw (st_subheader "Professional Resume (Bullets)");;
        draw (st_text_area "Bullet Resume" bullet_resume));;
     rewritten_resume ← py_get (PDict o) "rewritten_resume" (PStr "");
     when (Py.truthy rewritten_resume)
       (draw (st_subheader "Rewritten Resume (Full)");;
        draw (st_text_area "Full Resume" rewritten_resume);;
        save_version_widget name clicked rewritten_resume)) tt).
  eapply yields_bind; [apply yields_draw |].
  eapply yields_bind; [apply yields_py_get |].
  eapply yields_bind; [apply yields_draw |].
  eapply yields_bind; [apply yields_py_get |].
  eapply yields_bind.
  { apply yields_when. eapply yields_bind; apply yields_draw. }
  eapply yields_bind; [apply yields_py_get |].
  apply yields_when.
  eapply yields_bind; [apply yields_draw |].
  eapply yields_bind; [apply yields_draw |].
  apply yields_widget.
Qed.

(** The rendering of a dict raises exactly when the dict is not
    renderable, and then with a [TypeError]. *)
Lemma fst_show_analysis name clicked o w :
  (renderable o = true /\ fst (show_analysis name clicked (PDict o) w) = Return tt)
  \/ (renderable o = false
      /\ exists msg, fst (show_analysis name clicked (PDict o) w) = Raise (TypeError msg)).
Proof.
  unfold show_analysis, renderable.
  rewrite fst_bind. cbn [draw fst snd].
  rewrite fst_bind. cbn [py_get ret fst snd].
  rewrite fst_bind. cbn [draw fst snd].
  rewrite fst_bind, fst_bullet_section.
  destruct (iterable (Py.dict_get o "strengths" (PList []))); [| right; eauto].
  rewrite fst_bind, fst_bullet_section.
  destruct (iterable (Py.dict_get o "weaknesses" (PList []))); [| right; eauto].
  rewrite fst_bind, fst_bullet_section.
  destruct (iterable (Py.dict_get o "rewritten_bullets" (PList []))); [| right; eauto].
  rewrite fst_bind, fst_joined_section.
  destruct (joinable (Py.dict_get o "job_titles" (PList []))) eqn:Ej;
    [| right; destruct (join_error_is_type_error _ Ej) as [msg ->]; eauto].
  rewrite fst_bind, fst_bullet_section.
  destruct (iterable (Py.dict_get o "freelance_ideas" (PList []))); [| right; eauto].
  rewrite fst_bind, fst_joined_section.
  destruct (joinable (Py.dict_get o "keywords" (PList []))) eqn:Ek;
    [| right; destruct (join_error_is_type_error _ Ek) as [msg ->]; eauto].
  left. split; [reflexivity |]. apply fst_show_analysis_tail.
Qed.

End AnalyzeMore.



(** X15. Valid JSON that Python counts as false is swallowed in silence:
    when the answer parses to [null], [false], a zero, an empty string,
    an empty array or an empty object, the handler draws nothing, neither
    an analysis nor an error, and leaves the session as it was. *)
Theorem analyze_falsy_json_silent
    (client : request -> api_result)
    (text job_description user_question version_name : string) (save_clicked : bool)
    (w : world) (raw : string) (v : pyval) :
  client (App.analyze_request (Prompt.make_prompt text (Some job_description)
                                 (Some user_question) "analyze")) = ApiOk raw ->
  Json.loads raw = Json.Loaded v ->
  Py.truthy v = false ->
  App.analyze_handler client text job_description user_question version_name
    save_clicked w
  = (Return tt,
     {| session := session w;
        shown := shown w;
        calls := calls w ++ [App.analyze_request
                               (Prompt.make_prompt text (Some job_description)
                                  (Some user_question) "analyze")] |}).
Proof.
  intros Hc Hl Hv.
  unfold App.analyze_handler, App.analyze_call, mbind, script_bind, Script.bind, App.create.
  rewrite Hc, Hl. unfold Script.ret. now rewrite Hv.
Qed.

(** The answer [null]. *)
Lemma analyze_falsy_json_silent_witness :
  App.analyze_handler (Sample.answers "null") "resume" "" "" "Version 1" false
    Sample.fresh
  = (Return tt,
     {| session := session Sample.fresh;
        shown := shown Sample.fresh;
        calls := calls Sample.fresh ++ [App.analyze_request Sample.analyze_prompt] |}).
Proof.
  apply (analyze_falsy_json_silent (Sample.answers "null") "resume" "" "" "Version 1"
           false Sample.fresh "null" PNone).
  - reflexivity.
  - vm_compute. reflexivity.
  - reflexivity.
Defined.

(** X16. What an answer that parses does to the handler, case by case,
    when no text in the parsed value holds a surrogate, so that Streamlit
    can draw whatever it is given of it.  A false value: it returns.  A
    dict whose four itemised fields are iterable and whose two joined
    fields are iterables of texts, missing keys included: it returns.
    Any other dict that is not empty: a [TypeError] leaves the handler.
    Any other true value: an [AttributeError] naming its type leaves the
    handler. *)
Theorem analyze_handler_outcome
    (client : request -> api_result)
    (text job_description user_question version_name : string) (save_clicked : bool)
    (w : world) (raw : string) (v : pyval) :
  client (App.analyze_request (Prompt.make_prompt text (Some job_description)
                                 (Some user_question) "analyze")) = ApiOk raw ->
  Json.loads raw = Json.Loaded v ->
  Py.encodable v = true ->
  (Py.truthy v = false
   /\ fst (App.analyze_handler client text job_description user_question version_name
             save_clicked w) = Return tt)
  \/ (exists o, v = PDict o /\ Py.truthy v = true /\ Page.renderable o = true
      /\ fst (App.analyze_handler client text job_description user_question version_name
                save_clicked w) = Return tt)
  \/ (exists o msg, v = PDict o /\ Py.truthy v = true /\ Page.renderable o = false
      /\ fst (App.analyze_handler client text job_description user_question version_name
                save_clicked w) = Raise (TypeError msg))
  \/ (Py.truthy v = true /\ (forall o, v <> PDict o)
      /\ fst (App.analyze_handler client text job_description user_question version_name
                save_clicked w)
         = Raise (AttributeError ("'" +:+ Py.type_name v
                                  +:+ "' object has no attribute 'get'"))).
Proof.
  intros Hc Hl _.
  assert (fst (App.analyze_handler client text job_description user_question version_name
                 save_clicked w)
          = if Py.truthy v
            then fst (App.show_analysis version_name save_clicked v
                        (snd (App.analyze_call client
                                (Prompt.make_prompt text (Some job_description)
                                   (Some user_question) "analyze") w)))
            else Return tt) as Hfst.
  { unfold App.analyze_handler, App.analyze_call, mbind, script_bind, Script.bind,
      App.create.
    rewrite Hc, Hl. unfold Script.ret, Script.when. cbn [snd].
    destruct (Py.truthy v); reflexivity. }
  rewrite Hfst. destruct (Py.truthy v) eqn:Hv; [| left; split; reflexivity].
  right.
  assert ((exists o, v = PDict o) \/ forall o, v <> PDict o) as [[o ->] | Hnd].
  { destruct v; eauto; right; intros o; discriminate. }
  - destruct (fst_show_analysis version_name save_clicked o
                (snd (App.analyze_call client
                        (Prompt.make_prompt text (Some job_description)
                           (Some user_question) "analyze") w)))
      as [[Hr Hf] | [Hr [msg Hf]]].
    + left. exists o. rewrite Hf. auto.
    + right; left. exists o, msg. rewrite Hf. auto.
  - right; right. rewrite show_analysis_not_a_dict by exact Hnd. auto.
Qed.

(** An object with a number where a sequence is expected. *)
Lemma analyze_handler_outcome_witness :
  (Py.truthy (PDict [("strengths", PInt 5)]) = false
   /\ fst (App.analyze_handler (Sample.answers Sample.number_for_sequence) "resume" "" ""
             "Version 1" false Sample.fresh) = Return tt)
  \/ (exists o, PDict [("strengths", PInt 5)] = PDict o
        /\ Py.truthy (PDict [("strengths", PInt 5)]) = true /\ Page.renderable o = true
        /\ fst (App.analyze_handler (Sample.answers Sample.number_for_sequence) "resume" ""
                  "" "Version 1" false Sample.fresh) = Return tt)
  \/ (exists o msg, PDict [("strengths", PInt 5)] = PDict o
        /\ Py.truthy (PDict [("strengths", PInt 5)]) = true /\ Page.renderable o = false
        /\ fst (App.analyze_handler (Sample.answers Sample.number_for_sequence) "resume" ""
                  "" "Version 1" false Sample.fresh) = Raise (TypeError msg))
  \/ (Py.truthy (PDict [("strengths", PInt 5)]) = true
      /\ (forall o, PDict [("strengths", PInt 5)] <> PDict o)
      /\ fst (App.analyze_handler (Sample.answers Sample.number_for_sequence) "resume" ""
                "" "Version 1" false Sample.fresh)
         = Raise (AttributeError ("'" +:+ Py.type_name (PDict [("strengths", PInt 5)])
                                  +:+ "' object has no attribute 'get'"))).
Proof.
  apply (analyze_handler_outcome (Sample.answers Sample.number_for_sequence)
           "resume" "" "" "Version 1" false Sample.fresh Sample.number_for_sequence
           (PDict [("strengths", PInt 5)])).
  - reflexivity.
  - vm_compute. reflexivity.
  - reflexivity.
Defined.

Section FirstCharacter.
Import Json Page.

Lemma not_digit_not_zero c : is_digit c = false -> Ascii.eqb c "0" = false.
Proof.
  intros H. destruct (Ascii.eqb c "0") eqn:E; [| reflexivity].
  apply Ascii.eqb_eq in E. subst c. discriminate H.
Qed.

(** A document that begins with a character no JSON document begins with
    is rejected at its first character. *)
Lemma loads_first_character c rest :
  may_start_json c = false ->
  loads (String c rest)
  = JSONDecodeError "Expecting value: line 1 column 1 (char 0)".
Proof.
  unfold may_start_json. intros H.
  repeat (apply orb_false_iff in H; destruct H as [H ?]).
  unfold loads.
  assert (Text.startswith BOM (String c rest) = false) as ->.
  { let b := eval vm_compute in BOM in change BOM with b.
    let a := eval vm_compute in (ascii_of_nat 239) in
      change (ascii_of_nat 239) with a in H.
    cbn [Text.startswith]. now rewrite H. }
  assert (ws_end (String c rest) 0 = 0%nat) as ->.
  { unfold ws_end, drop. cbn [String.length Nat.min Nat.sub substring skip_ws].
    match goal with Hws : is_ws c = false |- _ => now rewrite Hws end. }
  cbn [String.length scan_once String.get].
  unfold drop. cbn [String.length Nat.sub substring match_number].
  unfold match_unsigned, match_integer.
  match goal with Hd : is_digit c = false |- _ =>
    rewrite !(not_digit_not_zero c Hd), !Hd
  end.
  repeat match goal with
         | Hc : Ascii.eqb c _ = false |- _ => rewrite !Hc; clear Hc
         end.
  reflexivity.
Qed.

End FirstCharacter.

(** X17. An answer whose first character cannot begin a JSON document
    (the backtick of a markdown fence, a letter of prose other than n, t,
    f, N and I, a bracket of the wrong kind) is never parsed, whatever
    follows it: the handler draws the one error "Expecting value: line 1
    column 1 (char 0)" and no analysis, and the session is unchanged. *)
Theorem analyze_rejects_first_character
    (client : request -> api_result)
    (text job_description user_question version_name : string) (save_clicked : bool)
    (w : world) (c : ascii) (rest : string) :
  Page.may_start_json c = false ->
  client (App.analyze_request (Prompt.make_prompt text (Some job_description)
                                 (Some user_question) "analyze"))
  = ApiOk (String c rest) ->
  Json.loads (String c rest)
  = Json.JSONDecodeError "Expecting value: line 1 column 1 (char 0)"
  /\ App.analyze_handler client text job_description user_question version_name
       save_clicked w
     = (Return tt,
        {| session := session w;
           shown := shown w
             ++ [st_error "OpenAI API call failed: Expecting value: line 1 column 1 (char 0)"];
           calls := calls w ++ [App.analyze_request
                                  (Prompt.make_prompt text (Some job_description)
                                     (Some user_question) "analyze")] |}).
Proof.
  intros Hc Hclient.
  pose proof (loads_first_character c rest Hc) as Hl.
  split; [exact Hl |].
  now rewrite (analyze_handler_not_json client _ _ _ _ _ _ _ _ Hclient Hl).
Qed.

(** A fenced answer: a backtick first, anything after it. *)
Lemma analyze_rejects_first_character_witness :
  Json.loads (String "`" "``json {} ```")
  = Json.JSONDecodeError "Expecting value: line 1 column 1 (char 0)"
  /\ App.analyze_handler (Sample.answers (String "`" "``json {} ```")) "resume" "" ""
       "Version 1" false Sample.fresh
     = (Return tt,
        {| session := session Sample.fresh;
           shown := shown Sample.fresh
             ++ [st_error "OpenAI API call failed: Expecting value: line 1 column 1 (char 0)"];
           calls := calls Sample.fresh ++ [App.analyze_request Sample.analyze_prompt] |}).
Proof.
  apply (analyze_rejects_first_character (Sample.answers (String "`" "``json {} ```"))
           "resume" "" "" "Version 1" false Sample.fresh "`" "``json {} ```").
  - reflexivity.
  - reflexivity.
Defined.

(* ===================================================================== *)
(** * One run of the page                                                 *)
(* ===================================================================== *)

Section Respects.
Import Script App Page.

(** A relation between the world before and the world after that every
    drawing step keeps. *)
Variable R : world -> world -> Prop.
Hypothesis R_refl : forall w, R w w.
Hypothesis R_trans : forall a b c, R a b -> R b c -> R a c.
Hypothesis R_draw : forall ev w, R w (snd (draw ev w)).

(** [m] keeps [R], whether it returns or raises. *)
Definition respects {A} (m : script A) : Prop := forall w, R w (snd (m w)).

Lemma respects_ret {A} (a : A) : respects (mret a).
Proof. intros w. apply R_refl. Qed.

Lemma respects_raise {A} e : respects (@raise A e).
Proof. intros w. apply R_refl. Qed.

Lemma respects_draw ev : respects (draw ev).
Proof. intros w. apply R_draw. Qed.

Lemma respects_get_session : respects get_session.
Proof. intros w. apply R_refl. Qed.

Lemma respects_bind {A B} (m : script A) (k : A -> script B) :
  respects m -> (forall a, respects (k a)) -> respects (m ≫= k).
Proof.
  intros Hm Hk w. unfold mbind, script_bind, bind.
  specialize (Hm w). destruct (m w) as [[a | e] w']; simpl in *.
  - eapply R_trans; [exact Hm | apply Hk].
  - exact Hm.
Qed.

Lemma respects_for_each {A} (items : list A) (body : A -> script unit) :
  (forall x, respects (body x)) -> respects (for_each items body).
Proof.
  intros Hb. induction items as [|x items IH].
  - apply respects_ret.
  - simpl. apply (respects_bind (body x) (fun _ => for_each items body)); auto.
Qed.

Lemma respects_when b (m : script unit) : respects m -> respects (when b m).
Proof. intros H. destruct b; [exact H | apply respects_ret]. Qed.

Lemma respects_py_get obj key default : respects (py_get obj key default).
Proof. destruct obj; intros w; apply R_refl. Qed.

Lemma respects_py_for v body : (forall x, respects (body x)) -> respects (py_for v body).
Proof.
  intros Hb. unfold py_for.
  destruct (Py.iter v); [now apply respects_for_each | apply respects_raise].
Qed.

Lemma respects_py_join sep v : respects (py_join sep v).
Proof.
  unfold py_join. destruct (Py.iter v); [| apply respects_raise].
  destruct (join_items 0 l); [apply respects_ret | apply respects_raise].
Qed.

Lemma respects_score_item scores key : respects (score_item scores key).
Proof.
  unfold score_item. destruct (Score.item key scores);
    [apply respects_ret | apply respects_raise].
Qed.

(** One step of a proof that a script keeps [R]: a leaf, or a bind. *)
Ltac respects_step :=
  match goal with
  | |- respects (draw _) => apply respects_draw
  | |- respects (mret _) => apply respects_ret
  | |- respects (ret _) => apply respects_ret
  | |- respects (raise _) => apply respects_raise
  | |- respects get_session => apply respects_get_session
  | |- respects (py_get _ _ _) => apply respects_py_get
  | |- respects (py_join _ _) => apply respects_py_join
  | |- respects (score_item _ _) => apply respects_score_item
  | |- respects (py_for _ _) => apply respects_py_for; intros ?
  | |- respects (when _ _) => apply respects_when
  | |- respects (_ ≫= _) => apply respects_bind; [| intros ?]
  end.

Lemma respects_bullet_section title key result :
  respects (bullet_section title key result).
Proof. unfold bullet_section. repeat respects_step. Qed.

Lemma respects_joined_section title key result :
  respects (joined_section title key result).
Proof. unfold joined_section. repeat respects_step. Qed.

Lemma respects_scorecard text : respects (scorecard text).
Proof. unfold scorecard. repeat respects_step. Qed.

Lemma respects_demo_scorecard text : respects (demo_scorecard text).
Proof. unfold demo_scorecard. repeat respects_step. Qed.

Lemma respects_extract_text file : respects (extract_text file).
Proof.
  unfold extract_text.
  destruct (endswith ".pdf" _); [destruct (pdf_pages file); repeat respects_step |].
  destruct (endswith ".docx" _); [destruct (docx_paragraphs file) |];
    repeat respects_step.
Qed.

Lemma respects_version_viewer selected : respects (version_viewer selected).
Proof.
  unfold version_viewer. repeat respects_step.
  destruct (versions a !! selected); repeat respects_step.
Qed.

Lemma respects_show_analysis name clicked result :
  (forall text, respects (save_version_widget name clicked text)) ->
  respects (show_analysis name clicked result).
Proof.
  intros Hw. unfold show_analysis.
  repeat first
    [ respects_step
    | match goal with
      | |- respects (bullet_section _ _ _) => apply respects_bullet_section
      | |- respects (joined_section _ _ _) => apply respects_joined_section
      | |- respects (save_version_widget _ _ _) => apply Hw
      end ].
Qed.

Section WithClient.
Variable client : request -> api_result.
Hypothesis R_create : forall req, well_formed req -> respects (create client req).

Lemma well_formed_analyze_request prompt : well_formed (analyze_request prompt).
Proof. unfold well_formed. simpl. eauto 6. Qed.

Lemma well_formed_text_request prompt : well_formed (text_request prompt).
Proof. unfold well_formed. simpl. eauto 6. Qed.

Lemma respects_analyze_handler text job_description user_question name clicked :
  (forall rewritten, respects (save_version_widget name clicked rewritten)) ->
  respects (analyze_handler client text job_description user_question name clicked).
Proof.
  intros Hw. unfold analyze_handler, analyze_call.
  apply respects_bind.
  - apply respects_bind; [apply R_create, well_formed_analyze_request |].
    intros [content | e]; [destruct (Json.loads content) |]; repeat respects_step.
  - intros result. apply respects_when. now apply respects_show_analysis.
Qed.

Lemma respects_text_handler mode title label text job_description :
  respects (text_handler client mode title label text job_description).
Proof.
  unfold text_handler.
  apply respects_bind; [apply R_create, well_formed_text_request |].
  intros [content | e]; repeat respects_step.
Qed.

(** The upload branch keeps [R] as soon as the Analyze handler, if it is
    asked for, does. *)
Lemma respects_upload_branch inp file :
  (forall text,
      respects (when (analyze_clicked inp)
                  (analyze_handler client text (job_description inp) (user_question inp)
                     (version_name inp) (save_clicked inp)))) ->
  respects (upload_branch client inp file).
Proof.
  intros Ha. unfold upload_branch.
  apply respects_bind; [apply respects_extract_text |].
  intros text. destruct (blank text); [apply respects_draw |].
  repeat first
    [ match goal with
      | |- respects (when _ (analyze_handler _ _ _ _ _ _)) => apply Ha
      | |- respects (scorecard _) => apply respects_scorecard
      | |- respects (version_viewer _) => apply respects_version_viewer
      | |- respects (cover_letter_handler _ _ _) => apply respects_text_handler
      | |- respects (linkedin_handler _ _ _) => apply respects_text_handler
      | |- respects (interview_handler _ _ _) => apply respects_text_handler
      end
    | respects_step ].
Qed.

(** The branch without an upload keeps [R] as soon as the chat block
    does. *)
Lemma respects_demo_branch inp :
  respects (chat_handler client (demo inp) (job_description inp) (user_input inp)) ->
  respects (demo_branch client inp).
Proof.
  intros Hc. unfold demo_branch. apply respects_when.
  apply respects_bind; [apply respects_demo_scorecard | intros _; exact Hc].
Qed.

(** A whole run keeps [R] as soon as the three places that write to the
    session do: the Analyze handler, the chat block and "Clear Chat". *)
Lemma respects_main inp :
  (forall text,
      respects (when (analyze_clicked inp)
                  (analyze_handler client text (job_description inp) (user_question inp)
                     (version_name inp) (save_clicked inp)))) ->
  respects (chat_handler client (demo inp) (job_description inp) (user_input inp)) ->
  respects clear_chat ->
  respects (main client inp).
Proof.
  intros Ha Hc Hclear. unfold main.
  apply respects_bind; [| intros _; now apply respects_when].
  destruct (uploaded inp) as [file |];
    [now apply respects_upload_branch | now apply respects_demo_branch].
Qed.

End WithClient.

End Respects.

(** ** Runs of the whole page *)

Section RunFacts.
Import Script App Page.
Variable client : request -> api_result.

Lemma sends_only_refl P w : sends_only P w w.
Proof. exists []. now rewrite app_nil_r. Qed.

Lemma sends_only_trans P a b c :
  sends_only P a b -> sends_only P b c -> sends_only P a c.
Proof.
  intros [n1 [E1 F1]] [n2 [E2 F2]]. exists (n1 ++ n2). split.
  - now rewrite E2, E1, app_assoc.
  - now apply Forall_app.
Qed.

Lemma sends_only_same_calls P w w' : calls w' = calls w -> sends_only P w w'.
Proof. intros H. exists []. now rewrite app_nil_r. Qed.

Lemma sends_only_create P req : P req -> respects (sends_only P) (create client req).
Proof. intros H w. exists [req]. split; [reflexivity | now constructor]. Qed.

Lemma sends_only_chat_handler demo job_description user_input :
  respects (sends_only well_formed)
    (chat_handler client demo job_description user_input).
Proof.
  intros w. rewrite chat_handler_run. eexists. split; [reflexivity |].
  destruct user_input as [msg |]; [| constructor].
  destruct (Text.nonempty msg); repeat constructor.
  apply well_formed_text_request.
Qed.

Lemma sends_only_main inp : respects (sends_only well_formed) (main client inp).
Proof.
  assert (Hrefl := sends_only_refl well_formed).
  assert (Htrans := sends_only_trans well_formed).
  assert (Hdraw : forall ev w, sends_only well_formed w (snd (draw ev w)))
    by (intros; now apply sends_only_same_calls).
  assert (Hcreate : forall req, well_formed req ->
                      respects (sends_only well_formed) (create client req))
    by (intros; now apply sends_only_create).
  apply (respects_main _ Hrefl Htrans Hdraw _ Hcreate).
  - intros text. apply respects_when; [assumption |].
    apply (respects_analyze_handler _ Hrefl Htrans Hdraw _ Hcreate).
    intros rewritten w. rewrite save_version_widget_run.
    now apply sends_only_same_calls.
  - apply sends_only_chat_handler.
  - intros w. now apply sends_only_same_calls.
Qed.

(** *** The saved versions *)

Lemma saves_under_refl label w : saves_under label w w.
Proof. now left. Qed.

Lemma saves_under_same label w w' :
  versions (session w') = versions (session w) -> saves_under label w w'.
Proof. intros H. now left. Qed.

Lemma saves_under_trans label a b c :
  saves_under label a b -> saves_under label b c -> saves_under label a c.
Proof.
  unfold saves_under. intros [E1 | [t1 E1]] [E2 | [t2 E2]]; rewrite E2, E1.
  - now left.
  - right. now exists t2.
  - right. now exists t1.
  - right. exists t2. apply insert_insert_eq.
Qed.

Lemma saves_under_main inp :
  respects (saves_under (version_name inp)) (main client inp).
Proof.
  assert (Hrefl := saves_under_refl (version_name inp)).
  assert (Htrans := saves_under_trans (version_name inp)).
  assert (Hdraw : forall ev w, saves_under (version_name inp) w (snd (draw ev w)))
    by (intros; now apply saves_under_same).
  assert (Hcreate : forall req, well_formed req ->
                      respects (saves_under (version_name inp)) (create client req))
    by (intros req _ w; now apply saves_under_same).
  apply (respects_main _ Hrefl Htrans Hdraw _ Hcreate).
  - intros text. apply respects_when; [assumption |].
    apply (respects_analyze_handler _ Hrefl Htrans Hdraw _ Hcreate).
    intros rewritten w. rewrite save_version_widget_run.
    destruct (save_clicked inp); [right; now exists rewritten | now left].
  - intros w. rewrite chat_handler_run. now left.
  - intros w. now left.
Qed.

Lemma same_versions_trans a b c :
  same_versions a b -> same_versions b c -> same_versions a c.
Proof. unfold same_versions. congruence. Qed.

(** Without the three of them, an upload, "Analyze & Rewrite Resume" and
    "Save Resume Version", a run leaves the versions alone. *)
Lemma same_versions_main inp :
  uploaded inp = None \/ analyze_clicked inp = false \/ save_clicked inp = false ->
  respects same_versions (main client inp).
Proof.
  intros Hnot.
  assert (Hrefl : forall w, same_versions w w) by reflexivity.
  assert (Htrans := same_versions_trans).
  assert (Hdraw : forall ev w, same_versions w (snd (draw ev w))) by reflexivity.
  assert (Hcreate : forall req, well_formed req ->
                      respects same_versions (create client req))
    by (intros req _ w; reflexivity).
  assert (Hchat : forall demo job_description user_input,
             respects same_versions (chat_handler client demo job_description user_input))
    by (intros ? ? ? w; now rewrite chat_handler_run).
  assert (Hclear : respects same_versions clear_chat) by (intros w; reflexivity).
  destruct Hnot as [Hup | Hnot].
  - unfold main. rewrite Hup.
    apply (respects_bind _ Htrans).
    + apply (respects_demo_branch _ Hrefl Htrans Hdraw), Hchat.
    + intros _. apply (respects_when _ Hrefl), Hclear.
  - apply (respects_main _ Hrefl Htrans Hdraw _ Hcreate); [| apply Hchat | exact Hclear].
    intros text. destruct (analyze_clicked inp); [| now apply respects_ret].
    destruct Hnot as [Hnot | Hnot]; [discriminate Hnot |]. rewrite Hnot.
    apply (respects_analyze_handler _ Hrefl Htrans Hdraw _ Hcreate).
    intros rewritten w. now rewrite save_version_widget_run.
Qed.

(** *** The chat log under an upload *)

Lemma same_chat_upload_branch inp file :
  respects same_chat (upload_branch client inp file).
Proof.
  assert (Hrefl : forall w, same_chat w w) by reflexivity.
  assert (Htrans : forall a b c, same_chat a b -> same_chat b c -> same_chat a c)
    by (unfold same_chat; congruence).
  assert (Hdraw : forall ev w, same_chat w (snd (draw ev w))) by reflexivity.
  assert (Hcreate : forall req, well_formed req ->
                      respects same_chat (create client req))
    by (intros req _ w; reflexivity).
  apply (respects_upload_branch _ Hrefl Htrans Hdraw _ Hcreate).
  intros text. apply respects_when; [assumption |].
  apply (respects_analyze_handler _ Hrefl Htrans Hdraw _ Hcreate).
  intros rewritten w. rewrite save_version_widget_run.
  now destruct (save_clicked inp).
Qed.

(** *** The scorecard of the demo text *)

Lemma demo_scorecard_run text :
  exists events, forall w, demo_scorecard text w = (Return tt, add_shown events w).
Proof.
  unfold demo_scorecard. rewrite resume_score_items. eexists. intros w.
  destruct w as [s sh cs]; cbv [mbind script_bind Script.bind Script.draw App.score_item
    Score.item String.eqb Ascii.eqb Bool.eqb Script.ret Script.raise shown session calls
    add_shown].
  simpl. rewrite <- !app_assoc. reflexivity.
Qed.

End RunFacts.

(** X18. Whatever the widgets return and whatever the endpoint answers,
    a run only adds requests to those already sent, and each one it adds
    names the model gpt-3.5-turbo, carries a single user message, asks
    for at most 512 tokens and passes either no temperature or 0.2. *)
Theorem page_requests_well_formed
    (client : request -> api_result) (inp : Page.widgets) (w : world) :
  exists new,
    calls (snd (Page.main client inp w)) = calls w ++ new
    /\ Forall Page.well_formed new.
Proof. apply (sends_only_main client inp w). Qed.

(** X19. When the text extracted from the upload is empty or white space
    only, the page shows the "Could not extract text" error and stops
    there: no scorecard, no request whatever buttons are pressed, no
    version viewer; only "Clear Chat" still acts. *)
Theorem blank_upload_stops_the_page
    (client : request -> api_result) (inp : Page.widgets) (file : Page.uploaded_file)
    (text : string) (w w' : world) :
  Page.uploaded inp = Some file ->
  Page.extract_text file w = (Return text, w') ->
  Page.blank text = true ->
  Page.main client inp w
  = Script.when (Page.clear_clicked inp) App.clear_chat
      (add_shown [st_error "Could not extract text. Try a different file or paste below."]
         w').
Proof.
  intros Hup Hext Hblank.
  unfold Page.main, Page.upload_branch. rewrite Hup.
  unfold mbind, script_bind, Script.bind. rewrite Hext, Hblank.
  reflexivity.
Qed.

(** The scanned CV with every button pressed: one error, no request, and
    the chat cleared. *)
Lemma blank_upload_stops_the_page_witness :
  Page.main (Sample.answers "{}") Visit.scanned_all_pressed Sample.fresh
  = Script.when true App.clear_chat
      (add_shown [st_error "Could not extract text. Try a different file or paste below."]
         Sample.fresh).
Proof.
  apply (blank_upload_stops_the_page (Sample.answers "{}") Visit.scanned_all_pressed
           Visit.scanned_cv (String "010" EmptyString) Sample.fresh Sample.fresh);
    reflexivity.
Defined.

(** X20. A run changes the saved versions by at most one assignment, under
    the label typed in the box, and only when a file is uploaded and both
    "Analyze & Rewrite Resume" and "Save Resume Version" are pressed;
    otherwise the versions are what they were, whether the run returns or
    raises. *)
Theorem run_saves_at_most_one_version
    (client : request -> api_result) (inp : Page.widgets) (w : world) :
  versions (session (snd (Page.main client inp w))) = versions (session w)
  \/ (is_Some (Page.uploaded inp)
      /\ Page.analyze_clicked inp = true
      /\ Page.save_clicked inp = true
      /\ exists text,
           versions (session (snd (Page.main client inp w)))
           = <[Page.version_name inp := text]> (versions (session w))).
Proof.
  destruct (Page.uploaded inp) as [file |] eqn:Hup;
    [| left; apply (same_versions_main client inp); now left].
  destruct (Page.analyze_clicked inp) eqn:Ha;
    [| left; apply (same_versions_main client inp); right; now left].
  destruct (Page.save_clicked inp) eqn:Hs;
    [| left; apply (same_versions_main client inp); right; now right].
  destruct (saves_under_main client inp w) as [H | H]; [now left | right].
  repeat split; eauto.
Qed.

(** X21. With a file uploaded, nothing but "Clear Chat" touches the chat
    log: after a run that returns the log is empty if the button was
    pressed and what it was otherwise; and when the run raises the log is
    what it was, the button having had no effect. *)
Theorem upload_run_keeps_chat_history
    (client : request -> api_result) (inp : Page.widgets) (file : Page.uploaded_file)
    (w : world) :
  Page.uploaded inp = Some file ->
  chat_history (session (snd (Page.main client inp w)))
  = match fst (Page.main client inp w) with
    | Return _ =>
        if Page.clear_clicked inp then Some [] else chat_history (session w)
    | Raise _ => chat_history (session w)
    end.
Proof.
  intros Hup. unfold Page.main. rewrite Hup.
  unfold mbind, script_bind, Script.bind.
  pose proof (same_chat_upload_branch client inp file w) as Hsame.
  unfold same_chat in Hsame.
  destruct (Page.upload_branch client inp file w) as [[[] | e] w1]; simpl in *.
  - destruct (Page.clear_clicked inp); simpl; [reflexivity | exact Hsame].
  - exact Hsame.
Qed.

(** The scanned CV, uploaded in a session that holds one exchange. *)
Lemma upload_run_keeps_chat_history_witness :
  chat_history
    (session (snd (Page.main (Sample.fails "timeout") Visit.scanned_all_pressed
                     Visit.after_one_exchange)))
  = match fst (Page.main (Sample.fails "timeout") Visit.scanned_all_pressed
                 Visit.after_one_exchange) with
    | Return _ =>
        if Page.clear_clicked Visit.scanned_all_pressed then Some []
        else chat_history (session Visit.after_one_exchange)
    | Raise _ => chat_history (session Visit.after_one_exchange)
    end.
Proof.
  apply (upload_run_keeps_chat_history (Sample.fails "timeout") Visit.scanned_all_pressed
           Visit.scanned_cv Visit.after_one_exchange).
  reflexivity.
Defined.

(** X22. Without an upload, and as long as what is submitted to the chat
    and answered can be drawn, a run does not raise; and it never touches
    the saved versions.  The chat log ends empty when "Clear Chat" is
    pressed; otherwise it gains the turns of the submission when demo
    text is present and "Analyze Demo Text" is pressed, and is left as it
    was when not.  At most one request is sent, for a non-empty chat
    message under that same condition. *)
Theorem run_without_upload
    (client : request -> api_result) (inp : Page.widgets) (w : world) :
  Page.uploaded inp = None ->
  Page.encodable_submission client (Page.demo inp) (Page.job_description inp)
    (Page.user_input inp) = true ->
  fst (Page.main client inp w) = Return tt
  /\ versions (session (snd (Page.main client inp w))) = versions (session w)
  /\ chat_history (session (snd (Page.main client inp w)))
     = (if Page.clear_clicked inp then Some []
        else if Text.nonempty (Page.demo inp) && Page.analyze_demo_clicked inp
             then Some (default [] (chat_history (session w))
                        ++ new_turns client (Page.demo inp) (Page.job_description inp)
                             (Page.user_input inp))
             else chat_history (session w))
  /\ calls (snd (Page.main client inp w))
     = calls w
       ++ (if Text.nonempty (Page.demo inp) && Page.analyze_demo_clicked inp
           then match Page.user_input inp with
                | Some msg =>
                    if Text.nonempty msg
                    then [App.text_request
                            (Prompt.make_prompt (Page.demo inp)
                               (Some (Page.job_description inp)) (Some msg) "analyze")]
                    else []
                | None => []
                end
           else []).
Proof.
  intros Hup _. unfold Page.main, Page.demo_branch. rewrite Hup.
  destruct (demo_scorecard_run (Page.demo inp)) as [events Hscore].
  unfold mbind, script_bind, Script.bind, Script.when.
  destruct (Text.nonempty (Page.demo inp) && Page.analyze_demo_clicked inp).
  - rewrite Hscore, chat_handler_run.
    destruct (Page.clear_clicked inp); simpl; repeat apply conj; reflexivity.
  - destruct (Page.clear_clicked inp); simpl; rewrite ?app_nil_r;
      repeat apply conj; reflexivity.
Qed.

(** A question typed while the endpoint is down. *)
Lemma run_without_upload_witness :
  fst (Page.main (Sample.fails "timeout") Visit.question_only Visit.after_one_exchange)
  = Return tt.
Proof.
  apply (run_without_upload (Sample.fails "timeout") Visit.question_only
           Visit.after_one_exchange); reflexivity.
Defined.

(** X23. The chat box only works together with the demo button: in a run
    without an upload in which the demo text is empty or "Analyze Demo
    Text" is not pressed, whatever is typed in the chat box is dropped.
    Nothing is drawn, nothing is sent and nothing is stored; only "Clear
    Chat" acts. *)
Theorem chat_needs_the_demo_button
    (client : request -> api_result) (inp : Page.widgets) (w : world) :
  Page.uploaded inp = None ->
  Text.nonempty (Page.demo inp) && Page.analyze_demo_clicked inp = false ->
  Page.main client inp w
  = (Return tt,
     if Page.clear_clicked inp
     then set_session {| versions := versions (session w); chat_history := Some [] |} w
     else w).
Proof.
  intros Hup Hoff. unfold Page.main, Page.demo_branch. rewrite Hup, Hoff.
  destruct (Page.clear_clicked inp); reflexivity.
Qed.

(** A question typed under pasted demo text, the button not pressed. *)
Lemma chat_needs_the_demo_button_witness :
  Page.main (Sample.answers "Yes.") Visit.question_only Visit.after_one_exchange
  = (Return tt, Visit.after_one_exchange).
Proof.
  apply (chat_needs_the_demo_button (Sample.answers "Yes.") Visit.question_only
           Visit.after_one_exchange); reflexivity.
Defined.
